(** * CureSight: the triage safety-override and response-validation pipeline

    A shallow embedding of the two edge functions [analyze-symptoms] and
    [medication-info] (supabase/functions) and of the properties the
    specification states about them.

    Modelling conventions.
    - A JavaScript string is a [string], the bytes of its UTF-8 encoding.
    - The handlers are embedded twice.  The definitions of the first part
      take letter case and white space from the ASCII range ([Js]): they
      compute, and on ASCII text they are the builtins.  The module
      [Platform] embeds the same lines for any text: white space is the
      white space of ECMAScript, and [toLowerCase] and [toUpperCase] are
      the platform's functions, Section variables like [JSON.parse].  The
      theorems that depend on what the builtins do to a text outside ASCII
      are stated on [Platform]; [ascii_handlers_agree] relates the two.
    - A value produced by [JSON.parse] is a [json]; [undefined] is [None]
      in [option json].
    - [throw] / [try ... catch] is the error monad [result].
    - [JSON.parse] itself is a builtin of the platform: it is a Section
      variable, every theorem holds for any such function.
    - The collaborators (rule table, guidance table, model endpoint) are the
      fields of [env]; what the handler does to them is the event trace it
      returns next to the HTTP response. *)

From Stdlib Require Import String Ascii List Bool ZArith NArith Lia.
Import ListNotations.
Open Scope string_scope.

(* ================================================================== *)
(** ** Exceptions *)

Inductive result (A : Type) : Type :=
| Ok (a : A)
| Throw (message : string).
Arguments Ok {A} a.
Arguments Throw {A} message.

Definition bind {A B : Type} (r : result A) (k : A -> result B) : result B :=
  match r with
  | Ok a => k a
  | Throw m => Throw m
  end.

Notation "x <- e ;; k" := (bind e (fun x => k))
  (at level 61, e at next level, right associativity).
Notation "e ;;; k" := (bind e (fun _ => k))
  (at level 61, right associativity).

(* ================================================================== *)
(** ** Strings: the builtins the handlers call *)

Module Js.

Definition between (lo hi : N) (c : ascii) : bool :=
  let n := N_of_ascii c in (lo <=? n)%N && (n <=? hi)%N.

(** [toLowerCase] and [toUpperCase] on ASCII text, one character: the
    letters A to Z and a to z change case, every other byte is kept.  On a
    text outside ASCII the platform's functions do more (they map
    letters of other alphabets, and some to ASCII letters); the handlers
    for such text are those of [Platform]. *)
Definition lowerChar (c : ascii) : ascii :=
  if between 65 90 c then ascii_of_N (N_of_ascii c + 32) else c.

Definition upperChar (c : ascii) : ascii :=
  if between 97 122 c then ascii_of_N (N_of_ascii c - 32) else c.

Fixpoint mapChars (f : ascii -> ascii) (s : string) : string :=
  match s with
  | EmptyString => EmptyString
  | String c s' => String (f c) (mapChars f s')
  end.

Definition toLowerCase : string -> string := mapChars lowerChar.
Definition toUpperCase : string -> string := mapChars upperChar.

(** [t] is a prefix of [s] ([s.startsWith(t)]). *)
Fixpoint startsWith (s t : string) {struct t} : bool :=
  match t with
  | EmptyString => true
  | String d t' =>
      match s with
      | EmptyString => false
      | String c s' => Ascii.eqb c d && startsWith s' t'
      end
  end.

(** [s.includes(t)]: [t] occurs somewhere in [s]. *)
Fixpoint includes (s t : string) : bool :=
  startsWith s t ||
  match s with
  | EmptyString => false
  | String _ s' => includes s' t
  end.

(** The white space of the ASCII range: U+0009 to U+000D and U+0020.
    [trim] and the class [\s] take more characters outside ASCII; the
    full class is [Platform.spaceWidth]. *)
Definition isSpace (c : ascii) : bool :=
  between 9 13 c || Ascii.eqb c " ".

Definition isDigit (c : ascii) : bool := between 48 57 c.

Fixpoint trimStart (s : string) : string :=
  match s with
  | EmptyString => EmptyString
  | String c s' => if isSpace c then trimStart s' else s
  end.

Fixpoint trimEnd (s : string) : string :=
  match s with
  | EmptyString => EmptyString
  | String c s' =>
      match trimEnd s' with
      | EmptyString => if isSpace c then EmptyString else String c EmptyString
      | r => String c r
      end
  end.

Definition trim (s : string) : string := trimEnd (trimStart s).

(** A string is truthy when it is not empty. *)
Definition nonEmpty (s : string) : bool :=
  match s with EmptyString => false | _ => true end.

(** Split [s] at the first occurrence of [t]: the text before it and the
    text after it. *)
Fixpoint splitAt (t s : string) : option (string * string) :=
  if startsWith s t then Some (EmptyString, substring (String.length t) (String.length s - String.length t) s)
  else
    match s with
    | EmptyString => None
    | String c s' =>
        match splitAt t s' with
        | Some (before, after) => Some (String c before, after)
        | None => None
        end
    end.

(** The prefix of [s] that ends with the last occurrence of the character
    [c]. *)
Fixpoint uptoLast (c : ascii) (s : string) : option string :=
  match s with
  | EmptyString => None
  | String d s' =>
      match uptoLast c s' with
      | Some p => Some (String d p)
      | None => if Ascii.eqb d c then Some (String d EmptyString) else None
      end
  end.

(** The suffix of [s] that starts at the first occurrence of [c]. *)
Fixpoint fromFirst (c : ascii) (s : string) : option string :=
  match s with
  | EmptyString => None
  | String d s' => if Ascii.eqb d c then Some s else fromFirst c s'
  end.

Definition dropPrefix (t s : string) : string :=
  if startsWith s t then substring (String.length t) (String.length s - String.length t) s else s.

(** [s.match(/```(?:json)?\s*([\s\S]*?)```/)], capture group 1.  The match
    starts at the first fence; the optional word and the blanks are taken
    greedily and the capture lazily, up to the next fence.  Neither the
    word nor a blank contains a backquote, so giving either back finds no
    fence that the greedy choice missed. *)
Definition matchFence (s : string) : option string :=
  match splitAt "```" s with
  | None => None
  | Some (_, rest) =>
      match splitAt "```" (trimStart (dropPrefix "json" rest)) with
      | Some (capture, _) => Some capture
      | None => None
      end
  end.

(** [s.match(/\{[\s\S]*\}/)], the whole match: from the first opening brace
    to the last closing brace after it. *)
Definition matchBraces (s : string) : option string :=
  match fromFirst "{" s with
  | Some (String c rest) =>
      match uptoLast "}" rest with
      | Some body => Some (String c body)
      | None => None
      end
  | _ => None
  end.

(** Case-insensitive comparison of the [i] flag: both characters are
    canonicalised to upper case. *)
Definition eqChar_i (a b : ascii) : bool := Ascii.eqb (upperChar a) (upperChar b).

(** The literal pattern [p] matches, ignoring case, at the start of [s]. *)
Fixpoint startsWith_i (s p : string) {struct p} : bool :=
  match p with
  | EmptyString => true
  | String d p' =>
      match s with
      | EmptyString => false
      | String c s' => eqChar_i c d && startsWith_i s' p'
      end
  end.

(** [s.replace(new RegExp(p, 'gi'), by)] for a non-empty pattern [p] made
    of letters and blanks (so that it is a literal) and a replacement
    without [$]: scanning from the left, every match is replaced and the
    scan resumes after it.  [skip] counts the characters of the last match
    that are still to be passed over. *)
Fixpoint replaceFrom (p by_ s : string) (skip : nat) : string :=
  match s with
  | EmptyString => EmptyString
  | String c s' =>
      match skip with
      | S k => replaceFrom p by_ s' k
      | O =>
          if startsWith_i s p then by_ ++ replaceFrom p by_ s' (String.length p - 1)
          else String c (replaceFrom p by_ s' 0)
      end
  end.

Definition replaceAll_i (p by_ s : string) : string := replaceFrom p by_ s 0.

(** [t] occurs in [s] when case is ignored, as the [gi] pattern sees it. *)
Fixpoint includes_i (s t : string) : bool :=
  startsWith_i s t ||
  match s with
  | EmptyString => false
  | String _ s' => includes_i s' t
  end.

(** One of the two is a prefix of the other, ignoring case. *)
Definition comparable_i (u p : string) : bool :=
  startsWith_i p u || startsWith_i u p.

Fixpoint nonemptySuffixes (s : string) : list string :=
  match s with
  | EmptyString => []
  | String _ s' => s :: nonemptySuffixes s'
  end.

(** No occurrence of [t] can overlap a copy of [by_]: no end of [t] is
    comparable with [by_], and [t] is comparable with no end of [by_]. *)
Definition borderFree (t by_ : string) : bool :=
  forallb (fun u => negb (comparable_i u by_)) (nonemptySuffixes t)
  && forallb (fun p => negb (comparable_i t p)) (nonemptySuffixes by_).

(** Exhaustive tests over the 256 characters. *)
Definition forall_bool (f : bool -> bool) : bool := f true && f false.

Definition forall_ascii (P : ascii -> bool) : bool :=
  forall_bool (fun b0 => forall_bool (fun b1 => forall_bool (fun b2 =>
  forall_bool (fun b3 => forall_bool (fun b4 => forall_bool (fun b5 =>
  forall_bool (fun b6 => forall_bool (fun b7 =>
    P (Ascii b0 b1 b2 b3 b4 b5 b6 b7))))))))).

End Js.

(* ================================================================== *)
(** ** Regular expressions: what [RegExp.prototype.test] decides

    Whether a pattern without back-references matches somewhere in a text
    is a property of its language, whatever the order in which the engine
    backtracks; it is computed here with derivatives. *)

Module Re.

Inductive re : Type :=
| Void
| Eps
| Class (p : ascii -> bool)
| Cat (r1 r2 : re)
| Alt (r1 r2 : re)
| Star (r : re).

Fixpoint nullable (r : re) : bool :=
  match r with
  | Void => false
  | Eps => true
  | Class _ => false
  | Cat r1 r2 => nullable r1 && nullable r2
  | Alt r1 r2 => nullable r1 || nullable r2
  | Star _ => true
  end.

Fixpoint deriv (c : ascii) (r : re) : re :=
  match r with
  | Void => Void
  | Eps => Void
  | Class p => if p c then Eps else Void
  | Cat r1 r2 =>
      if nullable r1 then Alt (Cat (deriv c r1) r2) (deriv c r2)
      else Cat (deriv c r1) r2
  | Alt r1 r2 => Alt (deriv c r1) (deriv c r2)
  | Star r1 => Cat (deriv c r1) (Star r1)
  end.

(** Some prefix of [s] is a word of [r]. *)
Fixpoint matchesPrefix (r : re) (s : string) : bool :=
  nullable r ||
  match s with
  | EmptyString => false
  | String c s' => matchesPrefix (deriv c r) s'
  end.

(** [r.test(s)] for an unanchored pattern: a match starts somewhere. *)
Fixpoint test (r : re) (s : string) : bool :=
  matchesPrefix r s ||
  match s with
  | EmptyString => false
  | String _ s' => test r s'
  end.

(** The words of a pattern. *)
Inductive Lang : re -> string -> Prop :=
| LangEps : Lang Eps EmptyString
| LangClass (p : ascii -> bool) (c : ascii) :
    p c = true -> Lang (Class p) (String c EmptyString)
| LangCat (r1 r2 : re) (w1 w2 : string) :
    Lang r1 w1 -> Lang r2 w2 -> Lang (Cat r1 r2) (w1 ++ w2)
| LangAltL (r1 r2 : re) (w : string) : Lang r1 w -> Lang (Alt r1 r2) w
| LangAltR (r1 r2 : re) (w : string) : Lang r2 w -> Lang (Alt r1 r2) w
| LangStarNil (r : re) : Lang (Star r) EmptyString
| LangStarCons (r : re) (w1 w2 : string) :
    Lang r w1 -> Lang (Star r) w2 -> Lang (Star r) (w1 ++ w2).

Definition plus (r : re) : re := Cat r (Star r).
Definition opt (r : re) : re := Alt r Eps.

(** A literal under the [i] flag. *)
Fixpoint lit_i (w : string) : re :=
  match w with
  | EmptyString => Eps
  | String c w' => Cat (Class (fun x => Js.eqChar_i x c)) (lit_i w')
  end.

Fixpoint anyOf (rs : list re) : re :=
  match rs with
  | [] => Void
  | r :: rs' => Alt r (anyOf rs')
  end.

End Re.

(* ================================================================== *)
(** ** Values of [JSON.parse] *)

#[warnings="-register-all"] Inductive json : Type :=
| JNull
| JBool (b : bool)
| JNum (n : Z)
| JStr (s : string)
| JArr (items : list json)
| JObj (fields : list (string * json)).

(** Numbers are only ever tested for truthiness and passed on, so they
    are kept as integers: zero is the falsy one. *)
Definition truthy (v : option json) : bool :=
  match v with
  | None => false
  | Some JNull => false
  | Some (JBool b) => b
  | Some (JNum n) => negb (n =? 0)%Z
  | Some (JStr s) => Js.nonEmpty s
  | Some (JArr _) => true
  | Some (JObj _) => true
  end.

Fixpoint getField (k : string) (fields : list (string * json)) : option json :=
  match fields with
  | [] => None
  | (k', v) :: rest => if String.eqb k' k then Some v else getField k rest
  end.

Fixpoint setField (k : string) (v : json) (fields : list (string * json))
  : list (string * json) :=
  match fields with
  | [] => [(k, v)]
  | (k', v') :: rest =>
      if String.eqb k' k then (k, v) :: rest else (k', v') :: setField k v rest
  end.

(** [v.k] for the property names the handlers read (none of them is a
    builtin property of a string or an array). *)
Definition prop (v : json) (k : string) : result (option json) :=
  match v with
  | JNull => Throw "TypeError: cannot read properties of null"
  | JObj fields => Ok (getField k fields)
  | _ => Ok None
  end.

(** [v.k = x].  The handlers assign only after the required-field check,
    which nothing but an object passes. *)
Definition assign (v : json) (k : string) (x : json) : json :=
  match v with
  | JObj fields => JObj (setField k x fields)
  | _ => v
  end.

(** [v.toUpperCase()], [v.toLowerCase()], [v.trim()]: methods of strings
    only. *)
Definition callToUpperCase (v : option json) : result string :=
  match v with
  | Some (JStr s) => Ok (Js.toUpperCase s)
  | _ => Throw "TypeError: toUpperCase is not a function"
  end.

Definition callToLowerCase (v : option json) : result string :=
  match v with
  | Some (JStr s) => Ok (Js.toLowerCase s)
  | _ => Throw "TypeError: toLowerCase is not a function"
  end.

Definition callTrim (v : json) : result string :=
  match v with
  | JStr s => Ok (Js.trim s)
  | _ => Throw "TypeError: trim is not a function"
  end.

(** [!text || text.trim().length === 0]: the guard of both handlers, with
    the [trim] of ASCII text ([Platform.missingText] for any text). *)
Definition missingText (text : string) : bool :=
  negb (Js.nonEmpty text) || (String.length (Js.trim text) =? 0)%nat.

(** [a || b] on strings. *)
Definition orElse (a b : string) : string := if Js.nonEmpty a then a else b.

(** The text handed to [JSON.parse]: code fences removed, then the
    outermost braces cut out (analyze-symptoms, lines 183-196; the same
    lines in medication-info). *)
Definition extractJson (trimmed : string) : string :=
  let cleanContent :=
    if Js.includes trimmed "```" then
      match Js.matchFence trimmed with
      | Some capture => Js.trim capture
      | None => trimmed
      end
    else trimmed in
  match Js.matchBraces cleanContent with
  | Some whole => whole
  | None => cleanContent
  end.

(* ================================================================== *)
(** ** Data model (src/types) and collaborators *)

(** The rows of [safety_rules] and [guidance_content], typed as the
    interfaces [SafetyRule] and [GuidanceContent] declare them. *)
Record SafetyRule : Type := {
  rule_id : string;
  keyword : string;
  category : string;
  rule_severity : string;
  override_text : string
}.

Record GuidanceContent : Type := {
  guidance_category : string;
  guidance_language : string;
  guidance_text : string
}.

(** The body of a triage request after destructuring with its defaults
    ([language = 'en'], [prescriptionText = '']). *)
Record TriageRequest : Type := {
  symptoms : string;
  language : string;
  prescriptionText : string
}.

(** What the model endpoint answers: [fetch] or the decoding of its body
    throws, the status is not a success, or the body decodes and
    [aiData.choices[0]?.message?.content] is read ([None]: undefined). *)
Inductive AiReply : Type :=
| AiThrows (message : string)
| AiNotOk (errorText : string)
| AiContent (content : option json).

Record Env : Type := {
  safety_rules : option (list SafetyRule);   (* [data: rules], null on a failed select *)
  guidance_content : list GuidanceContent;
  ai : AiReply
}.

(** The object literal given to [insert]: column name, value
    ([None]: undefined, left out on the wire). *)
Definition Row : Type := list (string * option json).

Inductive Event : Type :=
| SelectRules
| SelectGuidance
| CallModel
| InsertPatientQuery (row : Row).

Inductive Response : Type :=
| Resp (status : nat) (body : json).

Definition errorBody (message : string) : json := JObj [("error", JStr message)].

(** The value the row handed to [insert] gives to column [k] ([None]:
    the row gives none). *)
Fixpoint column (k : string) (row : Row) : option json :=
  match row with
  | [] => None
  | (k', v) :: rest => if String.eqb k' k then v else column k rest
  end.

(** [.single()]: the row when exactly one row is selected. *)
Definition single {A : Type} (rows : list A) : option A :=
  match rows with
  | [x] => Some x
  | _ => None
  end.

(* ================================================================== *)
(** ** Constants of analyze-symptoms *)

Definition PROHIBITED_MEDICATION_TYPES : list string :=
  [ "antibiotic"; "steroid"; "injection"; "insulin";
    "controlled substance"; "prescription drug"; "narcotic";
    "immunosuppressant"; "chemotherapy"; "antiviral prescription" ].

Definition validSeverities : list string := ["LOW"; "MODERATE"; "HIGH"; "CRITICAL"].

Definition EMERGENCY : string := "Emergency medical attention".

Definition NEUTRAL : string := "medication (consult doctor)".

Definition FALLBACK : json :=
  JObj [ ("disease_category", JStr "General Health Concern");
         ("severity", JStr "MODERATE");
         ("recommendation", JStr "Consult a doctor");
         ("reason", JStr "Unable to analyze symptoms accurately. Please seek professional medical evaluation.");
         ("safe_guidance", JStr "Please consult a healthcare provider for proper assessment and guidance.") ].

Definition memberOf (s : string) (l : list string) : bool :=
  existsb (String.eqb s) l.

(* ================================================================== *)
(** ** analyze-symptoms *)

(** Lines 208-213: a value that is not a severity name becomes MODERATE. *)
Definition coerceSeverity (severity : string) : string :=
  if memberOf severity validSeverities then severity else "MODERATE".

(** Lines 205-213 on a string: upper-case, then coerce. *)
Definition normalizeSeverity (severity : string) : string :=
  coerceSeverity (Js.toUpperCase severity).

(** Lines 221-235: [guidanceText] is computed once, from the text as the
    model wrote it; the replacements accumulate in [safe_guidance]. *)
Definition medicationFilter (safe_guidance : string) : string :=
  let guidanceText := Js.toLowerCase safe_guidance in
  fold_left
    (fun current prohibited =>
       if Js.includes guidanceText prohibited
       then Js.replaceAll_i prohibited NEUTRAL current
       else current)
    PROHIBITED_MEDICATION_TYPES safe_guidance.

(** Lines 200-235: what the [try] block does to the parsed object. *)
Definition sanitize (analysisResult : json) : result json :=
  disease_category <- prop analysisResult "disease_category" ;;
  severity <- prop analysisResult "severity" ;;
  recommendation <- prop analysisResult "recommendation" ;;
  if negb (truthy disease_category) || negb (truthy severity)
     || negb (truthy recommendation)
  then Throw "Missing required fields in AI response"
  else
    upper <- callToUpperCase severity ;;
    let severity' := coerceSeverity upper in
    let analysisResult := assign analysisResult "severity" (JStr severity') in
    let analysisResult :=
      if String.eqb severity' "CRITICAL"
      then assign (assign analysisResult "recommendation" (JStr EMERGENCY))
                  "safe_guidance" JNull
      else analysisResult in
    safe_guidance <- prop analysisResult "safe_guidance" ;;
    if truthy safe_guidance then
      match safe_guidance with
      | Some (JStr text) =>
          Ok (assign analysisResult "safe_guidance" (JStr (medicationFilter text)))
      | _ => Throw "TypeError: toLowerCase is not a function"
      end
    else Ok analysisResult.

Section Pipeline.

(** [JSON.parse]: [None] when it throws a SyntaxError. *)
Variable JSON_parse : string -> option json.

Definition parseJson (text : string) : result json :=
  match JSON_parse text with
  | Some v => Ok v
  | None => Throw "SyntaxError"
  end.

(** Lines 181-198 and 200-235: the body of the inner [try]. *)
Definition tryValidate (aiContent : json) : result json :=
  cleanContent <- callTrim aiContent ;;
  analysisResult <- parseJson (extractJson cleanContent) ;;
  sanitize analysisResult.

(** Lines 180-251: the inner [try ... catch]. *)
Definition validate (aiContent : json) : json :=
  match tryValidate aiContent with
  | Ok analysisResult => analysisResult
  | Throw _ => FALLBACK
  end.

Definition patientQueryRow (req : TriageRequest) (analysisResult : json) : Row :=
  let field k := match prop analysisResult k with Ok v => v | Throw _ => None end in
  [ ("symptoms_text", Some (JStr (symptoms req)));
    ("prescription_text",
       Some (if Js.nonEmpty (prescriptionText req)
             then JStr (prescriptionText req) else JNull));
    ("disease_category", field "disease_category");
    ("severity", field "severity");
    ("recommendation", field "recommendation");
    ("reason", field "reason");
    ("language", Some (JStr (language req))) ].

(** Line 56: [rules?.find(rule => fullText.includes(rule.keyword.toLowerCase()))]. *)
Definition findRule (rules : option (list SafetyRule)) (fullText : string)
  : option SafetyRule :=
  match rules with
  | Some rules =>
      find (fun rule => Js.includes fullText (Js.toLowerCase (keyword rule))) rules
  | None => None
  end.

Definition fullTextOf (req : TriageRequest) : string :=
  Js.toLowerCase (symptoms req ++ " " ++ prescriptionText req).

Definition overrideResult (e : Env) (req : TriageRequest) (matchedRule : SafetyRule)
  : json :=
  let guidanceData :=
    single (filter (fun g => String.eqb (guidance_category g) "emergency"
                             && String.eqb (guidance_language g) (language req))
                   (guidance_content e)) in
  let reason :=
    match guidanceData with
    | Some g => orElse (guidance_text g) (override_text matchedRule)
    | None => override_text matchedRule
    end in
  JObj [ ("disease_category", JStr (category matchedRule));
         ("severity", JStr "CRITICAL");
         ("recommendation", JStr EMERGENCY);
         ("reason", JStr reason);
         ("safe_guidance", JNull);
         ("is_override", JBool true) ].

(** The handler of analyze-symptoms for a request whose body has been
    read: the events it causes, in order, and its response. *)
Definition analyzeSymptoms (e : Env) (req : TriageRequest) : list Event * Response :=
  if missingText (symptoms req)
  then ([], Resp 400 (errorBody "Symptoms text is required"))
  else
    match findRule (safety_rules e) (fullTextOf req) with
    | Some matchedRule =>
        let result := overrideResult e req matchedRule in
        ([SelectRules; SelectGuidance; InsertPatientQuery (patientQueryRow req result)],
         Resp 200 result)
    | None =>
        match ai e with
        | AiThrows message =>
            ([SelectRules; CallModel], Resp 500 (errorBody (orElse message "Analysis failed")))
        | AiNotOk errorText =>
            ([SelectRules; CallModel],
             Resp 500 (errorBody (orElse ("AI API error: " ++ errorText) "Analysis failed")))
        | AiContent content =>
            match content with
            | Some aiContent =>
                if truthy content then
                  let analysisResult := validate aiContent in
                  ([SelectRules; CallModel;
                    InsertPatientQuery (patientQueryRow req analysisResult)],
                   Resp 200 analysisResult)
                else ([SelectRules; CallModel], Resp 500 (errorBody "No response from AI"))
            | None => ([SelectRules; CallModel], Resp 500 (errorBody "No response from AI"))
            end
        end
    end.

End Pipeline.

(* ================================================================== *)
(** ** medication-info *)

Definition requiredFields : list string :=
  [ "medicine_name"; "overview"; "common_uses"; "dosage_info";
    "side_effects"; "warnings"; "when_to_consult"; "disclaimer" ].

(** [/\d+\s*(mg|ml|tablets?|pills?|times?|hours?)/i] with [\s] as the white
    space of ASCII; on ASCII text it matches what [Platform.dosagePattern]
    matches ([PatternFacts.dosagePattern_ascii]). *)
Definition dosagePattern : Re.re :=
  Re.Cat (Re.plus (Re.Class Js.isDigit))
    (Re.Cat (Re.Star (Re.Class Js.isSpace))
       (Re.anyOf
          [ Re.lit_i "mg"; Re.lit_i "ml";
            Re.Cat (Re.lit_i "tablet") (Re.opt (Re.lit_i "s"));
            Re.Cat (Re.lit_i "pill") (Re.opt (Re.lit_i "s"));
            Re.Cat (Re.lit_i "time") (Re.opt (Re.lit_i "s"));
            Re.Cat (Re.lit_i "hour") (Re.opt (Re.lit_i "s")) ])).

Definition DOSAGE_FIXED : string :=
  "Follow the doctor's prescription or label instructions. Do not self-medicate.".

Definition DISCLAIMER_FIXED : string :=
  "This information is for educational purposes only and does not replace professional medical advice. Always consult a qualified healthcare provider.".

Definition medicationFallback (medicineName : string) : json :=
  JObj [ ("medicine_name", JStr medicineName);
         ("overview", JStr "Unable to retrieve information. Please verify the medicine name with a pharmacist.");
         ("common_uses", JStr "Information not available");
         ("dosage_info", JStr "Consult a healthcare provider for proper dosage instructions");
         ("side_effects", JStr "Consult a healthcare provider for side effect information");
         ("warnings", JStr "Always consult a qualified healthcare provider before taking any medication");
         ("when_to_consult", JStr "Consult a doctor or pharmacist for guidance on this medicine");
         ("disclaimer", JStr "This information is for educational purposes only and does not replace professional medical advice.") ].

(** Lines 415-421 of the medication handler: the loop over the required
    fields. *)
Fixpoint checkRequired (medicationInfo : json) (fields : list string) : result unit :=
  match fields with
  | [] => Ok tt
  | field :: rest =>
      v <- prop medicationInfo field ;;
      if negb (truthy v) then Throw ("Missing required field: " ++ field)
      else checkRequired medicationInfo rest
  end.

(** Lines 423-428: the dosage guard. *)
Definition sanitizeDosage (medicationInfo : json) : result json :=
  dosage_info <- prop medicationInfo "dosage_info" ;;
  dosageText <- callToLowerCase dosage_info ;;
  if Re.test dosagePattern dosageText
  then Ok (assign medicationInfo "dosage_info" (JStr DOSAGE_FIXED))
  else Ok medicationInfo.

(** Lines 430-434: the disclaimer guard. *)
Definition sanitizeDisclaimer (medicationInfo : json) : result json :=
  disclaimer <- prop medicationInfo "disclaimer" ;;
  lowered <- callToLowerCase disclaimer ;;
  if negb (Js.includes lowered "educational") || negb (Js.includes lowered "not replace")
  then Ok (assign medicationInfo "disclaimer" (JStr DISCLAIMER_FIXED))
  else Ok medicationInfo.

Definition sanitizeMedication (medicationInfo : json) : result json :=
  checkRequired medicationInfo requiredFields ;;;
  medicationInfo <- sanitizeDosage medicationInfo ;;
  sanitizeDisclaimer medicationInfo.

Section MedicationPipeline.

Variable JSON_parse : string -> option json.

Definition tryValidateMedication (aiContent : json) : result json :=
  cleanContent <- callTrim aiContent ;;
  medicationInfo <- parseJson JSON_parse (extractJson cleanContent) ;;
  sanitizeMedication medicationInfo.

Definition validateMedication (medicineName : string) (aiContent : json) : json :=
  match tryValidateMedication aiContent with
  | Ok medicationInfo => medicationInfo
  | Throw _ => medicationFallback medicineName
  end.

(** The handler of medication-info; it calls the model on every accepted
    request and stores nothing. *)
Definition medicationInfo (reply : AiReply) (medicineName : string)
  : list Event * Response :=
  if missingText medicineName
  then ([], Resp 400 (errorBody "Medicine name is required"))
  else
    match reply with
    | AiThrows message =>
        ([CallModel],
         Resp 500 (errorBody (orElse message "Failed to retrieve medication information")))
    | AiNotOk errorText =>
        ([CallModel],
         Resp 500 (errorBody (orElse ("AI API error: " ++ errorText)
                                     "Failed to retrieve medication information")))
    | AiContent content =>
        match content with
        | Some aiContent =>
            if truthy content
            then ([CallModel], Resp 200 (validateMedication medicineName aiContent))
            else ([CallModel], Resp 500 (errorBody "No response from AI"))
        | None => ([CallModel], Resp 500 (errorBody "No response from AI"))
        end
    end.

End MedicationPipeline.

(** A stand-in for [JSON.parse] on the sample texts of the examples. *)
Definition sampleParse (table : list (string * json)) (text : string) : option json :=
  getField text table.

(* ================================================================== *)
(** ** The specification's reading, and sample data *)

(** The text the specification matches keywords against: symptom text
    and prescription text concatenated, lower-cased. *)
Definition specFullText (req : TriageRequest) : string :=
  Js.toLowerCase (symptoms req ++ prescriptionText req).

Definition sampleRule (kw cat : string) : SafetyRule :=
  {| rule_id := "rule-1"; keyword := kw; category := cat;
     rule_severity := "EMERGENCY";
     override_text := "Call emergency services immediately." |}.

Definition sampleEnv (rules : list SafetyRule) (reply : AiReply) : Env :=
  {| safety_rules := Some rules; guidance_content := []; ai := reply |}.

Definition sampleRequest (symptomText prescription : string) : TriageRequest :=
  {| symptoms := symptomText; language := "en"; prescriptionText := prescription |}.

Definition sampleRules : list SafetyRule :=
  [ sampleRule "seizure" "Neurological";
    sampleRule "Chest Pain" "Cardiac";
    sampleRule "pain" "Pain" ].

(** A required field is missing or empty. *)
Definition missingOrEmpty (v : option json) : Prop :=
  v = None \/ v = Some (JStr EmptyString).

(** [safe_guidance?: string | null], the type the data model gives it. *)
Definition guidanceTyped (v : option json) : Prop :=
  v = None \/ v = Some JNull \/ exists text, v = Some (JStr text).

Definition triageRequired : list string :=
  ["disease_category"; "severity"; "recommendation"].

(** The safe_guidance of a validated result, from the value the CRITICAL
    step left: a string goes through the medication filter. *)
Definition filteredGuidance (v : option json) : option json :=
  match v with
  | Some (JStr text) => Some (JStr (medicationFilter text))
  | _ => v
  end.

(** A model answer: prose around a fenced block, and the object the
    block stands for. *)
Definition sampleModelText : string :=
  "Here is the assessment: ```json {model-output} ``` Stay safe.".

Definition sampleModelObject (severity guidance : string) : json :=
  JObj [ ("disease_category", JStr "Respiratory");
         ("severity", JStr severity);
         ("recommendation", JStr "rest at home");
         ("reason", JStr "Common seasonal symptoms.");
         ("safe_guidance", JStr guidance) ].

Definition sampleTable (v : json) : list (string * json) := [("{model-output}", v)].

Definition sampleMedication (dosage : string) : json :=
  JObj [ ("medicine_name", JStr "Paracetamol");
         ("overview", JStr "A common pain reliever.");
         ("common_uses", JStr "Commonly used for fever.");
         ("dosage_info", JStr dosage);
         ("side_effects", JStr "Nausea in rare cases.");
         ("warnings", JStr "Avoid with alcohol.");
         ("when_to_consult", JStr "If symptoms persist.");
         ("disclaimer", JStr "For educational purposes only; does not replace professional advice.") ].

(** The object after lines 205-219, for a string severity: the severity
    normalised and, when it is CRITICAL, the recommendation and the
    guidance overwritten. *)
Definition afterCritical (fields : list (string * json)) (severity : string)
  : list (string * json) :=
  let fields1 := setField "severity" (JStr (normalizeSeverity severity)) fields in
  if String.eqb (normalizeSeverity severity) "CRITICAL"
  then setField "safe_guidance" JNull
         (setField "recommendation" (JStr EMERGENCY) fields1)
  else fields1.

(** What the proof about the filter asks of a prohibited term. *)
Definition termOk (t : string) : bool :=
  Js.nonEmpty t && Js.borderFree t NEUTRAL && String.eqb (Js.toLowerCase t) t.

(** The predicate of line 56 on one rule. *)
Definition matches (req : TriageRequest) (rule : SafetyRule) : bool :=
  Js.includes (fullTextOf req) (Js.toLowerCase (keyword rule)).

Definition hasCallModel (trace : list Event) : bool :=
  existsb (fun ev => match ev with CallModel => true | _ => false end) trace.

(* ================================================================== *)
(** ** Predicates on texts used in the statements *)

(** The character [c] occurs in [s]. *)
Fixpoint hasChar (c : ascii) (s : string) : bool :=
  match s with
  | EmptyString => false
  | String d s' => Ascii.eqb d c || hasChar c s'
  end.

(** [s] consists of white space. *)
Fixpoint allSpace (s : string) : bool :=
  match s with
  | EmptyString => true
  | String c s' => Js.isSpace c && allSpace s'
  end.

(** The dosage text and the disclaimer text the two guards leave. *)
Definition guardedDosage (dosage : string) : string :=
  if Re.test dosagePattern (Js.toLowerCase dosage) then DOSAGE_FIXED else dosage.

Definition guardedDisclaimer (disclaimer : string) : string :=
  if negb (Js.includes (Js.toLowerCase disclaimer) "educational")
     || negb (Js.includes (Js.toLowerCase disclaimer) "not replace")
  then DISCLAIMER_FIXED else disclaimer.

(* ================================================================== *)
(** ** Anchored patterns, suffixes, hexadecimal digests *)

(** [r.test(s)] for a pattern between [^] and [$]: the whole text is a
    word. *)
Fixpoint matchesAll (r : Re.re) (s : string) : bool :=
  match s with
  | EmptyString => Re.nullable r
  | String c s' => matchesAll (Re.deriv c r) s'
  end.

(** Every character of [s] satisfies [p]. *)
Fixpoint allChars (p : ascii -> bool) (s : string) : bool :=
  match s with
  | EmptyString => true
  | String c s' => p c && allChars p s'
  end.

(** [s.endsWith(t)]. *)
Fixpoint endsWith (s t : string) : bool :=
  String.eqb s t ||
  match s with
  | EmptyString => false
  | String _ s' => endsWith s' t
  end.

(** [s.split(sep)[1]] for a one-character separator: the text between the
    first and the second separator ([None]: there is no separator, the
    element is undefined). *)
Fixpoint upToChar (sep : ascii) (s : string) : string :=
  match s with
  | EmptyString => EmptyString
  | String c s' => if Ascii.eqb c sep then EmptyString else String c (upToChar sep s')
  end.

Definition secondPart (sep : ascii) (s : string) : option string :=
  match Js.fromFirst sep s with
  | Some (String _ rest) => Some (upToChar sep rest)
  | _ => None
  end.

(** A JavaScript string whose length matters: its UTF-16 code units. *)
Definition CodeUnits : Type := list N.

(** One hexadecimal digit, [b.toString(16)] for a byte and
    [padStart(2, '0')]. *)
Definition hexDigit (n : N) : ascii :=
  if (n <? 10)%N then ascii_of_N (48 + n) else ascii_of_N (87 + n).

Definition byteToString16 (b : ascii) : string :=
  let n := N_of_ascii b in
  if (n <? 16)%N then String (hexDigit n) EmptyString
  else String (hexDigit (n / 16)) (String (hexDigit (n mod 16)) EmptyString).

Fixpoint repeatChar (c : ascii) (n : nat) : string :=
  match n with
  | O => EmptyString
  | S k => String c (repeatChar c k)
  end.

Definition padStart (width : nat) (c : ascii) (s : string) : string :=
  repeatChar c (width - String.length s) ++ s.

(** [hashArray.map(b => b.toString(16).padStart(2, '0')).join('')] *)
Fixpoint hexOfBytes (bytes : list ascii) : string :=
  match bytes with
  | [] => EmptyString
  | b :: rest => padStart 2 "0" (byteToString16 b) ++ hexOfBytes rest
  end.

(* ================================================================== *)
(** ** doctor-signup *)

Module Signup.

Definition ALLOWED_DOMAINS : list string :=
  [ "hospital.com"; "clinic.org"; "healthcare.in"; "med.edu";
    "aiims.edu"; "medanta.org"; "apollo.com"; "fortis.in" ].

Definition BLOCKED_DOMAINS : list string :=
  [ "gmail.com"; "yahoo.com"; "outlook.com"; "hotmail.com";
    "live.com"; "protonmail.com" ].

(** The class [[^\s@]] with the white space of ASCII: on ASCII text it is
    the class of the pattern; outside ASCII the pattern refuses further
    characters (U+00A0 and the other white space of ECMAScript), so the
    handler accepts no address that this class refuses. *)
Definition solidChar (c : ascii) : bool := negb (Js.isSpace c || Ascii.eqb c "@").

(** [/^[^\s@]+@[^\s@]+\.[^\s@]+$/] *)
Definition emailRegex : Re.re :=
  Re.Cat (Re.plus (Re.Class solidChar))
    (Re.Cat (Re.Class (fun c => Ascii.eqb c "@"))
       (Re.Cat (Re.plus (Re.Class solidChar))
          (Re.Cat (Re.Class (fun c => Ascii.eqb c "."))
             (Re.plus (Re.Class solidChar))))).

Record Request : Type := {
  email : string;
  password : CodeUnits;
  fullName : string
}.

(** A row of [doctors]. *)
Record Doctor : Type := {
  doctor_id : string;
  doctor_email : string;
  password_hash : string;
  full_name : string;
  status : string
}.

(** The object given to [insert]: the store supplies the id. *)
Record NewDoctor : Type := {
  new_email : string;
  new_password_hash : string;
  new_full_name : string;
  new_status : string
}.

Record Env : Type := {
  doctors : list Doctor;
  insertError : option string     (* the message of [insertError], when there is one *)
}.

Inductive Event : Type :=
| SelectDoctor (address : string)
| InsertDoctor (row : NewDoctor).

Definition domainAllowed (domain : string) : bool :=
  existsb (fun allowed => endsWith domain allowed) ALLOWED_DOMAINS.

Section Handler.

(** SHA-256 of the UTF-8 encoding of the password, a builtin. *)
Variable digest : CodeUnits -> list ascii.

Definition hashPassword (pw : CodeUnits) : string := hexOfBytes (digest pw).

Definition successBody : json :=
  JObj [ ("success", JBool true);
         ("message", JStr "Account created successfully. Awaiting admin approval.");
         ("status", JStr "pending") ].

Definition doctorSignup (e : Env) (req : Request) : list Event * Response :=
  if negb (Js.nonEmpty (email req))
     || match password req with [] => true | _ => false end
     || negb (Js.nonEmpty (fullName req))
  then ([], Resp 400 (errorBody "All fields are required"))
  else if negb (matchesAll emailRegex (email req))
  then ([], Resp 400 (errorBody "Invalid email format"))
  else
    match secondPart "@" (email req) with
    | None => ([], Resp 500 (errorBody "TypeError: cannot read properties of undefined"))
    | Some part =>
        let domain := Js.toLowerCase part in
        if memberOf domain BLOCKED_DOMAINS
        then ([], Resp 400 (errorBody
                "Personal email domains not allowed. Please use institutional email."))
        else if negb (domainAllowed domain)
        then ([], Resp 400 (errorBody
                "Please use an institutional email address from a recognized healthcare organization."))
        else if (List.length (password req) <? 8)%nat
        then ([], Resp 400 (errorBody "Password must be at least 8 characters long"))
        else
          let address := Js.toLowerCase (email req) in
          match single (filter (fun d => String.eqb (doctor_email d) address) (doctors e)) with
          | Some _ =>
              ([SelectDoctor address], Resp 400 (errorBody "Email already registered"))
          | None =>
              let row := {| new_email := address;
                            new_password_hash := hashPassword (password req);
                            new_full_name := fullName req;
                            new_status := "pending" |} in
              match insertError e with
              | Some message =>
                  ([SelectDoctor address; InsertDoctor row],
                   Resp 500 (errorBody (orElse message "Signup failed")))
              | None =>
                  ([SelectDoctor address; InsertDoctor row], Resp 200 successBody)
              end
          end
    end.

End Handler.

End Signup.

(** A non-empty text without white space and without [@]. *)
Definition solid (s : string) : Prop :=
  Js.nonEmpty s = true /\ allChars Signup.solidChar s = true.

(** A lower-case hexadecimal digit. *)
Definition isHexDigit (c : ascii) : bool := Js.isDigit c || Js.between 97 102 c.

Definition hexByte (b : ascii) : string := padStart 2 "0" (byteToString16 b).

(* ================================================================== *)
(** ** doctor-login *)

Module Login.

Definition MAX_LOGIN_ATTEMPTS : nat := 5.
Definition LOCKOUT_DURATION : Z := 15 * 60 * 1000.

(** An entry of the [loginAttempts] map. *)
Record Attempts : Type := {
  count : nat;
  lastAttempt : Z
}.

(** The map itself, by what [get] returns. *)
Definition AttemptMap : Type := string -> option Attempts.

Definition emptyMap : AttemptMap := fun _ => None.

Definition mapSet (identifier : string) (a : Attempts) (m : AttemptMap) : AttemptMap :=
  fun k => if String.eqb k identifier then Some a else m k.

Definition mapDelete (identifier : string) (m : AttemptMap) : AttemptMap :=
  fun k => if String.eqb k identifier then None else m k.

(** [checkRateLimit], with [Date.now()] as [now]; the entry that is
    incremented is the one in the map. *)
Definition checkRateLimit (identifier : string) (now : Z) (m : AttemptMap)
  : bool * AttemptMap :=
  match m identifier with
  | None => (true, mapSet identifier {| count := 1; lastAttempt := now |} m)
  | Some attempts =>
      if (now - lastAttempt attempts >? LOCKOUT_DURATION)%Z
      then (true, mapSet identifier {| count := 1; lastAttempt := now |} m)
      else if (MAX_LOGIN_ATTEMPTS <=? count attempts)%nat
      then (false, m)
      else (true, mapSet identifier
                    {| count := S (count attempts); lastAttempt := now |} m)
  end.

(** The attempts of one identifier at the given times, in order. *)
Fixpoint runAttempts (identifier : string) (times : list Z) (m : AttemptMap)
  : list bool :=
  match times with
  | [] => []
  | now :: rest =>
      let (allowed, m') := checkRateLimit identifier now m in
      allowed :: runAttempts identifier rest m'
  end.

Record Request : Type := {
  email : string;
  password : CodeUnits;
  isEmergencyPasskey : bool;
  forwardedFor : option string;     (* the header x-forwarded-for *)
  userAgent : option string
}.

Record Env : Type := {
  emergencyPasskey : option CodeUnits;   (* [config.value], when the single row is there *)
  doctors : list Signup.Doctor;
  now : Z                                (* [Date.now()] *)
}.

Inductive Event : Type :=
| SelectConfig
| InsertAudit (ip_address user_agent : string)
| SelectDoctor (address : string).

Definition headerOr (h : option string) (fallback : string) : string :=
  match h with
  | Some v => orElse v fallback
  | None => fallback
  end.

Fixpoint sameUnits (a b : CodeUnits) : bool :=
  match a, b with
  | [], [] => true
  | x :: a', y :: b' => N.eqb x y && sameUnits a' b'
  | _, _ => false
  end.

Definition passkeyIdentifier (req : Request) : string :=
  "passkey_" ++ headerOr (forwardedFor req) "unknown".

Definition doctorIdentifier (req : Request) : string :=
  "doctor_" ++ Js.toLowerCase (email req).

Definition EMERGENCY_EXPIRY : Z := 30 * 60 * 1000.
Definition DOCTOR_EXPIRY : Z := 8 * 60 * 60 * 1000.

Definition emergencyBody : json :=
  JObj [ ("success", JBool true);
         ("role", JStr "emergency_admin");
         ("message", JStr "Emergency access granted");
         ("sessionExpiry", JNum EMERGENCY_EXPIRY) ].

Definition doctorBody (d : Signup.Doctor) : json :=
  JObj [ ("success", JBool true);
         ("role", JStr "doctor");
         ("doctor", JObj [ ("id", JStr (Signup.doctor_id d));
                           ("email", JStr (Signup.doctor_email d));
                           ("fullName", JStr (Signup.full_name d));
                           ("status", JStr (Signup.status d)) ]);
         ("sessionExpiry", JNum DOCTOR_EXPIRY) ].

Definition pendingBody : json :=
  JObj [ ("error", JStr "Account pending approval");
         ("status", JStr "pending");
         ("message", JStr "Your account is awaiting admin approval. Please check back later.") ].

Section Handler.

Variable digest : CodeUnits -> list ascii.

(** The handler: its events, its response and the map it leaves. *)
Definition doctorLogin (e : Env) (m : AttemptMap) (req : Request)
  : list Event * Response * AttemptMap :=
  match password req with
  | [] => ([], Resp 400 (errorBody "Password is required"), m)
  | _ :: _ =>
      if isEmergencyPasskey req then
        let (allowed, m') := checkRateLimit (passkeyIdentifier req) (now e) m in
        if negb allowed
        then ([], Resp 429 (errorBody "Too many attempts. Please try again later."), m')
        else
          match emergencyPasskey e with
          | Some value =>
              if sameUnits value (password req)
              then ([SelectConfig;
                     InsertAudit (headerOr (forwardedFor req) "unknown")
                                 (headerOr (userAgent req) "unknown")],
                    Resp 200 emergencyBody, m')
              else ([SelectConfig], Resp 401 (errorBody "Invalid passkey"), m')
          | None => ([SelectConfig], Resp 401 (errorBody "Invalid passkey"), m')
          end
      else if negb (Js.nonEmpty (email req))
      then ([], Resp 400 (errorBody "Email is required"), m)
      else
        let (allowed, m') := checkRateLimit (doctorIdentifier req) (now e) m in
        if negb allowed
        then ([], Resp 429 (errorBody
                 "Too many login attempts. Please try again in 15 minutes."), m')
        else
          let passwordHash := Signup.hashPassword digest (password req) in
          let address := Js.toLowerCase (email req) in
          match single (filter (fun d => String.eqb (Signup.doctor_email d) address)
                               (doctors e)) with
          | None => ([SelectDoctor address], Resp 401 (errorBody "Invalid credentials"), m')
          | Some doctor =>
              if negb (String.eqb (Signup.password_hash doctor) passwordHash)
              then ([SelectDoctor address], Resp 401 (errorBody "Invalid credentials"), m')
              else if String.eqb (Signup.status doctor) "pending"
              then ([SelectDoctor address], Resp 403 pendingBody, m')
              else if String.eqb (Signup.status doctor) "rejected"
              then ([SelectDoctor address], Resp 403 (errorBody "Account access denied"), m')
              else ([SelectDoctor address], Resp 200 (doctorBody doctor),
                    mapDelete (doctorIdentifier req) m')
          end
  end.

(** The requests of a list served one after the other, each at its own
    time, on the map the previous one left. *)
Fixpoint serveAll (requests : list (Env * Request)) (m : AttemptMap)
  : list Response :=
  match requests with
  | [] => []
  | (e, req) :: rest =>
      match doctorLogin e m req with
      | (_, response, m') => response :: serveAll rest m'
      end
  end.

End Handler.

Definition statusOf (r : Response) : nat := match r with Resp status _ => status end.

End Login.

(** An identifier within a window that started at [start]: it was allowed
    [used] times, the last time not before [start]. *)
Definition inWindow (identifier : string) (start : Z) (used : nat) (m : Login.AttemptMap)
  : Prop :=
  match used with
  | O => m identifier = None
  | S _ => exists last, m identifier = Some {| Login.count := used; Login.lastAttempt := last |}
                        /\ (start <= last)%Z
  end.

(* ================================================================== *)
(** ** The session store of the doctor pages ([useDoctorStore]) *)

Module Store.

Record DoctorSession : Type := {
  id : string;
  email : string;
  fullName : string;
  role : string;
  status : string;
  sessionExpiry : Z;
  loginTime : Z
}.

(** A row of [doctor_sessions]; [expires_at] is kept as the instant it
    denotes. *)
Record SessionRow : Type := {
  row_id : string;
  row_email : string;
  row_full_name : string;
  row_role : string;
  row_status : string;
  row_session_expiry : Z;
  row_login_time : Z;
  row_expires_at : Z
}.

(** The store: the session in memory and the table behind it, which is
    taken to accept what is written to it. *)
Record State : Type := {
  session : option DoctorSession;
  table : list SessionRow
}.

(** The object [saveSession] writes and the session [loadSession] builds
    from a row. *)
Definition rowOf (s : DoctorSession) : SessionRow :=
  {| row_id := id s; row_email := email s; row_full_name := fullName s;
     row_role := role s; row_status := status s;
     row_session_expiry := sessionExpiry s; row_login_time := loginTime s;
     row_expires_at := loginTime s + sessionExpiry s |}.

Definition sessionOf (r : SessionRow) : DoctorSession :=
  {| id := row_id r; email := row_email r; fullName := row_full_name r;
     role := row_role r; status := row_status r;
     sessionExpiry := row_session_expiry r; loginTime := row_login_time r |}.

(** [upsert] on the key [id]: the row takes the place of the one with its
    id. *)
Definition upsert (row : SessionRow) (t : list SessionRow) : list SessionRow :=
  (filter (fun r => negb (String.eqb (row_id r) (row_id row))) t ++ [row])%list.

Definition deleteId (key : string) (t : list SessionRow) : list SessionRow :=
  filter (fun r => negb (String.eqb (row_id r) key)) t.

(** [order('login_time', descending).limit(1).single()]: a row with the
    greatest login time. *)
Fixpoint latest (t : list SessionRow) : option SessionRow :=
  match t with
  | [] => None
  | r :: rest =>
      match latest rest with
      | Some r' => if (row_login_time r <? row_login_time r')%Z then Some r' else Some r
      | None => Some r
      end
  end.

Definition saveSession (s : DoctorSession) (st : State) : State :=
  {| session := session st; table := upsert (rowOf s) (table st) |}.

Definition stamped (s : DoctorSession) (now : Z) : DoctorSession :=
  {| id := id s; email := email s; fullName := fullName s; role := role s;
     status := status s; sessionExpiry := sessionExpiry s; loginTime := now |}.

Definition login (s : DoctorSession) (now : Z) (st : State) : State :=
  let sessionData := stamped s now in
  saveSession sessionData {| session := Some sessionData; table := table st |}.

Definition logout (st : State) : State :=
  {| session := None;
     table := match session st with
              | Some s => if Js.nonEmpty (id s) then deleteId (id s) (table st)
                          else table st
              | None => table st
              end |}.

(** The answer, and the store once the [logout] it may start has run. *)
Definition isSessionValid (now : Z) (st : State) : bool * State :=
  match session st with
  | None => (false, st)
  | Some s =>
      if (now - loginTime s >? sessionExpiry s)%Z then (false, logout st)
      else (true, st)
  end.

Definition loadSession (now : Z) (st : State) : State :=
  match latest (table st) with
  | None => st
  | Some data =>
      let s := sessionOf data in
      if (now - loginTime s <=? sessionExpiry s)%Z
      then {| session := Some s; table := table st |}
      else logout st
  end.

(** The store of a page that was just opened: nothing in memory. *)
Definition reopened (st : State) : State := {| session := None; table := table st |}.

(** [handleLogin] of the login page on the answer of doctor-login, for a
    body of the shape the handler writes ([None]: another shape). *)
Definition accountSession (data : json) (now : Z) : option DoctorSession :=
  match data with
  | JObj fields =>
      match getField "doctor" fields, getField "role" fields,
            getField "sessionExpiry" fields with
      | Some (JObj doctor), Some (JStr r), Some (JNum expiry) =>
          match getField "id" doctor, getField "email" doctor,
                getField "fullName" doctor, getField "status" doctor with
          | Some (JStr i), Some (JStr e), Some (JStr n), Some (JStr s) =>
              Some {| id := i; email := e; fullName := n; role := r; status := s;
                      sessionExpiry := expiry; loginTime := now |}
          | _, _, _, _ => None
          end
      | _, _, _ => None
      end
  | _ => None
  end.

Definition handleLogin (response : Response) (now : Z) (st : State) : option State :=
  match response with
  | Resp code data =>
      if ((200 <=? code) && (code <=? 299))%nat then
        match data with
        | JNull => Some st                       (* [data?.success] *)
        | _ =>
            match prop data "success" with
            | Ok success =>
                if truthy success then
                  match accountSession data now with
                  | Some s => Some (login s now st)
                  | None => None
                  end
                else Some st
            | Throw _ => Some st
            end
        end
      else Some st                               (* [error] is set: a toast *)
  end.

End Store.

(* ================================================================== *)
(** ** text-to-speech: the retry loop *)

Module Tts.

Definition maxRetries : nat := 3.

(** What one [fetch] of the speech endpoint does. *)
Inductive FetchOutcome : Type :=
| FetchOk (audio : string)
| FetchNotOk (errorText : string)
| FetchThrows (message : string).

Inductive Event : Type :=
| Fetch
| Sleep (milliseconds : Z).

(** The response held in [ttsResponse]. *)
Inductive Held : Type :=
| HeldOk (audio : string)
| HeldNotOk (errorText : string).

Inductive LoopEnd : Type :=
| Left (ttsResponse : option Held)     (* the loop was left, by [break] or by its test *)
| Rethrown (message : string).         (* [throw err] of the last attempt *)

Definition backoff (retryCount : nat) : Z := 1000 * 2 ^ Z.of_nat retryCount.

(** The [while (retryCount <= maxRetries)] loop; [fuel] is the number of
    rounds the test still admits. *)
Fixpoint retryLoop (outcomes : nat -> FetchOutcome) (fuel retryCount : nat)
    (ttsResponse : option Held) : list Event * LoopEnd :=
  match fuel with
  | O => ([], Left ttsResponse)
  | S fuel' =>
      match outcomes retryCount with
      | FetchOk audio => ([Fetch], Left (Some (HeldOk audio)))
      | FetchNotOk errorText =>
          let (events, final) :=
            retryLoop outcomes fuel' (S retryCount) (Some (HeldNotOk errorText)) in
          if (retryCount <? maxRetries)%nat
          then (Fetch :: Sleep (backoff retryCount) :: events, final)
          else (Fetch :: events, final)
      | FetchThrows message =>
          if (retryCount =? maxRetries)%nat then ([Fetch], Rethrown message)
          else
            let (events, final) :=
              retryLoop outcomes fuel' (S retryCount) ttsResponse in
            (Fetch :: Sleep (backoff retryCount) :: events, final)
      end
  end.

(** The loop and the test after it: the audio, or the message of the
    error that is thrown. *)
Definition fetchWithRetry (outcomes : nat -> FetchOutcome)
  : list Event * result string :=
  let (events, final) := retryLoop outcomes (S maxRetries) 0 None in
  (events,
   match final with
   | Left (Some (HeldOk audio)) => Ok audio
   | Left (Some (HeldNotOk errorText)) => Throw ("TTS generation failed: " ++ errorText)
   | Left None => Throw "TTS generation failed: No response"
   | Rethrown message => Throw message
   end).

Definition fetches (events : list Event) : nat :=
  List.length (filter (fun ev => match ev with Fetch => true | _ => false end) events).

Fixpoint slept (events : list Event) : Z :=
  match events with
  | [] => 0
  | Sleep ms :: rest => ms + slept rest
  | Fetch :: rest => slept rest
  end.

End Tts.

(** [handleEmergencyAccess] of the login page, likewise. *)
Definition emergencySession (data : json) (now : Z) : option Store.DoctorSession :=
  match data with
  | JObj fields =>
      match getField "role" fields, getField "sessionExpiry" fields with
      | Some (JStr r), Some (JNum expiry) =>
          Some {| Store.id := "emergency"; Store.email := "emergency@system";
                  Store.fullName := "Emergency Admin"; Store.role := r;
                  Store.status := "approved";
                  Store.sessionExpiry := expiry; Store.loginTime := now |}
      | _, _ => None
      end
  | _ => None
  end.

Definition handleEmergencyAccess (response : Response) (now : Z) (st : Store.State)
  : option Store.State :=
  match response with
  | Resp code data =>
      if ((200 <=? code) && (code <=? 299))%nat then
        match data with
        | JNull => Some st
        | _ =>
            match prop data "success" with
            | Ok success =>
                if truthy success then
                  match emergencySession data now with
                  | Some s => Some (Store.login s now st)
                  | None => None
                  end
                else Some st
            | Throw _ => Some st
            end
        end
      else Some st
  end.


(** [handleSignup] of the sign-up page up to its call of doctor-signup:
    the request it sends, if it sends one. *)
Definition handleSignup (fullName email : string) (password confirmPassword : CodeUnits)
  : option Signup.Request :=
  if negb (Js.nonEmpty fullName) || negb (Js.nonEmpty email)
     || match password with [] => true | _ => false end
     || match confirmPassword with [] => true | _ => false end
  then None
  else if negb (Login.sameUnits password confirmPassword) then None
  else if (List.length password <? 8)%nat then None
  else Some {| Signup.email := email; Signup.password := password;
               Signup.fullName := fullName |}.

(** A fetch answered with an ok response. *)
Definition fetchIsOk (o : Tts.FetchOutcome) : bool :=
  match o with Tts.FetchOk _ => true | _ => false end.

(* ================================================================== *)
(** ** Sample runs *)

Definition bodyOf (r : Response) : json := match r with Resp _ body => body end.

(** A triage request no rule matches, answered by the model with a
    guidance that names an antibiotic. *)
Definition sampleAnswer : json := sampleModelObject "high" "Take an Antibiotic and rest".

Definition sampleRun : list Event * Response :=
  analyzeSymptoms (sampleParse (sampleTable sampleAnswer))
    (sampleEnv sampleRules (AiContent (Some (JStr sampleModelText))))
    (sampleRequest "mild cough" EmptyString).

Definition sampleMedicationRun : list Event * Response :=
  medicationInfo (sampleParse (sampleTable (sampleMedication "take 500mg twice daily")))
    (AiContent (Some (JStr sampleModelText))) "Paracetamol".

(** A stand-in for SHA-256: the low byte of every code unit. *)
Definition sampleDigest (pw : CodeUnits) : list ascii := map ascii_of_N pw.

Definition samplePassword : CodeUnits := [112; 97; 115; 115; 119; 111; 114; 100]%N.

Definition sampleSignupEnv : Signup.Env :=
  {| Signup.doctors := []; Signup.insertError := None |}.

Definition sampleSignup : Signup.Request :=
  {| Signup.email := "Asha@City.Hospital.com"; Signup.password := samplePassword;
     Signup.fullName := "Asha" |}.

Definition sampleDoctor (state : string) : Signup.Doctor :=
  {| Signup.doctor_id := "d7"; Signup.doctor_email := "asha@city.hospital.com";
     Signup.password_hash := Signup.hashPassword sampleDigest samplePassword;
     Signup.full_name := "Asha"; Signup.status := state |}.

Definition sampleLoginEnv (state : string) (time : Z) : Login.Env :=
  {| Login.emergencyPasskey := Some [107; 101; 121]%N;
     Login.doctors := [sampleDoctor state]; Login.now := time |}.

Definition sampleLogin : Login.Request :=
  {| Login.email := "ASHA@city.hospital.com"; Login.password := samplePassword;
     Login.isEmergencyPasskey := false; Login.forwardedFor := Some "10.0.0.7";
     Login.userAgent := None |}.

Definition samplePasskeyLogin : Login.Request :=
  {| Login.email := EmptyString; Login.password := [107; 101; 121]%N;
     Login.isEmergencyPasskey := true; Login.forwardedFor := Some "10.0.0.7";
     Login.userAgent := None |}.

(** The map when [identifier] has used up its five attempts at time 0. *)
Definition lockedMap (identifier : string) : Login.AttemptMap :=
  Login.mapSet identifier {| Login.count := 5; Login.lastAttempt := 0 |} Login.emptyMap.

Definition sampleLoginRun : list Login.Event * Response * Login.AttemptMap :=
  Login.doctorLogin sampleDigest (sampleLoginEnv "approved" 1000) Login.emptyMap sampleLogin.

(** A text of ASCII characters: on it the builtins of [Js] are the
    platform's. *)
Definition asciiText (s : string) : bool :=
  allChars (fun c => (N_of_ascii c <? 128)%N) s.

(* ================================================================== *)
(** ** The handlers over the platform's strings

    The definitions so far take letter case and white space from the
    ASCII range; they run, and on ASCII text they are the builtins.  The
    module below embeds the same lines of the two handlers for any text: a
    [string] is the UTF-8 encoding of the JavaScript string, white space
    is the white space of ECMAScript ([WhiteSpace] and [LineTerminator],
    which is what [trim] strips and the class [\s] accepts), and
    [toLowerCase] and [toUpperCase] are the platform's, whatever they
    are: Section variables, like [JSON.parse].  Searching a text
    ([includes], a pattern without the [u] flag whose letters are ASCII)
    is the same on the encoding as on the code units, and under the [i]
    flag an ASCII letter of a pattern matches nothing outside ASCII. *)

Module Platform.

Definition byte (n : N) (c : ascii) : bool := (N_of_ascii c =? n)%N.

(** The number of bytes of the white-space character [s] starts with, 0
    when it starts with none: U+0009 to U+000D and U+0020 in one byte,
    U+00A0 in two, U+1680, U+2000 to U+200A, U+2028, U+2029, U+202F,
    U+205F, U+3000 and U+FEFF in three. *)
Definition spaceWidth (s : string) : nat :=
  match s with
  | EmptyString => 0
  | String c0 rest0 =>
      if Js.isSpace c0 then 1
      else
        match rest0 with
        | EmptyString => 0
        | String c1 rest1 =>
            if byte 194 c0 && byte 160 c1 then 2
            else
              match rest1 with
              | EmptyString => 0
              | String c2 _ =>
                  if (byte 225 c0 && byte 154 c1 && byte 128 c2)
                     || (byte 226 c0 && byte 128 c1
                         && (Js.between 128 138 c2 || byte 168 c2
                             || byte 169 c2 || byte 175 c2))
                     || (byte 226 c0 && byte 129 c1 && byte 159 c2)
                     || (byte 227 c0 && byte 128 c1 && byte 128 c2)
                     || (byte 239 c0 && byte 187 c1 && byte 191 c2)
                  then 3 else 0
              end
        end
  end.

Fixpoint trimStart (s : string) : string :=
  match s with
  | EmptyString => EmptyString
  | String _ rest0 =>
      match spaceWidth s with
      | 0 => s
      | 1 => trimStart rest0
      | 2 => match rest0 with
             | String _ rest1 => trimStart rest1
             | EmptyString => s
             end
      | _ => match rest0 with
             | String _ (String _ rest2) => trimStart rest2
             | _ => s
             end
      end
  end.

(** [s] is made of white space and nothing else. *)
Fixpoint blank (s : string) : bool :=
  match s with
  | EmptyString => true
  | String _ rest0 =>
      match spaceWidth s with
      | 0 => false
      | 1 => blank rest0
      | 2 => match rest0 with
             | String _ rest1 => blank rest1
             | EmptyString => false
             end
      | _ => match rest0 with
             | String _ (String _ rest2) => blank rest2
             | _ => false
             end
      end
  end.

(** The text up to where nothing but white space follows. *)
Fixpoint trimEnd (s : string) : string :=
  match s with
  | EmptyString => EmptyString
  | String c rest => if blank s then EmptyString else String c (trimEnd rest)
  end.

Definition trim (s : string) : string := trimEnd (trimStart s).

(** The bytes [bs] one after the other. *)
Fixpoint bytes (bs : list N) : Re.re :=
  match bs with
  | [] => Re.Eps
  | b :: rest => Re.Cat (Re.Class (byte b)) (bytes rest)
  end.

(** The class [\s]. *)
Definition whiteSpace : Re.re :=
  Re.anyOf
    [ Re.Class Js.isSpace;
      bytes [194; 160]%N;
      bytes [225; 154; 128]%N;
      Re.Cat (bytes [226; 128]%N)
        (Re.Class (fun c => Js.between 128 138 c || byte 168 c
                            || byte 169 c || byte 175 c));
      bytes [226; 129; 159]%N;
      bytes [227; 128; 128]%N;
      bytes [239; 187; 191]%N ].

(** The encodings of the white-space characters. *)
Definition whiteSpaceCharacters : list string :=
  let enc (bs : list N) := fold_right (fun b s => String (ascii_of_N b) s) EmptyString bs in
  (map (fun b => enc [b]) [9; 10; 11; 12; 13; 32]
   ++ [enc [194; 160]; enc [225; 154; 128]]
   ++ map (fun b => enc [226; 128; b]) [128; 129; 130; 131; 132; 133; 134; 135; 136; 137; 138]
   ++ [enc [226; 128; 168]; enc [226; 128; 169]; enc [226; 128; 175];
       enc [226; 129; 159]; enc [227; 128; 128]; enc [239; 187; 191]])%N%list.

(** [!text || text.trim().length === 0] *)
Definition missingText (text : string) : bool :=
  negb (Js.nonEmpty text) || (String.length (trim text) =? 0)%nat.

Definition callTrim (v : json) : result string :=
  match v with
  | JStr s => Ok (trim s)
  | _ => Throw "TypeError: trim is not a function"
  end.

(** [s.match(/```(?:json)?\s*([\s\S]*?)```/)], capture group 1. *)
Definition matchFence (s : string) : option string :=
  match Js.splitAt "```" s with
  | None => None
  | Some (_, rest) =>
      match Js.splitAt "```" (trimStart (Js.dropPrefix "json" rest)) with
      | Some (capture, _) => Some capture
      | None => None
      end
  end.

(** Lines 183-196, and the same lines of medication-info. *)
Definition extractJson (trimmed : string) : string :=
  let cleanContent :=
    if Js.includes trimmed "```" then
      match matchFence trimmed with
      | Some capture => trim capture
      | None => trimmed
      end
    else trimmed in
  match Js.matchBraces cleanContent with
  | Some whole => whole
  | None => cleanContent
  end.

(** [/\d+\s*(mg|ml|tablets?|pills?|times?|hours?)/i] *)
Definition dosagePattern : Re.re :=
  Re.Cat (Re.plus (Re.Class Js.isDigit))
    (Re.Cat (Re.Star whiteSpace)
       (Re.anyOf
          [ Re.lit_i "mg"; Re.lit_i "ml";
            Re.Cat (Re.lit_i "tablet") (Re.opt (Re.lit_i "s"));
            Re.Cat (Re.lit_i "pill") (Re.opt (Re.lit_i "s"));
            Re.Cat (Re.lit_i "time") (Re.opt (Re.lit_i "s"));
            Re.Cat (Re.lit_i "hour") (Re.opt (Re.lit_i "s")) ])).

(** The object after lines 205-219, from the severity that lines 205-213
    leave. *)
Definition afterCritical (fields : list (string * json)) (severity' : string)
  : list (string * json) :=
  let fields1 := setField "severity" (JStr severity') fields in
  if String.eqb severity' "CRITICAL"
  then setField "safe_guidance" JNull
         (setField "recommendation" (JStr EMERGENCY) fields1)
  else fields1.

(** [s.replace(new RegExp(p, 'gi'), by)] said as a relation: [s'] is [s]
    with the matches of [p], found from left to right and not
    overlapping, replaced by [by_].  Where no match starts the character
    is kept; where one starts, [by_] stands for the [length p] characters
    of the match and the text goes on after them. *)
Inductive Replaced (p by_ : string) : string -> string -> Prop :=
| ReplacedEnd : Replaced p by_ EmptyString EmptyString
| ReplacedKeep (c : ascii) (s s' : string) :
    Js.startsWith_i (String c s) p = false ->
    Replaced p by_ s s' ->
    Replaced p by_ (String c s) (String c s')
| ReplacedMatch (m s s' : string) :
    String.length m = String.length p ->
    Js.startsWith_i m p = true ->
    Replaced p by_ s s' ->
    Replaced p by_ (m ++ s) (by_ ++ s').

(** The replacements of the terms of a list, one term after the other. *)
Inductive ReplacedEach (by_ : string) : list string -> string -> string -> Prop :=
| ReplacedNone (s : string) : ReplacedEach by_ [] s s
| ReplacedNext (p : string) (terms : list string) (s s1 s' : string) :
    Replaced p by_ s s1 ->
    ReplacedEach by_ terms s1 s' ->
    ReplacedEach by_ (p :: terms) s s'.

(** The rows handed to [insert], in order. *)
Fixpoint inserted (trace : list Event) : list Row :=
  match trace with
  | [] => []
  | InsertPatientQuery row :: rest => row :: inserted rest
  | _ :: rest => inserted rest
  end.

Section Builtins.

(** [String.prototype.toLowerCase] and [toUpperCase]. *)
Variable toLowerCase toUpperCase : string -> string.

Definition callToUpperCase (v : option json) : result string :=
  match v with
  | Some (JStr s) => Ok (toUpperCase s)
  | _ => Throw "TypeError: toUpperCase is not a function"
  end.

Definition callToLowerCase (v : option json) : result string :=
  match v with
  | Some (JStr s) => Ok (toLowerCase s)
  | _ => Throw "TypeError: toLowerCase is not a function"
  end.

(** Lines 205-213 on a string. *)
Definition normalizeSeverity (severity : string) : string :=
  coerceSeverity (toUpperCase severity).

(** Lines 221-235. *)
Definition medicationFilter (safe_guidance : string) : string :=
  let guidanceText := toLowerCase safe_guidance in
  fold_left
    (fun current prohibited =>
       if Js.includes guidanceText prohibited
       then Js.replaceAll_i prohibited NEUTRAL current
       else current)
    PROHIBITED_MEDICATION_TYPES safe_guidance.

(** Lines 200-235. *)
Definition sanitize (analysisResult : json) : result json :=
  disease_category <- prop analysisResult "disease_category" ;;
  severity <- prop analysisResult "severity" ;;
  recommendation <- prop analysisResult "recommendation" ;;
  if negb (truthy disease_category) || negb (truthy severity)
     || negb (truthy recommendation)
  then Throw "Missing required fields in AI response"
  else
    upper <- callToUpperCase severity ;;
    let severity' := coerceSeverity upper in
    let analysisResult := assign analysisResult "severity" (JStr severity') in
    let analysisResult :=
      if String.eqb severity' "CRITICAL"
      then assign (assign analysisResult "recommendation" (JStr EMERGENCY))
                  "safe_guidance" JNull
      else analysisResult in
    safe_guidance <- prop analysisResult "safe_guidance" ;;
    if truthy safe_guidance then
      match safe_guidance with
      | Some (JStr text) =>
          Ok (assign analysisResult "safe_guidance" (JStr (medicationFilter text)))
      | _ => Throw "TypeError: toLowerCase is not a function"
      end
    else Ok analysisResult.

(** The safe_guidance of a validated result, from the value the CRITICAL
    step left. *)
Definition filteredGuidance (v : option json) : option json :=
  match v with
  | Some (JStr text) => Some (JStr (medicationFilter text))
  | _ => v
  end.

(** [JSON.parse]. *)
Variable JSON_parse : string -> option json.

(** Lines 181-198 and 200-235: the body of the inner [try]. *)
Definition tryValidate (aiContent : json) : result json :=
  cleanContent <- callTrim aiContent ;;
  analysisResult <- parseJson JSON_parse (extractJson cleanContent) ;;
  sanitize analysisResult.

(** Lines 180-251. *)
Definition validate (aiContent : json) : json :=
  match tryValidate aiContent with
  | Ok analysisResult => analysisResult
  | Throw _ => FALLBACK
  end.

(** Line 55. *)
Definition fullTextOf (req : TriageRequest) : string :=
  toLowerCase (symptoms req ++ " " ++ prescriptionText req).

(** The predicate of line 56 on one rule. *)
Definition matches (req : TriageRequest) (rule : SafetyRule) : bool :=
  Js.includes (fullTextOf req) (toLowerCase (keyword rule)).

(** Line 56. *)
Definition findRule (rules : option (list SafetyRule)) (fullText : string)
  : option SafetyRule :=
  match rules with
  | Some rules =>
      find (fun rule => Js.includes fullText (toLowerCase (keyword rule))) rules
  | None => None
  end.

(** The handler of analyze-symptoms: its events, in order, and its
    response. *)
Definition analyzeSymptoms (e : Env) (req : TriageRequest) : list Event * Response :=
  if missingText (symptoms req)
  then ([], Resp 400 (errorBody "Symptoms text is required"))
  else
    match findRule (safety_rules e) (fullTextOf req) with
    | Some matchedRule =>
        let result := overrideResult e req matchedRule in
        ([SelectRules; SelectGuidance; InsertPatientQuery (patientQueryRow req result)],
         Resp 200 result)
    | None =>
        match ai e with
        | AiThrows message =>
            ([SelectRules; CallModel], Resp 500 (errorBody (orElse message "Analysis failed")))
        | AiNotOk errorText =>
            ([SelectRules; CallModel],
             Resp 500 (errorBody (orElse ("AI API error: " ++ errorText) "Analysis failed")))
        | AiContent content =>
            match content with
            | Some aiContent =>
                if truthy content then
                  let analysisResult := validate aiContent in
                  ([SelectRules; CallModel;
                    InsertPatientQuery (patientQueryRow req analysisResult)],
                   Resp 200 analysisResult)
                else ([SelectRules; CallModel], Resp 500 (errorBody "No response from AI"))
            | None => ([SelectRules; CallModel], Resp 500 (errorBody "No response from AI"))
            end
        end
    end.

(** medication-info, lines 423-428: the dosage guard. *)
Definition sanitizeDosage (medicationInfo : json) : result json :=
  dosage_info <- prop medicationInfo "dosage_info" ;;
  dosageText <- callToLowerCase dosage_info ;;
  if Re.test dosagePattern dosageText
  then Ok (assign medicationInfo "dosage_info" (JStr DOSAGE_FIXED))
  else Ok medicationInfo.

(** Lines 430-434: the disclaimer guard. *)
Definition sanitizeDisclaimer (medicationInfo : json) : result json :=
  disclaimer <- prop medicationInfo "disclaimer" ;;
  lowered <- callToLowerCase disclaimer ;;
  if negb (Js.includes lowered "educational") || negb (Js.includes lowered "not replace")
  then Ok (assign medicationInfo "disclaimer" (JStr DISCLAIMER_FIXED))
  else Ok medicationInfo.

Definition sanitizeMedication (medicationInfo : json) : result json :=
  checkRequired medicationInfo requiredFields ;;;
  medicationInfo <- sanitizeDosage medicationInfo ;;
  sanitizeDisclaimer medicationInfo.

Definition tryValidateMedication (aiContent : json) : result json :=
  cleanContent <- callTrim aiContent ;;
  medicationInfo <- parseJson JSON_parse (extractJson cleanContent) ;;
  sanitizeMedication medicationInfo.

Definition validateMedication (medicineName : string) (aiContent : json) : json :=
  match tryValidateMedication aiContent with
  | Ok medicationInfo => medicationInfo
  | Throw _ => medicationFallback medicineName
  end.

End Builtins.

End Platform.

(** The text [s] holds no prohibited term, in any letter case. *)
Definition termFree (s : string) : Prop :=
  forall t, In t PROHIBITED_MEDICATION_TYPES -> Js.includes_i s t = false.

(** What the filter needs of [toLowerCase]: a stretch of ASCII letters
    and blanks that spells a prohibited term in some letter case is found
    in lower case in the lower-cased text. *)
Definition lowersTerms (toLowerCase : string -> string) : Prop :=
  forall text t,
    In t PROHIBITED_MEDICATION_TYPES ->
    Js.includes_i text t = true -> Js.includes (toLowerCase text) t = true.

(* ================================================================== *)
(** * Properties *)

(** ** The builtins on sample texts *)

Example trim_ex : Js.trim "  chest pain
 " = "chest pain".
Proof. reflexivity. Qed.

Example matchFence_ex :
  Js.matchFence "Here: ```json {x} ``` bye" = Some "{x} ".
Proof. reflexivity. Qed.

Example matchBraces_ex : Js.matchBraces "so {a{b}c} and } end" = Some "{a{b}c} and }".
Proof. reflexivity. Qed.

Example replaceAll_ex :
  Js.replaceAll_i "steroid" "X" "a Steroid or STEROIDs" = "a X or Xs".
Proof. reflexivity. Qed.

Example extractJson_fenced :
  extractJson "Sure! ```json
 {sev} ``` hope it helps {x}" = "{sev}".
Proof. reflexivity. Qed.

Example extractJson_prose : extractJson "I cannot help" = "I cannot help".
Proof. reflexivity. Qed.

Example dosage_scenario :
  Re.test dosagePattern (Js.toLowerCase "take 500mg twice daily") = true
  /\ Re.test dosagePattern (Js.toLowerCase "One Tablet after food") = false
  /\ Re.test dosagePattern (Js.toLowerCase "2  Pills") = true.
Proof. repeat split; vm_compute; reflexivity. Qed.


(** ** Derivatives decide the words of a pattern *)

Module ReFacts.
Import Re.

Lemma append_empty (w1 w2 : string) :
  w1 ++ w2 = EmptyString -> w1 = EmptyString /\ w2 = EmptyString.
Proof. destruct w1; simpl; [auto | discriminate]. Qed.

Lemma nullable_spec (r : re) : nullable r = true <-> Lang r EmptyString.
Proof.
  split.
  - induction r; simpl; intros H; try discriminate.
    + constructor.
    + apply andb_true_iff in H as [H1 H2].
      change EmptyString with (EmptyString ++ EmptyString). constructor; auto.
    + apply orb_true_iff in H as [H | H]; [apply LangAltL | apply LangAltR]; auto.
    + constructor.
  - intros H. remember EmptyString as w eqn:Ew.
    induction H; simpl; try reflexivity; try discriminate.
    + apply append_empty in Ew as [-> ->]. now rewrite IHLang1, IHLang2.
    + now rewrite IHLang.
    + rewrite IHLang by assumption. apply orb_true_r.
Qed.

Lemma deriv_sound (c : ascii) (r : re) :
  forall w, Lang (deriv c r) w -> Lang r (String c w).
Proof.
  induction r; simpl; intros w H.
  - inversion H.
  - inversion H.
  - destruct (p c) eqn:Ep; inversion H; subst. now constructor.
  - destruct (nullable r1) eqn:En.
    + inversion H as [| | | ? ? ? H' | ? ? ? H' | |]; subst.
      * inversion H' as [| | ? ? w1 w2 Hw1 Hw2 | | | |]; subst.
        change (String c (w1 ++ w2)) with (String c w1 ++ w2). constructor; auto.
      * change (String c w) with (EmptyString ++ String c w).
        constructor; [now apply nullable_spec | auto].
    + inversion H as [| | ? ? w1 w2 Hw1 Hw2 | | | |]; subst.
      change (String c (w1 ++ w2)) with (String c w1 ++ w2). constructor; auto.
  - inversion H; subst; [apply LangAltL | apply LangAltR]; auto.
  - inversion H as [| | ? ? w1 w2 Hw1 Hw2 | | | |]; subst.
    change (String c (w1 ++ w2)) with (String c w1 ++ w2). constructor; auto.
Qed.

Lemma deriv_complete (c : ascii) (r : re) (w' : string) :
  Lang r w' -> forall w, w' = String c w -> Lang (deriv c r) w.
Proof.
  induction 1 as [| p d Hp | r1 r2 w1 w2 H1 IH1 H2 IH2 | r1 r2 w0 H0 IH0
                  | r1 r2 w0 H0 IH0 | r | r w1 w2 H1 IH1 H2 IH2];
    intros w E; simpl.
  - discriminate.
  - injection E as -> <-. rewrite Hp. constructor.
  - destruct w1 as [|d w1].
    + simpl in E. subst w2.
      assert (Hn : nullable r1 = true) by now apply nullable_spec.
      rewrite Hn. apply LangAltR. now apply IH2.
    + simpl in E. injection E as -> <-.
      destruct (nullable r1); [apply LangAltL|]; constructor; auto.
  - apply LangAltL. now apply IH0.
  - apply LangAltR. now apply IH0.
  - discriminate.
  - destruct w1 as [|d w1].
    + simpl in E. now apply IH2.
    + simpl in E. injection E as -> <-. constructor; auto.
Qed.

(** [matchesPrefix]: some prefix of the text is a word. *)
Lemma matchesPrefix_spec (s : string) :
  forall r, matchesPrefix r s = true <-> exists w rest, s = w ++ rest /\ Lang r w.
Proof.
  induction s as [|c s IH]; intros r; simpl.
  - rewrite orb_false_r, nullable_spec. split.
    + intros H. now exists EmptyString, EmptyString.
    + intros (w & rest & E & H). symmetry in E.
      apply append_empty in E as [-> _]. exact H.
  - rewrite orb_true_iff, nullable_spec, IH. split.
    + intros [H | (w & rest & -> & H)].
      * now exists EmptyString, (String c s).
      * exists (String c w), rest. split; [reflexivity | now apply deriv_sound].
    + intros (w & rest & E & H). destruct w as [|d w].
      * now left.
      * right. simpl in E. injection E as <- ->. exists w, rest.
        split; [reflexivity | now apply deriv_complete with (w' := String c w)].
Qed.

(** [test]: some word of the pattern occurs in the text. *)
Lemma test_spec (r : re) (s : string) :
  test r s = true <->
  exists before w rest, s = before ++ w ++ rest /\ Lang r w.
Proof.
  induction s as [|c s IH]; cbn [test].
  - rewrite orb_false_r, matchesPrefix_spec. split.
    + intros (w & rest & E & H). now exists EmptyString, w, rest.
    + intros (before & w & rest & E & H). symmetry in E.
      apply append_empty in E as [-> E]. apply append_empty in E as [-> ->].
      now exists EmptyString, EmptyString.
  - rewrite orb_true_iff, matchesPrefix_spec, IH. split.
    + intros [(w & rest & E & H) | (before & w & rest & -> & H)].
      * now exists EmptyString, w, rest.
      * now exists (String c before), w, rest.
    + intros (before & w & rest & E & H). destruct before as [|d before].
      * left. now exists w, rest.
      * right. simpl in E. injection E as <- ->. now exists before, w, rest.
Qed.

End ReFacts.

(** ** Objects *)

Lemma getField_setField_same (k : string) (v : json) (fields : list (string * json)) :
  getField k (setField k v fields) = Some v.
Proof.
  induction fields as [|[k' v'] rest IH]; simpl.
  - now rewrite String.eqb_refl.
  - destruct (String.eqb k' k) eqn:E; simpl.
    + now rewrite String.eqb_refl.
    + now rewrite E.
Qed.

Lemma getField_setField_other (k k' : string) (v : json) (fields : list (string * json)) :
  k <> k' -> getField k' (setField k v fields) = getField k' fields.
Proof.
  intros Hne. induction fields as [|[k0 v0] rest IH]; simpl.
  - destruct (String.eqb k k') eqn:E; [apply String.eqb_eq in E; contradiction | reflexivity].
  - destruct (String.eqb k0 k) eqn:E; simpl.
    + apply String.eqb_eq in E; subst k0.
      destruct (String.eqb k k') eqn:E'; [apply String.eqb_eq in E'; contradiction | reflexivity].
    + destruct (String.eqb k0 k'); [reflexivity | exact IH].
Qed.

(** Only an object passes the required-field check. *)
Lemma sanitize_Ok_object (p r : json) :
  sanitize p = Ok r -> exists fields, p = JObj fields.
Proof.
  destruct p; simpl; try discriminate. intros _. now eexists.
Qed.

Lemma sanitize_object (fields : list (string * json)) :
  sanitize (JObj fields) =
  if negb (truthy (getField "disease_category" fields))
     || negb (truthy (getField "severity" fields))
     || negb (truthy (getField "recommendation" fields))
  then Throw "Missing required fields in AI response"
  else
    match getField "severity" fields with
    | Some (JStr severity) =>
        let fields2 := afterCritical fields severity in
        if truthy (getField "safe_guidance" fields2) then
          match getField "safe_guidance" fields2 with
          | Some (JStr text) =>
              Ok (JObj (setField "safe_guidance" (JStr (medicationFilter text)) fields2))
          | _ => Throw "TypeError: toLowerCase is not a function"
          end
        else Ok (JObj fields2)
    | _ => Throw "TypeError: toUpperCase is not a function"
    end.
Proof.
  unfold sanitize, afterCritical, normalizeSeverity. simpl bind.
  destruct (negb (truthy (getField "disease_category" fields))
            || negb (truthy (getField "severity" fields))
            || negb (truthy (getField "recommendation" fields))); [reflexivity|].
  destruct (getField "severity" fields) as [[| | |s| |]|]; simpl; try reflexivity.
  destruct (String.eqb (coerceSeverity (Js.toUpperCase s)) "CRITICAL"); reflexivity.
Qed.

(** ** Strings *)

Module JsFacts.
Import Js.

Lemma forall_bool_spec (f : bool -> bool) :
  forall_bool f = true -> forall b, f b = true.
Proof.
  unfold forall_bool. intros H b. apply andb_true_iff in H.
  destruct b; tauto.
Qed.

Lemma forall_ascii_spec (P : ascii -> bool) :
  forall_ascii P = true -> forall c, P c = true.
Proof.
  unfold forall_ascii. intros H [b0 b1 b2 b3 b4 b5 b6 b7].
  apply forall_bool_spec with (b := b0) in H.
  apply forall_bool_spec with (b := b1) in H.
  apply forall_bool_spec with (b := b2) in H.
  apply forall_bool_spec with (b := b3) in H.
  apply forall_bool_spec with (b := b4) in H.
  apply forall_bool_spec with (b := b5) in H.
  apply forall_bool_spec with (b := b6) in H.
  apply forall_bool_spec with (b := b7) in H.
  exact H.
Qed.

(** On bytes, comparing upper-cased characters and comparing lower-cased
    characters is the same test. *)
Lemma eqChar_i_lower (a b : ascii) :
  eqChar_i a b = Ascii.eqb (lowerChar a) (lowerChar b).
Proof.
  pose (P := fun x => forall_ascii (fun y =>
               Bool.eqb (eqChar_i x y) (Ascii.eqb (lowerChar x) (lowerChar y)))).
  assert (H : forall_ascii P = true) by (vm_compute; reflexivity).
  apply forall_ascii_spec with (c := a) in H. unfold P in H.
  apply forall_ascii_spec with (c := b) in H.
  now apply Bool.eqb_prop in H.
Qed.

Lemma startsWith_lower (s t : string) :
  toLowerCase t = t ->
  startsWith (toLowerCase s) t = startsWith_i s t.
Proof.
  revert s. induction t as [|d t IH]; intros s Hlow; [reflexivity|].
  injection Hlow as Hd Ht.
  destruct s as [|c s]; [reflexivity|]. simpl.
  rewrite eqChar_i_lower, Hd. f_equal. now apply IH.
Qed.

(** The test of line 227 and the pattern of line 230 agree on where a
    lower-case term occurs. *)
Lemma includes_lower (s t : string) :
  toLowerCase t = t ->
  includes (toLowerCase s) t = includes_i s t.
Proof.
  intros Hlow. induction s as [|c s IH].
  - simpl. f_equal. now apply (startsWith_lower EmptyString).
  - change (toLowerCase (String c s)) with (String (lowerChar c) (toLowerCase s)).
    cbn [includes includes_i]. rewrite <- IH. f_equal.
    now apply (startsWith_lower (String c s)).
Qed.

Lemma startsWith_i_app (p z u : string) :
  startsWith_i (p ++ z) u = true -> comparable_i u p = true.
Proof.
  unfold comparable_i. revert p. induction u as [|d u IH]; intros p H.
  - destruct p; reflexivity.
  - destruct p as [|c p]; [apply orb_true_r|].
    simpl in H. apply andb_true_iff in H as [Hc H].
    apply IH in H. simpl.
    assert (Hc' : eqChar_i d c = true).
    { unfold eqChar_i in *. now rewrite Ascii.eqb_sym. }
    rewrite Hc, Hc'. exact H.
Qed.

Lemma includes_i_skip (t by_ z : string) :
  (forall p, In p (nonemptySuffixes by_) -> comparable_i t p = false) ->
  includes_i (by_ ++ z) t = includes_i z t.
Proof.
  induction by_ as [|c b IH]; intros H; [reflexivity|].
  change (String c b ++ z) with (String c (b ++ z)).
  cbn [includes_i].
  rewrite IH by (intros p Hp; apply H; now right).
  destruct (startsWith_i (String c (b ++ z)) t) eqn:E; [|reflexivity].
  apply (startsWith_i_app (String c b) z t) in E.
  rewrite H in E by now left. discriminate.
Qed.

Lemma suffix_tail (t u : string) (d : ascii) :
  In (String d u) (nonemptySuffixes t) ->
  u = EmptyString \/ In u (nonemptySuffixes t).
Proof.
  induction t as [|c t IH]; simpl; [tauto|].
  intros [E | Hin].
  - injection E as _ ->. destruct u; [now left | right; right; now left].
  - destruct (IH Hin); [now left | right; now right].
Qed.

(** A match of an end of [t] at the start of the rewritten text was a
    match in the original text. *)
Lemma startsWith_i_replace (t p by_ : string) :
  (forall u, In u (nonemptySuffixes t) -> comparable_i u by_ = false) ->
  forall s u,
    u = EmptyString \/ In u (nonemptySuffixes t) ->
    startsWith_i (replaceFrom p by_ s 0) u = true ->
    startsWith_i s u = true.
Proof.
  intros Hfree. induction s as [|c s IH]; intros u Hu H.
  - exact H.
  - destruct u as [|d u]; [reflexivity|].
    destruct Hu as [Hu | Hu]; [discriminate|].
    cbn [replaceFrom] in H.
    destruct (startsWith_i (String c s) p).
    + apply startsWith_i_app in H. rewrite Hfree in H by exact Hu. discriminate.
    + simpl in H. apply andb_true_iff in H as [Hc H].
      simpl. rewrite Hc. apply (IH u); [|exact H].
      now apply suffix_tail with (d := d).
Qed.

(** Replacing the matches of [p] leaves no occurrence of [t], when [t] is
    [p] itself or did not occur before. *)
Lemma includes_i_replace (t p by_ : string) :
  nonEmpty t = true ->
  borderFree t by_ = true ->
  forall s skip,
    p = t \/ includes_i s t = false ->
    includes_i (replaceFrom p by_ s skip) t = false.
Proof.
  intros Hne Hfree.
  apply andb_true_iff in Hfree as [Hsuf Hpre].
  assert (Hfree1 : forall u, In u (nonemptySuffixes t) -> comparable_i u by_ = false).
  { intros u Hu. rewrite forallb_forall in Hsuf. apply negb_true_iff. now apply Hsuf. }
  assert (Hfree2 : forall q, In q (nonemptySuffixes by_) -> comparable_i t q = false).
  { intros q Hq. rewrite forallb_forall in Hpre. apply negb_true_iff. now apply Hpre. }
  induction s as [|c s IH]; intros skip Hs.
  - destruct t; [discriminate | reflexivity].
  - assert (Hs' : p = t \/ includes_i s t = false).
    { destruct Hs as [-> | Hs]; [now left | right].
      cbn [includes_i] in Hs. now apply orb_false_iff in Hs. }
    cbn [replaceFrom]. destruct skip as [|k]; [|now apply IH].
    destruct (startsWith_i (String c s) p) eqn:Ematch.
    + rewrite includes_i_skip by exact Hfree2. now apply IH.
    + cbn [includes_i]. rewrite (IH 0 Hs'), orb_false_r.
      apply not_true_is_false. intros Habs.
      assert (Hrep : replaceFrom p by_ (String c s) 0
                     = String c (replaceFrom p by_ s 0)).
      { cbn [replaceFrom]. now rewrite Ematch. }
      rewrite <- Hrep in Habs.
      apply (startsWith_i_replace t p by_ Hfree1) in Habs.
      * destruct Hs as [-> | Hs]; [congruence|].
        cbn [includes_i] in Hs. apply orb_false_iff in Hs. destruct Hs. congruence.
      * right. destruct t; [discriminate | now left].
Qed.

End JsFacts.

(** ** The medication filter *)

Lemma prohibited_terms_ok : forallb termOk PROHIBITED_MEDICATION_TYPES = true.
Proof. vm_compute. reflexivity. Qed.

Lemma termOk_prohibited (t : string) :
  In t PROHIBITED_MEDICATION_TYPES ->
  Js.nonEmpty t = true /\ Js.borderFree t NEUTRAL = true /\ Js.toLowerCase t = t.
Proof.
  intros Hin. pose proof prohibited_terms_ok as H.
  rewrite forallb_forall in H. specialize (H t Hin). unfold termOk in H.
  apply andb_true_iff in H as [H H3]. apply andb_true_iff in H as [H1 H2].
  apply String.eqb_eq in H3. auto.
Qed.

(** The loop of lines 226-234 clears a term that the test of line 227
    found, and never brings back a term that is absent. *)
Lemma filter_loop_clears (guidanceText t : string) :
  Js.nonEmpty t = true ->
  Js.borderFree t NEUTRAL = true ->
  forall (terms : list string) (current : string),
    Js.includes_i current t = false
    \/ (In t terms /\ Js.includes guidanceText t = true) ->
    Js.includes_i
      (fold_left
         (fun current prohibited =>
            if Js.includes guidanceText prohibited
            then Js.replaceAll_i prohibited NEUTRAL current
            else current)
         terms current) t = false.
Proof.
  intros Hne Hfree. induction terms as [|p terms IH]; intros current H.
  - destruct H as [H | [[] _]]. exact H.
  - cbn [fold_left]. apply IH.
    destruct (Js.includes_i current t) eqn:Hcur.
    + destruct H as [H | [[-> | Hin] Hinc]]; [discriminate| |now right].
      left. rewrite Hinc. unfold Js.replaceAll_i.
      apply JsFacts.includes_i_replace; auto.
    + left. destruct (Js.includes guidanceText p); [|exact Hcur].
      unfold Js.replaceAll_i. apply JsFacts.includes_i_replace; auto.
Qed.

(** After the filter no prohibited term occurs in the guidance, in any
    letter case. *)
Lemma medicationFilter_clean (safe_guidance t : string) :
  In t PROHIBITED_MEDICATION_TYPES ->
  Js.includes (Js.toLowerCase (medicationFilter safe_guidance)) t = false.
Proof.
  intros Hin. destruct (termOk_prohibited t Hin) as (Hne & Hfree & Hlow).
  rewrite JsFacts.includes_lower by exact Hlow.
  unfold medicationFilter. cbv zeta.
  apply filter_loop_clears; auto.
  destruct (Js.includes (Js.toLowerCase safe_guidance) t) eqn:E.
  - right. now split.
  - left. now rewrite <- JsFacts.includes_lower.
Qed.

Example medicationFilter_ex :
  medicationFilter "Rest. An Antibiotic or STEROID cream may help; insulinsulin."
  = "Rest. An medication (consult doctor) or medication (consult doctor) cream may help; medication (consult doctor)sulin.".
Proof. vm_compute. reflexivity. Qed.

Section TriageClaims.

Variable JSON_parse : string -> option json.

(** The invariant of the validated branch: a CRITICAL severity comes with
    the emergency recommendation and no guidance. *)
Lemma sanitize_critical (p r : json) :
  sanitize p = Ok r ->
  prop r "severity" = Ok (Some (JStr "CRITICAL")) ->
  prop r "recommendation" = Ok (Some (JStr EMERGENCY))
  /\ prop r "safe_guidance" = Ok (Some JNull).
Proof.
  intros Hs. destruct (sanitize_Ok_object _ _ Hs) as [fields ->].
  rewrite sanitize_object in Hs.
  destruct (negb _ || negb _ || negb _); [discriminate|].
  destruct (getField "severity" fields) as [[| | |s| |]|]; try discriminate.
  cbv zeta in Hs. unfold afterCritical in Hs.
  destruct (String.eqb (normalizeSeverity s) "CRITICAL") eqn:Ecrit.
  - (* forced: the filter sees null and leaves the object alone *)
    rewrite getField_setField_same in Hs. simpl in Hs.
    injection Hs as <-. intros _. simpl. split.
    + rewrite getField_setField_other by discriminate.
      now rewrite getField_setField_same.
    + now rewrite getField_setField_same.
  - (* any other severity: the result does not say CRITICAL *)
    apply String.eqb_neq in Ecrit.
    assert (Hsev : forall fields', 
      getField "severity" fields' = Some (JStr (normalizeSeverity s)) ->
      Ok (getField "severity" fields') = Ok (Some (JStr "CRITICAL")) -> False).
    { intros f' E H. rewrite E in H. injection H as H. now apply Ecrit. }
    destruct (truthy _).
    + destruct (getField "safe_guidance" _) as [[| | |text| |]|]; try discriminate.
      injection Hs as <-. simpl. intros H. exfalso. eapply Hsev; [|exact H].
      rewrite getField_setField_other by discriminate.
      apply getField_setField_same.
    + injection Hs as <-. simpl. intros H. exfalso. eapply Hsev; [|exact H].
      apply getField_setField_same.
Qed.

(** C1. Every response of the triage handler whose body has severity
    CRITICAL, be it the override result or a validated model result, has
    the fixed emergency recommendation and a null safe_guidance. *)
Theorem critical_forces_emergency (e : Env) (req : TriageRequest)
    (trace : list Event) (status : nat) (body : json) :
  analyzeSymptoms JSON_parse e req = (trace, Resp status body) ->
  prop body "severity" = Ok (Some (JStr "CRITICAL")) ->
  prop body "recommendation" = Ok (Some (JStr EMERGENCY))
  /\ prop body "safe_guidance" = Ok (Some JNull).
Proof.
  unfold analyzeSymptoms.
  destruct (missingText _).
  { intros [= <- <- <-]. discriminate. }
  destruct (findRule _ _) as [rule|].
  { intros [= <- <- <-] _. split; reflexivity. }
  destruct (ai e) as [m|t|[content|]].
  - intros [= <- <- <-]. discriminate.
  - intros [= <- <- <-]. discriminate.
  - destruct (truthy (Some content)).
    2:{ intros [= <- <- <-]. discriminate. }
    intros [= <- <- <-]. unfold validate, tryValidate.
    destruct (callTrim content) as [clean|]; simpl bind; [|discriminate].
    destruct (parseJson _ _) as [p|]; simpl bind; [|discriminate].
    destruct (sanitize p) as [r|] eqn:Hs; [|discriminate].
    now apply sanitize_critical with (p := p).
  - simpl. intros [= <- <- <-]. discriminate.
Qed.

End TriageClaims.

(** ** The keyword override *)

Lemma find_first {A : Type} (f : A -> bool) (l : list A) (x : A) :
  find f l = Some x ->
  exists before after,
    l = (before ++ x :: after)%list /\ f x = true
    /\ forall y, In y before -> f y = false.
Proof.
  induction l as [|a l IH]; simpl; [discriminate|].
  destruct (f a) eqn:Ea.
  - intros [= ->]. exists [], l. repeat split; auto. intros y [].
  - intros H. destruct (IH H) as (before & after & -> & Hx & Hb).
    exists (a :: before), after. repeat split; auto.
    intros y [<- | Hy]; auto.
Qed.

Lemma find_some_when_exists {A : Type} (f : A -> bool) (l : list A) (x : A) :
  In x l -> f x = true -> exists y, find f l = Some y.
Proof.
  intros Hin Hx. destruct (find f l) as [y|] eqn:E; [now exists y|].
  rewrite (find_none f l E x Hin) in Hx. discriminate.
Qed.

Lemma includes_empty (s : string) : Js.includes s EmptyString = true.
Proof. destruct s; reflexivity. Qed.

(** ** The input guard and the model call *)

Section Boundary.

Variable JSON_parse : string -> option json.

Lemma missing_symptoms_rejected (e : Env) (req : TriageRequest) :
  missingText (symptoms req) = true ->
  analyzeSymptoms JSON_parse e req
  = ([], Resp 400 (errorBody "Symptoms text is required")).
Proof. intros H. unfold analyzeSymptoms. now rewrite H. Qed.

(** The guard looks at the symptom text alone: the answer is the 400
    rejection exactly when that text is missing or blank. *)
Lemma rejected_iff_symptoms_missing (e : Env) (req : TriageRequest) :
  snd (analyzeSymptoms JSON_parse e req)
  = Resp 400 (errorBody "Symptoms text is required")
  <-> missingText (symptoms req) = true.
Proof.
  split.
  - unfold analyzeSymptoms. destruct (missingText (symptoms req)); [reflexivity|].
    destruct (findRule _ _); [discriminate|].
    destruct (ai e) as [m|t|[content|]]; try discriminate.
    destruct (truthy (Some content)); discriminate.
  - intros H. now rewrite missing_symptoms_rejected.
Qed.

(** C4, the code at the failing input. A request without symptom text is
    answered 400 whatever its prescription text, so also when the
    prescription text is not empty; nothing is looked up, called or
    stored. *)
Theorem prescription_only_request_rejected (e : Env) (lang prescription : string) :
  analyzeSymptoms JSON_parse e
    {| symptoms := EmptyString; language := lang; prescriptionText := prescription |}
  = ([], Resp 400 (errorBody "Symptoms text is required")).
Proof. now apply missing_symptoms_rejected. Qed.


End Boundary.



(** ** The validator *)

Lemma sanitize_not_object (p : json) :
  (forall fields, p <> JObj fields) -> exists message, sanitize p = Throw message.
Proof.
  intros H. destruct p; try (eexists; reflexivity).
  now destruct (H fields).
Qed.

Lemma missingOrEmpty_falsy (v : option json) : missingOrEmpty v -> truthy v = false.
Proof. now intros [-> | ->]. Qed.

Lemma sanitize_missing_required (fields : list (string * json)) (k : string) :
  In k triageRequired ->
  truthy (getField k fields) = false ->
  sanitize (JObj fields) = Throw "Missing required fields in AI response".
Proof.
  intros Hin Hk. rewrite sanitize_object.
  simpl in Hin. destruct Hin as [<- | [<- | [<- | []]]]; rewrite Hk; simpl;
    rewrite ?orb_true_r; reflexivity.
Qed.

Section Validator.

Variable JSON_parse : string -> option json.

Lemma validate_parsed (raw : string) (p : json) :
  JSON_parse (extractJson (Js.trim raw)) = Some p ->
  tryValidate JSON_parse (JStr raw) = sanitize p.
Proof. intros H. unfold tryValidate, parseJson. simpl. now rewrite H. Qed.

Lemma validate_unparsed (raw : string) :
  JSON_parse (extractJson (Js.trim raw)) = None ->
  validate JSON_parse (JStr raw) = FALLBACK.
Proof. intros H. unfold validate, tryValidate, parseJson. simpl. now rewrite H. Qed.

(** C5. The validator returns exactly the fixed fallback result when no
    JSON value can be parsed out of the model's text, when the parsed value
    is not an object, and when disease_category, severity or recommendation
    is missing or empty in the parsed object. *)
Theorem malformed_output_gives_fallback (raw : string) :
  (JSON_parse (extractJson (Js.trim raw)) = None ->
     validate JSON_parse (JStr raw) = FALLBACK)
  /\ (forall p, JSON_parse (extractJson (Js.trim raw)) = Some p ->
        (forall fields, p <> JObj fields) ->
        validate JSON_parse (JStr raw) = FALLBACK)
  /\ (forall fields k,
        JSON_parse (extractJson (Js.trim raw)) = Some (JObj fields) ->
        In k triageRequired ->
        missingOrEmpty (getField k fields) ->
        validate JSON_parse (JStr raw) = FALLBACK)
  /\ prop FALLBACK "disease_category" = Ok (Some (JStr "General Health Concern"))
  /\ prop FALLBACK "severity" = Ok (Some (JStr "MODERATE"))
  /\ prop FALLBACK "recommendation" = Ok (Some (JStr "Consult a doctor"))
  /\ prop FALLBACK "reason"
     = Ok (Some (JStr "Unable to analyze symptoms accurately. Please seek professional medical evaluation."))
  /\ prop FALLBACK "safe_guidance"
     = Ok (Some (JStr "Please consult a healthcare provider for proper assessment and guidance.")).
Proof.
  split; [apply validate_unparsed|].
  split.
  { intros p Hp Hno. unfold validate. rewrite (validate_parsed raw p Hp).
    destruct (sanitize_not_object p Hno) as [m ->]. reflexivity. }
  split.
  { intros fields k Hp Hin Hk. unfold validate.
    rewrite (validate_parsed raw _ Hp).
    now rewrite (sanitize_missing_required fields k Hin (missingOrEmpty_falsy _ Hk)). }
  repeat split.
Qed.

End Validator.

(** What the [try] block returns for an object that passed the
    required-field check with a string severity, by the type of its
    safe_guidance after the CRITICAL step. *)
Lemma sanitize_passed (fields : list (string * json)) (s : string) :
  truthy (getField "disease_category" fields) = true ->
  truthy (getField "recommendation" fields) = true ->
  getField "severity" fields = Some (JStr s) ->
  Js.nonEmpty s = true ->
  sanitize (JObj fields) =
  match getField "safe_guidance" (afterCritical fields s) with
  | Some (JStr text) =>
      if Js.nonEmpty text
      then Ok (JObj (setField "safe_guidance" (JStr (medicationFilter text))
                       (afterCritical fields s)))
      else Ok (JObj (afterCritical fields s))
  | v => if truthy v then Throw "TypeError: toLowerCase is not a function"
         else Ok (JObj (afterCritical fields s))
  end.
Proof.
  intros Hdc Hrec Hsev Hs. rewrite sanitize_object, Hdc, Hrec, Hsev.
  simpl truthy at 1. rewrite Hs. simpl.
  destruct (getField "safe_guidance" (afterCritical fields s)) as [[|b|n|text|l|f]|];
    simpl; reflexivity.
Qed.

Lemma afterCritical_severity (fields : list (string * json)) (s : string) :
  getField "severity" (afterCritical fields s) = Some (JStr (normalizeSeverity s)).
Proof.
  unfold afterCritical. destruct (String.eqb _ _).
  - rewrite !getField_setField_other by discriminate. apply getField_setField_same.
  - apply getField_setField_same.
Qed.

Lemma afterCritical_untouched (fields : list (string * json)) (s k : string) :
  k <> "severity" -> k <> "recommendation" -> k <> "safe_guidance" ->
  getField k (afterCritical fields s) = getField k fields.
Proof.
  intros H1 H2 H3. unfold afterCritical. destruct (String.eqb _ _).
  - rewrite !getField_setField_other by congruence. reflexivity.
  - rewrite getField_setField_other by congruence. reflexivity.
Qed.

Lemma afterCritical_guidance (fields : list (string * json)) (s : string) :
  getField "safe_guidance" (afterCritical fields s)
  = if String.eqb (normalizeSeverity s) "CRITICAL" then Some JNull
    else getField "safe_guidance" fields.
Proof.
  unfold afterCritical. destruct (String.eqb _ _).
  - apply getField_setField_same.
  - now rewrite getField_setField_other by discriminate.
Qed.

Lemma afterCritical_recommendation (fields : list (string * json)) (s : string) :
  getField "recommendation" (afterCritical fields s)
  = if String.eqb (normalizeSeverity s) "CRITICAL" then Some (JStr EMERGENCY)
    else getField "recommendation" fields.
Proof.
  unfold afterCritical. destruct (String.eqb _ _).
  - rewrite getField_setField_other by discriminate. apply getField_setField_same.
  - now rewrite getField_setField_other by discriminate.
Qed.

Lemma normalizeSeverity_valid (s : string) :
  memberOf (normalizeSeverity s) validSeverities = true.
Proof.
  unfold normalizeSeverity, coerceSeverity.
  destruct (memberOf (Js.toUpperCase s) validSeverities) eqn:E; [exact E | reflexivity].
Qed.

Lemma medicationFilter_empty : medicationFilter EmptyString = EmptyString.
Proof. reflexivity. Qed.

(** The validated result, field by field; the [try] block throws after the
    required-field check only on a safe_guidance that is neither absent,
    null nor a string. *)
Lemma sanitize_cases (fields : list (string * json)) (s : string) :
  (forall k, In k triageRequired -> truthy (getField k fields) = true) ->
  getField "severity" fields = Some (JStr s) ->
  (exists result,
      sanitize (JObj fields) = Ok (JObj result)
      /\ getField "severity" result = Some (JStr (normalizeSeverity s))
      /\ getField "safe_guidance" result
         = filteredGuidance (getField "safe_guidance" (afterCritical fields s))
      /\ getField "recommendation" result
         = getField "recommendation" (afterCritical fields s)
      /\ (forall k, k <> "severity" -> k <> "recommendation" -> k <> "safe_guidance" ->
            getField k result = getField k fields))
  \/ (exists message, sanitize (JObj fields) = Throw message)
     /\ ~ guidanceTyped (getField "safe_guidance" fields).
Proof.
  intros Hreq Hsev.
  assert (Hdc : truthy (getField "disease_category" fields) = true)
    by (apply Hreq; simpl; tauto).
  assert (Hrec : truthy (getField "recommendation" fields) = true)
    by (apply Hreq; simpl; tauto).
  assert (Hs : Js.nonEmpty s = true).
  { specialize (Hreq "severity"). rewrite Hsev in Hreq. apply Hreq. simpl; tauto. }
  rewrite (sanitize_passed fields s Hdc Hrec Hsev Hs).
  pose proof (afterCritical_guidance fields s) as Hg.
  assert (Hplain : exists result,
             Ok (JObj (afterCritical fields s)) = Ok (JObj result)
             /\ getField "severity" result = Some (JStr (normalizeSeverity s))
             /\ getField "safe_guidance" result
                = getField "safe_guidance" (afterCritical fields s)
             /\ getField "recommendation" result
                = getField "recommendation" (afterCritical fields s)
             /\ (forall k, k <> "severity" -> k <> "recommendation" ->
                   k <> "safe_guidance" -> getField k result = getField k fields)).
  { exists (afterCritical fields s). repeat split.
    - apply afterCritical_severity.
    - intros k H1 H2 H3. now apply afterCritical_untouched. }
  assert (Hbad : forall v,
             getField "safe_guidance" (afterCritical fields s) = Some v ->
             v <> JNull -> (forall text, v <> JStr text) ->
             ~ guidanceTyped (getField "safe_guidance" fields)).
  { intros v Ev Hnull Hstr Htyped. rewrite Ev in Hg.
    destruct (String.eqb (normalizeSeverity s) "CRITICAL").
    - injection Hg as ->. now apply Hnull.
    - rewrite <- Hg in Htyped. destruct Htyped as [H | [H | [text H]]];
        try discriminate; injection H as ->; [now apply Hnull | now apply (Hstr text)]. }
  destruct (getField "safe_guidance" (afterCritical fields s))
    as [[|b|n|text|l|f]|] eqn:Esg.
  - left. destruct Hplain as (r & H1 & H2 & H3 & H4). exists r. now rewrite H3.
  - destruct b.
    + right. split; [now eexists|]. apply (Hbad (JBool true)); congruence.
    + left. destruct Hplain as (r & H1 & H2 & H3 & H4). exists r. now rewrite H3.
  - simpl. destruct (negb (n =? 0)%Z).
    + right. split; [now eexists|]. apply (Hbad (JNum n)); congruence.
    + left. destruct Hplain as (r & H1 & H2 & H3 & H4). exists r. now rewrite H3.
  - destruct (Js.nonEmpty text) eqn:Et.
    + left. eexists. split; [reflexivity|]. repeat split.
      * rewrite getField_setField_other by discriminate. apply afterCritical_severity.
      * apply getField_setField_same.
      * now rewrite getField_setField_other by discriminate.
      * intros k H1 H2 H3. rewrite getField_setField_other by congruence.
        now apply afterCritical_untouched.
    + left. destruct Hplain as (r & H1 & H2 & H3 & H4). exists r.
      destruct text; [|discriminate]. now rewrite H3.
  - right. split; [now eexists|]. apply (Hbad (JArr l)); congruence.
  - right. split; [now eexists|]. apply (Hbad (JObj f)); congruence.
  - left. destruct Hplain as (r & H1 & H2 & H3 & H4). exists r. now rewrite H3.
Qed.

Lemma medicationFilter_unchanged (terms : list string) (guidanceText current : string) :
  (forall t, In t terms -> Js.includes guidanceText t = false) ->
  fold_left
    (fun current prohibited =>
       if Js.includes guidanceText prohibited
       then Js.replaceAll_i prohibited NEUTRAL current
       else current)
    terms current = current.
Proof.
  revert current. induction terms as [|t terms IH]; intros current H; [reflexivity|].
  cbn [fold_left]. rewrite (H t) by now left.
  apply IH. intros t' Ht'. apply H. now right.
Qed.

(** ** medication-info: the dosage guard *)

Lemma checkRequired_passes (fields : list (string * json)) (names : list string) :
  (forall k, In k names -> truthy (getField k fields) = true) ->
  checkRequired (JObj fields) names = Ok tt.
Proof.
  induction names as [|k names IH]; intros H; [reflexivity|].
  simpl. rewrite (H k) by now left. simpl.
  apply IH. intros k' Hk'. apply H. now right.
Qed.

(** ** The theorems at sample answers of the model *)

Lemma critical_forces_emergency_witness :
  prop (validate (sampleParse (sampleTable (sampleModelObject "critical" "Take an antibiotic.")))
          (JStr sampleModelText)) "severity"
  = Ok (Some (JStr "CRITICAL"))
  /\ prop (validate (sampleParse (sampleTable (sampleModelObject "critical" "Take an antibiotic.")))
             (JStr sampleModelText)) "recommendation"
     = Ok (Some (JStr EMERGENCY))
  /\ prop (validate (sampleParse (sampleTable (sampleModelObject "critical" "Take an antibiotic.")))
             (JStr sampleModelText)) "safe_guidance"
     = Ok (Some JNull).
Proof.
  split; [vm_compute; reflexivity|].
  apply (critical_forces_emergency
           (sampleParse (sampleTable (sampleModelObject "critical" "Take an antibiotic.")))
           (sampleEnv sampleRules (AiContent (Some (JStr sampleModelText))))
           (sampleRequest "cough and fever" EmptyString)
           [SelectRules; CallModel;
            InsertPatientQuery
              (patientQueryRow (sampleRequest "cough and fever" EmptyString)
                 (validate
                    (sampleParse (sampleTable (sampleModelObject "critical" "Take an antibiotic.")))
                    (JStr sampleModelText)))]
           200).
  - vm_compute. reflexivity.
  - vm_compute. reflexivity.
Defined.

Lemma malformed_output_gives_fallback_witness :
  validate (sampleParse []) (JStr "I cannot help with that.") = FALLBACK
  /\ validate
       (sampleParse
          (sampleTable
             (JObj [ ("disease_category", JStr "Flu"); ("severity", JStr "HIGH");
                     ("recommendation", JStr EmptyString) ])))
       (JStr sampleModelText)
     = FALLBACK.
Proof.
  split.
  - apply (proj1 (malformed_output_gives_fallback (sampleParse [])
                    "I cannot help with that.")).
    reflexivity.
  - destruct (malformed_output_gives_fallback
                (sampleParse
                   (sampleTable
                      (JObj [ ("disease_category", JStr "Flu"); ("severity", JStr "HIGH");
                              ("recommendation", JStr EmptyString) ])))
                sampleModelText) as (_ & _ & H & _).
    apply (H [ ("disease_category", JStr "Flu"); ("severity", JStr "HIGH");
               ("recommendation", JStr EmptyString) ] "recommendation").
    + reflexivity.
    + simpl. tauto.
    + right. reflexivity.
Defined.

(** ** The scenarios of the specification *)

Example scenario_chest_pain :
  analyzeSymptoms (sampleParse [])
    (sampleEnv [sampleRule "chest pain" "Cardiac"] (AiNotOk "unused"))
    (sampleRequest "severe chest pain" EmptyString)
  = ([SelectRules; SelectGuidance;
      InsertPatientQuery
        [ ("symptoms_text", Some (JStr "severe chest pain"));
          ("prescription_text", Some JNull);
          ("disease_category", Some (JStr "Cardiac"));
          ("severity", Some (JStr "CRITICAL"));
          ("recommendation", Some (JStr "Emergency medical attention"));
          ("reason", Some (JStr "Call emergency services immediately."));
          ("language", Some (JStr "en")) ]],
     Resp 200
       (JObj [ ("disease_category", JStr "Cardiac");
               ("severity", JStr "CRITICAL");
               ("recommendation", JStr "Emergency medical attention");
               ("reason", JStr "Call emergency services immediately.");
               ("safe_guidance", JNull);
               ("is_override", JBool true) ])).
Proof. vm_compute. reflexivity. Qed.

Example scenario_critical_from_model :
  validate (sampleParse (sampleTable (sampleModelObject "critical" "Sip warm water.")))
    (JStr sampleModelText)
  = JObj [ ("disease_category", JStr "Respiratory");
           ("severity", JStr "CRITICAL");
           ("recommendation", JStr "Emergency medical attention");
           ("reason", JStr "Common seasonal symptoms.");
           ("safe_guidance", JNull) ].
Proof. vm_compute. reflexivity. Qed.

Example scenario_prose :
  validate (sampleParse []) (JStr "I am not able to assess this.") = FALLBACK.
Proof. reflexivity. Qed.

Example scenario_untyped_severity :
  validate
    (sampleParse
       (sampleTable
          (JObj [ ("disease_category", JStr "Flu"); ("severity", JNum 3);
                  ("recommendation", JStr "Rest") ])))
    (JStr sampleModelText)
  = FALLBACK.
Proof. reflexivity. Qed.

Example scenario_empty_content :
  analyzeSymptoms (sampleParse []) (sampleEnv [] (AiContent (Some (JStr EmptyString))))
    (sampleRequest "mild headache" EmptyString)
  = ([SelectRules; CallModel], Resp 500 (errorBody "No response from AI")).
Proof. reflexivity. Qed.

(* ================================================================== *)
(** * Further properties of analyze-symptoms *)

Lemma setField_same_value (k : string) (v : json) (fields : list (string * json)) :
  getField k fields = Some v -> setField k v fields = fields.
Proof.
  induction fields as [|[k' v'] rest IH]; simpl; [discriminate|].
  destruct (String.eqb k' k) eqn:E.
  - apply String.eqb_eq in E. subst k'. now intros [= ->].
  - intros H. now rewrite IH.
Qed.

(** What a successful run of the [try] block says about its input and its
    result. *)
Lemma sanitize_Ok_inv (p r : json) :
  sanitize p = Ok r ->
  exists fields s result,
    p = JObj fields /\ r = JObj result
    /\ (forall k, In k triageRequired -> truthy (getField k fields) = true)
    /\ getField "severity" fields = Some (JStr s)
    /\ getField "severity" result = Some (JStr (normalizeSeverity s))
    /\ getField "safe_guidance" result
       = filteredGuidance (getField "safe_guidance" (afterCritical fields s))
    /\ getField "recommendation" result
       = getField "recommendation" (afterCritical fields s)
    /\ (forall k, k <> "severity" -> k <> "recommendation" -> k <> "safe_guidance" ->
          getField k result = getField k fields).
Proof.
  intros H. destruct (sanitize_Ok_object _ _ H) as [fields ->].
  assert (Hreq : forall k, In k triageRequired -> truthy (getField k fields) = true).
  { intros k Hk. destruct (truthy (getField k fields)) eqn:E; [reflexivity|].
    rewrite (sanitize_missing_required fields k Hk E) in H. discriminate. }
  assert (Hsev : exists s, getField "severity" fields = Some (JStr s)).
  { rewrite sanitize_object in H.
    destruct (negb _ || negb _ || negb _); [discriminate|].
    destruct (getField "severity" fields) as [[| | |s| |]|]; try discriminate.
    now exists s. }
  destruct Hsev as [s Hsev].
  destruct (sanitize_cases fields s Hreq Hsev)
    as [(result & Hok & H1 & H2 & H3 & H4) | ([message Hthrow] & _)].
  - rewrite Hok in H. injection H as <-.
    exists fields, s, result. repeat split; auto.
  - rewrite Hthrow in H. discriminate.
Qed.

Lemma valid_severity_fixed (s : string) :
  memberOf s validSeverities = true ->
  Js.nonEmpty s = true /\ normalizeSeverity s = s.
Proof.
  unfold memberOf, validSeverities. simpl. rewrite !orb_true_iff.
  intros [H | [H | [H | [H | H]]]]; try discriminate;
    apply String.eqb_eq in H; subst s; split; reflexivity.
Qed.

Lemma medicationFilter_idempotent (text : string) :
  medicationFilter (medicationFilter text) = medicationFilter text.
Proof.
  unfold medicationFilter at 1. cbv zeta.
  apply medicationFilter_unchanged.
  intros t Ht. now apply medicationFilter_clean.
Qed.

Lemma afterCritical_fixed (result : list (string * json)) (s : string) :
  normalizeSeverity s = s ->
  getField "severity" result = Some (JStr s) ->
  (String.eqb s "CRITICAL" = true ->
     getField "recommendation" result = Some (JStr EMERGENCY)
     /\ getField "safe_guidance" result = Some JNull) ->
  afterCritical result s = result.
Proof.
  intros Hn Hsev Hcrit. unfold afterCritical. rewrite Hn.
  rewrite (setField_same_value _ _ _ Hsev).
  destruct (String.eqb s "CRITICAL"); [|reflexivity].
  destruct (Hcrit eq_refl) as [Hr Hg].
  rewrite (setField_same_value _ _ _ Hr). now apply setField_same_value.
Qed.

(** X1. A second validation pass changes nothing: the [try] block maps
    every object it returns to itself. *)
Theorem sanitize_idempotent (p r : json) :
  sanitize p = Ok r -> sanitize r = Ok r.
Proof.
  intros H.
  destruct (sanitize_Ok_inv p r H)
    as (fields & s & result & -> & -> & Hreq & Hsev & Hs & Hg & Hr & Hother).
  destruct (valid_severity_fixed _ (normalizeSeverity_valid s)) as [Hne Hfix].
  assert (Hdc : truthy (getField "disease_category" result) = true).
  { rewrite Hother by discriminate. apply Hreq. simpl; tauto. }
  assert (Hrec : truthy (getField "recommendation" result) = true).
  { rewrite Hr, afterCritical_recommendation.
    destruct (String.eqb _ _); [reflexivity | apply Hreq; simpl; tauto]. }
  assert (Hsame : afterCritical result (normalizeSeverity s) = result).
  { apply afterCritical_fixed; auto. intros Hc.
    rewrite Hr, Hg, afterCritical_recommendation, afterCritical_guidance, Hc.
    split; reflexivity. }
  rewrite (sanitize_passed result (normalizeSeverity s) Hdc Hrec Hs Hne), Hsame.
  destruct (getField "safe_guidance" result) as [[|b|n|text|l|f]|] eqn:Eg;
    try reflexivity.
  - (* a boolean or a number that came through is falsy *)
    destruct (getField "safe_guidance" (afterCritical fields s))
      as [[|b'|n'|text'|l'|f']|] eqn:Ea; simpl in Hg; try discriminate.
    injection Hg as ->.
    destruct (sanitize_cases fields s Hreq Hsev)
      as [(result' & Hok & _) | ([message Hthrow] & _)].
    + rewrite (sanitize_passed fields s) in Hok; auto; try (apply Hreq; simpl; tauto).
      * rewrite Ea in Hok. simpl in Hok. simpl. now destruct b'.
      * specialize (Hreq "severity"). rewrite Hsev in Hreq. apply Hreq. simpl; tauto.
    + rewrite H in Hthrow. discriminate.
  - destruct (getField "safe_guidance" (afterCritical fields s))
      as [[|b'|n'|text'|l'|f']|] eqn:Ea; simpl in Hg; try discriminate.
    injection Hg as ->.
    rewrite (sanitize_passed fields s) in H; auto; try (apply Hreq; simpl; tauto).
    * rewrite Ea in H. simpl in H. simpl. now destruct (negb (n' =? 0)%Z).
    * specialize (Hreq "severity"). rewrite Hsev in Hreq. apply Hreq. simpl; tauto.
  - (* a text: it is already filtered *)
    assert (Hclean : medicationFilter text = text).
    { destruct (getField "safe_guidance" (afterCritical fields s))
        as [[|b'|n'|text'|l'|f']|]; simpl in Hg; try discriminate.
      injection Hg as ->. apply medicationFilter_idempotent. }
    rewrite Hclean. destruct (Js.nonEmpty text); [|reflexivity].
    now rewrite (setField_same_value _ _ _ Eg).
  - (* an array cannot come through *)
    exfalso.
    destruct (getField "safe_guidance" (afterCritical fields s))
      as [[|b'|n'|text'|l'|f']|] eqn:Ea; simpl in Hg; try discriminate.
    rewrite (sanitize_passed fields s) in H; auto; try (apply Hreq; simpl; tauto).
    * rewrite Ea in H. discriminate.
    * specialize (Hreq "severity"). rewrite Hsev in Hreq. apply Hreq. simpl; tauto.
  - exfalso.
    destruct (getField "safe_guidance" (afterCritical fields s))
      as [[|b'|n'|text'|l'|f']|] eqn:Ea; simpl in Hg; try discriminate.
    rewrite (sanitize_passed fields s) in H; auto; try (apply Hreq; simpl; tauto).
    * rewrite Ea in H. discriminate.
    * specialize (Hreq "severity"). rewrite Hsev in Hreq. apply Hreq. simpl; tauto.
Qed.

Lemma sanitize_idempotent_witness :
  sanitize (sampleModelObject "critical" "Take an antibiotic.")
  = Ok (JObj [ ("disease_category", JStr "Respiratory");
               ("severity", JStr "CRITICAL");
               ("recommendation", JStr EMERGENCY);
               ("reason", JStr "Common seasonal symptoms.");
               ("safe_guidance", JNull) ])
  /\ sanitize (JObj [ ("disease_category", JStr "Respiratory");
                      ("severity", JStr "CRITICAL");
                      ("recommendation", JStr EMERGENCY);
                      ("reason", JStr "Common seasonal symptoms.");
                      ("safe_guidance", JNull) ])
     = Ok (JObj [ ("disease_category", JStr "Respiratory");
                  ("severity", JStr "CRITICAL");
                  ("recommendation", JStr EMERGENCY);
                  ("reason", JStr "Common seasonal symptoms.");
                  ("safe_guidance", JNull) ]).
Proof.
  split; [vm_compute; reflexivity|].
  apply (sanitize_idempotent (sampleModelObject "critical" "Take an antibiotic.")).
  vm_compute. reflexivity.
Defined.

Section TriageInvariants.

Variable JSON_parse : string -> option json.

(** The validator returns the fallback or what the [try] block made of
    some parsed value. *)
Lemma validate_cases (aiContent : json) :
  validate JSON_parse aiContent = FALLBACK
  \/ exists p, sanitize p = Ok (validate JSON_parse aiContent).
Proof.
  unfold validate. destruct (tryValidate JSON_parse aiContent) as [r|m] eqn:E;
    [right | now left].
  unfold tryValidate in E.
  destruct (callTrim aiContent) as [clean|]; simpl in E; [|discriminate].
  destruct (parseJson JSON_parse (extractJson clean)) as [p|]; simpl in E; [|discriminate].
  now exists p.
Qed.

(** The three ways to a response with status 200. *)
Lemma success_cases (e : Env) (req : TriageRequest) (trace : list Event) (body : json) :
  analyzeSymptoms JSON_parse e req = (trace, Resp 200 body) ->
  trace = [SelectRules; SelectGuidance; InsertPatientQuery (patientQueryRow req body)]
  /\ (exists rule, findRule (safety_rules e) (fullTextOf req) = Some rule
                   /\ body = overrideResult e req rule)
  \/ trace = [SelectRules; CallModel; InsertPatientQuery (patientQueryRow req body)]
     /\ findRule (safety_rules e) (fullTextOf req) = None
     /\ (body = FALLBACK \/ exists p, sanitize p = Ok body).
Proof.
  unfold analyzeSymptoms.
  destruct (missingText _); [discriminate|].
  destruct (findRule _ _) as [rule|].
  { intros [= <- <-]. left. split; [reflexivity | now exists rule]. }
  destruct (ai e) as [m|t|[content|]]; try discriminate.
  destruct (truthy (Some content)); [|discriminate].
  intros [= <- <-]. right. split; [reflexivity|]. split; [reflexivity|].
  apply validate_cases.
Qed.

(** X2. Every result returned with status 200 carries one of the four
    severity names, and the row stored with it holds the same name: the
    handler never stores any other severity. *)
Theorem success_severity_is_valid (e : Env) (req : TriageRequest)
    (trace : list Event) (body : json) :
  analyzeSymptoms JSON_parse e req = (trace, Resp 200 body) ->
  exists severity,
    prop body "severity" = Ok (Some (JStr severity))
    /\ memberOf severity validSeverities = true
    /\ forall row, In (InsertPatientQuery row) trace ->
                   column "severity" row = Some (JStr severity).
Proof.
  intros Hrun.
  assert (Hrows : forall fields severity,
            body = JObj fields ->
            getField "severity" fields = Some (JStr severity) ->
            forall row, In (InsertPatientQuery row) trace ->
                        column "severity" row = Some (JStr severity)).
  { intros fields severity -> Hsev row Hin.
    destruct (success_cases e req trace _ Hrun) as [[-> _] | [-> _]];
      simpl in Hin; destruct Hin as [H | [H | [H | []]]]; try discriminate;
      injection H as <-; exact Hsev. }
  destruct (success_cases e req trace body Hrun)
    as [[_ (rule & _ & Hbody)] | (_ & _ & [Hbody | [p Hp]])].
  - exists "CRITICAL". split; [now rewrite Hbody|]. split; [reflexivity|].
    apply (Hrows _ _ Hbody). reflexivity.
  - exists "MODERATE". split; [now rewrite Hbody|]. split; [reflexivity|].
    apply (Hrows _ _ Hbody). reflexivity.
  - destruct (sanitize_Ok_inv p body Hp)
      as (fields & s & result & _ & Hbody & _ & _ & Hs & _).
    exists (normalizeSeverity s). split; [rewrite Hbody; simpl; now rewrite Hs|].
    split; [apply normalizeSeverity_valid|].
    now apply (Hrows _ _ Hbody).
Qed.

(** X3. Whatever the model wrote, a result returned with status 200 never
    carries a safe_guidance text in which a prohibited medication term
    occurs, in any letter case. *)
Theorem success_guidance_is_clean (e : Env) (req : TriageRequest)
    (trace : list Event) (body : json) (guidance t : string) :
  analyzeSymptoms JSON_parse e req = (trace, Resp 200 body) ->
  prop body "safe_guidance" = Ok (Some (JStr guidance)) ->
  In t PROHIBITED_MEDICATION_TYPES ->
  Js.includes (Js.toLowerCase guidance) t = false.
Proof.
  intros Hrun Hg Ht.
  destruct (success_cases e req trace body Hrun)
    as [[_ (rule & _ & Hbody)] | (_ & _ & [Hbody | [p Hp]])].
  - rewrite Hbody in Hg. discriminate.
  - rewrite Hbody in Hg. injection Hg as <-.
    simpl in Ht. repeat (destruct Ht as [<- | Ht]; [vm_compute; reflexivity|]).
    destruct Ht.
  - destruct (sanitize_Ok_inv p body Hp)
      as (fields & s & result & _ & Hbody & _ & _ & _ & Hf & _).
    rewrite Hbody in Hg. simpl in Hg. injection Hg as Hg. rewrite Hf in Hg.
    destruct (getField "safe_guidance" (afterCritical fields s))
      as [[| | |text| |]|]; simpl in Hg; try discriminate.
    injection Hg as <-. now apply medicationFilter_clean.
Qed.

(** X4. The handler stores a row exactly when it answers with status 200:
    a rejected request and a failed model call leave no record. *)
Theorem row_stored_iff_success (e : Env) (req : TriageRequest) :
  forall trace status body,
    analyzeSymptoms JSON_parse e req = (trace, Resp status body) ->
    ((exists row, In (InsertPatientQuery row) trace) <-> status = 200).
Proof.
  intros trace status body. unfold analyzeSymptoms.
  assert (Hno : forall row, ~ In (InsertPatientQuery row) [SelectRules; CallModel]).
  { intros row [H | [H | []]]; discriminate. }
  destruct (missingText _).
  { intros [= <- <- <-]. split; [intros [row []] | discriminate]. }
  destruct (findRule _ _) as [rule|].
  { intros [= <- <- <-]. split; [reflexivity|]. intros _.
    eexists. right. right. now left. }
  destruct (ai e) as [m|t|[content|]].
  - intros [= <- <- <-]. split; [intros [row H]; now destruct (Hno row) | discriminate].
  - intros [= <- <- <-]. split; [intros [row H]; now destruct (Hno row) | discriminate].
  - destruct (truthy (Some content)).
    + intros [= <- <- <-]. split; [reflexivity|]. intros _.
      eexists. right. right. now left.
    + intros [= <- <- <-]. split; [intros [row H]; now destruct (Hno row) | discriminate].
  - intros [= <- <- <-]. split; [intros [row H]; now destruct (Hno row) | discriminate].
Qed.

End TriageInvariants.

(** ** What is cut out of the model's text *)

Module ExtractFacts.
Import Js.

Lemma substring_all (s : string) : substring 0 (String.length s) s = s.
Proof. induction s as [|c s IH]; simpl; [reflexivity | now rewrite IH]. Qed.

Lemma append_assoc (a b c : string) : (a ++ b) ++ c = a ++ b ++ c.
Proof. induction a as [|x a IH]; simpl; [reflexivity | now rewrite IH]. Qed.

Lemma startsWith_app (t rest : string) : startsWith (t ++ rest) t = true.
Proof.
  induction t as [|c t IH]; simpl; [reflexivity|].
  now rewrite Ascii.eqb_refl, IH.
Qed.

Lemma drop_prefix (t rest : string) :
  substring (String.length t) (String.length (t ++ rest) - String.length t) (t ++ rest)
  = rest.
Proof.
  induction t as [|c t IH]; simpl.
  - rewrite Nat.sub_0_r. apply substring_all.
  - exact IH.
Qed.

Lemma includes_startsWith (s t : string) :
  startsWith s t = true -> includes s t = true.
Proof. intros H. destruct s; simpl; now rewrite H. Qed.

Lemma includes_app (a t b : string) : includes (a ++ t ++ b) t = true.
Proof.
  induction a as [|c a IH].
  - change (EmptyString ++ t ++ b) with (t ++ b).
    apply includes_startsWith, startsWith_app.
  - change (String c a ++ t ++ b) with (String c (a ++ t ++ b)).
    cbn [includes]. rewrite IH. apply orb_true_r.
Qed.

Lemma hasChar_app (c : ascii) (a b : string) :
  hasChar c (a ++ b) = hasChar c a || hasChar c b.
Proof.
  induction a as [|d a IH]; simpl; [reflexivity|].
  now rewrite IH, orb_assoc.
Qed.

Lemma allSpace_hasChar (c : ascii) (ws : string) :
  isSpace c = false -> allSpace ws = true -> hasChar c ws = false.
Proof.
  intros Hc. induction ws as [|d ws IH]; simpl; [reflexivity|].
  intros H. apply andb_true_iff in H as [Hd Hws].
  rewrite (IH Hws), orb_false_r.
  destruct (Ascii.eqb_spec d c); [congruence | reflexivity].
Qed.

(** The first fence is found right after a text without backquotes. *)
Lemma splitAt_fence (pre rest : string) :
  hasChar "`" pre = false ->
  splitAt "```" (pre ++ "```" ++ rest) = Some (pre, rest).
Proof.
  induction pre as [|c pre IH]; intros H.
  - simpl. rewrite Nat.sub_0_r. now rewrite substring_all.
  - simpl in H. apply orb_false_iff in H as [Hc Hpre].
    change (String c pre ++ "```" ++ rest) with (String c (pre ++ "```" ++ rest)).
    cbn [splitAt]. cbn [startsWith]. rewrite Hc. cbn [andb].
    now rewrite (IH Hpre).
Qed.

Lemma trimStart_spaces (ws s : string) (c : ascii) :
  allSpace ws = true -> isSpace c = false ->
  trimStart (ws ++ String c s) = String c s.
Proof.
  intros Hws Hc. induction ws as [|d ws IH]; simpl in *.
  - now rewrite Hc.
  - apply andb_true_iff in Hws as [Hd Hws]. rewrite Hd. now apply IH.
Qed.

Lemma trimEnd_spaces (ws : string) : allSpace ws = true -> trimEnd ws = EmptyString.
Proof.
  induction ws as [|d ws IH]; simpl; [reflexivity|].
  intros H. apply andb_true_iff in H as [Hd Hws]. now rewrite (IH Hws), Hd.
Qed.

Lemma trimEnd_solid (s ws : string) (c : ascii) :
  isSpace c = false -> allSpace ws = true ->
  trimEnd (s ++ String c ws) = s ++ String c EmptyString.
Proof.
  intros Hc Hws. induction s as [|d s IH]; simpl.
  - now rewrite (trimEnd_spaces ws Hws), Hc.
  - rewrite IH. now destruct s.
Qed.

Lemma fromFirst_found (c : ascii) (pre rest : string) :
  hasChar c pre = false ->
  fromFirst c (pre ++ String c rest) = Some (String c rest).
Proof.
  induction pre as [|d pre IH]; simpl; intros H.
  - now rewrite Ascii.eqb_refl.
  - apply orb_false_iff in H as [Hd Hpre]. rewrite Hd. now apply IH.
Qed.

Lemma uptoLast_none (c : ascii) (s : string) :
  hasChar c s = false -> uptoLast c s = None.
Proof.
  induction s as [|d s IH]; simpl; [reflexivity|].
  intros H. apply orb_false_iff in H as [Hd Hs]. now rewrite (IH Hs), Hd.
Qed.

Lemma uptoLast_found (c : ascii) (body post : string) :
  hasChar c post = false ->
  uptoLast c (body ++ String c post) = Some (body ++ String c EmptyString).
Proof.
  intros Hpost. induction body as [|d body IH]; simpl.
  - now rewrite (uptoLast_none c post Hpost), Ascii.eqb_refl.
  - now rewrite IH.
Qed.

(** The braces cut out of a text: from the first opening brace to the
    last closing one. *)
Lemma matchBraces_found (pre body post : string) :
  hasChar "{" pre = false -> hasChar "}" post = false ->
  matchBraces (pre ++ String "{" (body ++ String "}" post))
  = Some (String "{" (body ++ String "}" EmptyString)).
Proof.
  intros Hpre Hpost. unfold matchBraces.
  now rewrite (fromFirst_found _ _ _ Hpre), (uptoLast_found _ _ _ Hpost).
Qed.

End ExtractFacts.

(** X7. A JSON object inside prose: when the text has no code fence, what
    is handed to [JSON.parse] runs from the first opening brace to the last
    closing brace; the words before and after are dropped, braces nested
    inside are kept. *)
Theorem extractJson_from_prose (pre body post : string) :
  hasChar "{" pre = false ->
  hasChar "}" post = false ->
  Js.includes (pre ++ String "{" (body ++ String "}" post)) "```" = false ->
  extractJson (pre ++ String "{" (body ++ String "}" post))
  = String "{" (body ++ String "}" EmptyString).
Proof.
  intros Hpre Hpost Hfence. unfold extractJson. rewrite Hfence.
  now rewrite (ExtractFacts.matchBraces_found pre body post Hpre Hpost).
Qed.

Lemma extractJson_from_prose_witness :
  extractJson "Sure, here it is: {x:{y}} I hope {it} helps"
  = "{x:{y}} I hope {it}".
Proof.
  apply (extractJson_from_prose "Sure, here it is: " "x:{y}} I hope {it" " helps");
    vm_compute; reflexivity.
Defined.

(** X8. A JSON object inside a code fence, with or without the [json] tag:
    when no backquote occurs before the fence or inside the object, what is
    handed to [JSON.parse] is the object alone, whatever white space
    surrounds it inside the fence and whatever text surrounds the fence. *)
Theorem extractJson_from_fence (pre tag ws1 body ws2 post : string) :
  tag = EmptyString \/ tag = "json" ->
  hasChar "`" pre = false ->
  hasChar "`" body = false ->
  allSpace ws1 = true ->
  allSpace ws2 = true ->
  extractJson
    (pre ++ "```" ++ tag ++ ws1 ++ String "{" (body ++ String "}" (ws2 ++ "```" ++ post)))
  = String "{" (body ++ String "}" EmptyString).
Proof.
  intros Htag Hpre Hbody Hws1 Hws2. unfold extractJson.
  rewrite ExtractFacts.includes_app.
  unfold Js.matchFence. rewrite (ExtractFacts.splitAt_fence _ _ Hpre).
  assert (Hdrop :
    Js.trimStart
      (Js.dropPrefix "json"
         (tag ++ ws1 ++ String "{" (body ++ String "}" (ws2 ++ "```" ++ post))))
    = String "{" (body ++ String "}" (ws2 ++ "```" ++ post))).
  { destruct Htag as [-> | ->].
    - assert (Hnot : Js.startsWith
                       (EmptyString ++ ws1 ++ String "{" (body ++ String "}" (ws2 ++ "```" ++ post)))
                       "json" = false).
      { simpl. destruct ws1 as [|c ws1]; [reflexivity|]. simpl in Hws1.
        apply andb_true_iff in Hws1 as [Hc _]. simpl.
        destruct (Ascii.eqb_spec c "j"); [subst c; discriminate | reflexivity]. }
      unfold Js.dropPrefix. rewrite Hnot. simpl.
      now apply ExtractFacts.trimStart_spaces.
    - unfold Js.dropPrefix. rewrite ExtractFacts.startsWith_app, ExtractFacts.drop_prefix.
      now apply ExtractFacts.trimStart_spaces. }
  rewrite Hdrop.
  assert (Hsplit :
    Js.splitAt "```" (String "{" (body ++ String "}" (ws2 ++ "```" ++ post)))
    = Some (String "{" (body ++ String "}" ws2), post)).
  { replace (String "{" (body ++ String "}" (ws2 ++ "```" ++ post)))
      with (String "{" (body ++ String "}" ws2) ++ "```" ++ post).
    - apply ExtractFacts.splitAt_fence. simpl.
      rewrite ExtractFacts.hasChar_app, Hbody. simpl.
      now apply ExtractFacts.allSpace_hasChar.
    - simpl. f_equal. now rewrite ExtractFacts.append_assoc. }
  rewrite Hsplit.
  assert (Htrim : Js.trim (String "{" (body ++ String "}" ws2))
                  = String "{" (body ++ String "}" EmptyString)).
  { unfold Js.trim. cbn [Js.trimStart]. change (Js.isSpace "{") with false. cbv iota.
    apply (ExtractFacts.trimEnd_solid (String "{" body) ws2 "}"); [reflexivity | exact Hws2]. }
  rewrite Htrim.
  pose proof (ExtractFacts.matchBraces_found EmptyString body EmptyString
                eq_refl eq_refl) as Hbraces.
  simpl in Hbraces. now rewrite Hbraces.
Qed.

Lemma extractJson_from_fence_witness :
  extractJson "Here: ```json
{a:1}
``` bye {x}" = "{a:1}".
Proof.
  apply (extractJson_from_fence "Here: " "json" "
" "a:1" "
" " bye {x}"); try reflexivity.
  now right.
Defined.

(* ================================================================== *)
(** * Further properties of medication-info *)

Lemma checkRequired_Ok (p : json) (names : list string) :
  names <> [] ->
  checkRequired p names = Ok tt ->
  exists fields,
    p = JObj fields /\ forall k, In k names -> truthy (getField k fields) = true.
Proof.
  intros Hne H.
  assert (Hobj : exists fields, p = JObj fields).
  { destruct names as [|k names]; [now destruct Hne|].
    destruct p; simpl in H; try discriminate. now eexists. }
  destruct Hobj as [fields ->]. exists fields. split; [reflexivity|].
  clear Hne. induction names as [|k names IH]; intros k' Hk'; [destruct Hk'|].
  simpl in H. destruct (truthy (getField k fields)) eqn:E; simpl in H; [|discriminate].
  destruct Hk' as [<- | Hk']; [exact E | now apply IH].
Qed.

Lemma sanitizeMedication_Ok_inv (p r : json) :
  sanitizeMedication p = Ok r ->
  exists fields result dosage disclaimer,
    p = JObj fields /\ r = JObj result
    /\ (forall k, In k requiredFields -> truthy (getField k fields) = true)
    /\ getField "dosage_info" fields = Some (JStr dosage)
    /\ getField "disclaimer" fields = Some (JStr disclaimer)
    /\ getField "dosage_info" result = Some (JStr (guardedDosage dosage))
    /\ getField "disclaimer" result = Some (JStr (guardedDisclaimer disclaimer))
    /\ (forall k, k <> "dosage_info" -> k <> "disclaimer" ->
          getField k result = getField k fields).
Proof.
  unfold sanitizeMedication. intros H.
  destruct (checkRequired p requiredFields) as [[]|] eqn:Ereq; simpl in H; [|discriminate].
  destruct (checkRequired_Ok p requiredFields ltac:(discriminate) Ereq)
    as (fields & -> & Hreq).
  unfold sanitizeDosage in H. simpl in H.
  destruct (getField "dosage_info" fields) as [[| | |dosage| |]|] eqn:Ed;
    simpl in H; try discriminate.
  unfold sanitizeDisclaimer in H.
  destruct (Re.test dosagePattern (Js.toLowerCase dosage)) eqn:Et; simpl in H.
  - rewrite getField_setField_other in H by discriminate.
    destruct (getField "disclaimer" fields) as [[| | |disclaimer| |]|] eqn:Ec;
      simpl in H; try discriminate.
    destruct (negb _ || negb _) eqn:Eg; injection H as <-;
      exists fields; eexists; exists dosage, disclaimer;
      unfold guardedDosage, guardedDisclaimer; rewrite Et, Eg;
      (split; [reflexivity|]; split; [reflexivity|]; split; [exact Hreq|];
       split; [exact Ed|]; split; [exact Ec|]).
    + split; [rewrite getField_setField_other by discriminate;
              apply getField_setField_same|].
      split; [apply getField_setField_same|].
      intros k H1 H2. now rewrite !getField_setField_other by congruence.
    + split; [apply getField_setField_same|].
      split; [now rewrite getField_setField_other by discriminate|].
      intros k H1 H2. now rewrite getField_setField_other by congruence.
  - destruct (getField "disclaimer" fields) as [[| | |disclaimer| |]|] eqn:Ec;
      simpl in H; try discriminate.
    destruct (negb _ || negb _) eqn:Eg; injection H as <-;
      exists fields; eexists; exists dosage, disclaimer;
      unfold guardedDosage, guardedDisclaimer; rewrite Et, Eg;
      (split; [reflexivity|]; split; [reflexivity|]; split; [exact Hreq|];
       split; [exact Ed|]; split; [exact Ec|]).
    + split; [now rewrite getField_setField_other by discriminate|].
      split; [apply getField_setField_same|].
      intros k H1 H2. now rewrite getField_setField_other by congruence.
    + split; [exact Ed|]. split; [exact Ec|]. reflexivity.
Qed.

Lemma guardedDisclaimer_complete (disclaimer : string) :
  Js.includes (Js.toLowerCase (guardedDisclaimer disclaimer)) "educational" = true
  /\ Js.includes (Js.toLowerCase (guardedDisclaimer disclaimer)) "not replace" = true.
Proof.
  unfold guardedDisclaimer.
  destruct (Js.includes (Js.toLowerCase disclaimer) "educational") eqn:E1;
    destruct (Js.includes (Js.toLowerCase disclaimer) "not replace") eqn:E2; simpl;
    try (split; vm_compute; reflexivity).
  now split.
Qed.

Section MedicationInvariants.

Variable JSON_parse : string -> option json.

(** The two ways to a response with status 200. *)
Lemma medication_success_cases (reply : AiReply) (medicineName : string)
    (trace : list Event) (body : json) :
  medicationInfo JSON_parse reply medicineName = (trace, Resp 200 body) ->
  Js.nonEmpty medicineName = true
  /\ trace = [CallModel]
  /\ (body = medicationFallback medicineName
      \/ exists p, sanitizeMedication p = Ok body).
Proof.
  unfold medicationInfo. unfold missingText.
  destruct (Js.nonEmpty medicineName); simpl; [|discriminate].
  destruct (_ =? 0)%nat; [discriminate|].
  destruct reply as [m|t|[content|]]; try discriminate.
  destruct (truthy (Some content)); [|discriminate].
  intros [= <- <-]. split; [reflexivity|]. split; [reflexivity|].
  unfold validateMedication.
  destruct (tryValidateMedication JSON_parse content) as [r|m] eqn:E; [right | now left].
  unfold tryValidateMedication in E.
  destruct (callTrim content) as [clean|]; simpl in E; [|discriminate].
  destruct (parseJson JSON_parse (extractJson clean)) as [p|]; simpl in E; [|discriminate].
  now exists p.
Qed.

(** X10. Every medication result returned with status 200 has a disclaimer
    text that contains both 'educational' and 'not replace', in some letter
    case. *)
Theorem returned_disclaimer_complete (reply : AiReply) (medicineName : string)
    (trace : list Event) (body : json) :
  medicationInfo JSON_parse reply medicineName = (trace, Resp 200 body) ->
  exists disclaimer,
    prop body "disclaimer" = Ok (Some (JStr disclaimer))
    /\ Js.includes (Js.toLowerCase disclaimer) "educational" = true
    /\ Js.includes (Js.toLowerCase disclaimer) "not replace" = true.
Proof.
  intros Hrun.
  destruct (medication_success_cases _ _ _ _ Hrun) as (_ & _ & [-> | [p Hp]]).
  - eexists. split; [reflexivity|]. split; vm_compute; reflexivity.
  - destruct (sanitizeMedication_Ok_inv p body Hp)
      as (fields & result & dosage & disclaimer & _ & -> & _ & _ & _ & _ & Hc & _).
    exists (guardedDisclaimer disclaimer). split; [simpl; now rewrite Hc|].
    apply guardedDisclaimer_complete.
Qed.

(** X11. Every medication result returned with status 200 has all eight
    fields present and truthy; the model is called once and nothing is
    stored. *)
Theorem returned_medication_complete (reply : AiReply) (medicineName : string)
    (trace : list Event) (body : json) :
  medicationInfo JSON_parse reply medicineName = (trace, Resp 200 body) ->
  trace = [CallModel]
  /\ exists fields,
       body = JObj fields
       /\ forall k, In k requiredFields -> truthy (getField k fields) = true.
Proof.
  intros Hrun.
  destruct (medication_success_cases _ _ _ _ Hrun) as (Hname & Htrace & [-> | [p Hp]]).
  - split; [exact Htrace|]. eexists. split; [reflexivity|].
    intros k Hk. simpl in Hk.
    destruct Hk as [<- | Hk]; [exact Hname|].
    repeat (destruct Hk as [<- | Hk]; [reflexivity|]). destruct Hk.
  - split; [exact Htrace|].
    destruct (sanitizeMedication_Ok_inv p body Hp)
      as (fields & result & dosage & disclaimer & _ & -> & Hreq & Hd0 & _ & Hd & Hc & Hother).
    exists result. split; [reflexivity|]. intros k Hk.
    destruct (String.eqb_spec k "dosage_info") as [-> | Hk1].
    { rewrite Hd. unfold guardedDosage.
      destruct (Re.test _ _); [reflexivity|].
      rewrite <- Hd0. now apply Hreq. }
    destruct (String.eqb_spec k "disclaimer") as [-> | Hk2].
    { rewrite Hc.
      destruct (guardedDisclaimer_complete disclaimer) as [He _].
      destruct (guardedDisclaimer disclaimer); [discriminate | reflexivity]. }
    rewrite Hother by assumption. now apply Hreq.
Qed.

End MedicationInvariants.

(* ================================================================== *)
(** * doctor-signup *)

Module AnchoredFacts.
Import Re.

Lemma matchesAll_spec (s : string) : forall r, matchesAll r s = true <-> Lang r s.
Proof.
  induction s as [|c s IH]; intros r; simpl.
  - apply ReFacts.nullable_spec.
  - rewrite IH. split.
    + apply ReFacts.deriv_sound.
    + intros H. now apply ReFacts.deriv_complete with (w' := String c s).
Qed.

Lemma Lang_class (p : ascii -> bool) (w : string) :
  Lang (Class p) w <-> exists c, w = String c EmptyString /\ p c = true.
Proof.
  split.
  - intros H. inversion H; subst. now eexists.
  - intros (c & -> & Hc). now constructor.
Qed.

Lemma Lang_star_class (p : ascii -> bool) (w : string) :
  Lang (Star (Class p)) w <-> allChars p w = true.
Proof.
  split.
  - intros H. remember (Star (Class p)) as r eqn:Er.
    induction H; try discriminate; [reflexivity|].
    injection Er as ->. apply Lang_class in H as (c & -> & Hc). simpl.
    rewrite Hc. now apply IHLang2.
  - revert w. induction w as [|c w IH]; simpl; intros H; [constructor|].
    apply andb_true_iff in H as [Hc Hw].
    change (String c w) with (String c EmptyString ++ w).
    constructor; [now constructor | now apply IH].
Qed.

Lemma Lang_plus_class (p : ascii -> bool) (w : string) :
  Lang (plus (Class p)) w <-> Js.nonEmpty w = true /\ allChars p w = true.
Proof.
  unfold plus. split.
  - intros H. inversion H as [| | ? ? w1 w2 H1 H2 | | | |]; subst.
    apply Lang_class in H1 as (c & -> & Hc). apply Lang_star_class in H2.
    simpl. now rewrite Hc, H2.
  - intros [Hne Hall]. destruct w as [|c w]; [discriminate|].
    simpl in Hall. apply andb_true_iff in Hall as [Hc Hw].
    change (String c w) with (String c EmptyString ++ w).
    constructor; [now constructor | now apply Lang_star_class].
Qed.

Lemma Lang_cat (r1 r2 : re) (w : string) :
  Lang (Cat r1 r2) w <-> exists w1 w2, w = w1 ++ w2 /\ Lang r1 w1 /\ Lang r2 w2.
Proof.
  split.
  - intros H. inversion H; subst. now eexists; eexists.
  - intros (w1 & w2 & -> & H1 & H2). now constructor.
Qed.

End AnchoredFacts.


Lemma email_format_built (localPart name tld : string) :
  solid localPart -> solid name -> solid tld ->
  matchesAll Signup.emailRegex (localPart ++ "@" ++ name ++ "." ++ tld) = true.
Proof.
  unfold Signup.emailRegex, solid. intros Hl Hn Ht.
  rewrite AnchoredFacts.matchesAll_spec.
  apply AnchoredFacts.Lang_plus_class in Hl, Hn, Ht.
  apply AnchoredFacts.Lang_cat. exists localPart. eexists.
  split; [reflexivity|]. split; [exact Hl|].
  apply AnchoredFacts.Lang_cat. exists "@". eexists.
  split; [reflexivity|]. split; [now constructor|].
  apply AnchoredFacts.Lang_cat. exists name. eexists.
  split; [reflexivity|]. split; [exact Hn|].
  apply AnchoredFacts.Lang_cat. exists ".", tld.
  split; [reflexivity|]. split; [now constructor | exact Ht].
Qed.

Lemma toLowerCase_app (a b : string) :
  Js.toLowerCase (a ++ b) = Js.toLowerCase a ++ Js.toLowerCase b.
Proof.
  induction a as [|c a IH]; [reflexivity|].
  unfold Js.toLowerCase in *. simpl. now rewrite IH.
Qed.

Module SignupFacts.
Import Signup.

Lemma solid_no_at (s : string) : allChars solidChar s = true -> hasChar "@" s = false.
Proof.
  induction s as [|c s IH]; simpl; [reflexivity|].
  intros H. apply andb_true_iff in H as [Hc Hs]. rewrite (IH Hs), orb_false_r.
  unfold solidChar in Hc. apply negb_true_iff, orb_false_iff in Hc. tauto.
Qed.

Lemma allChars_app (p : ascii -> bool) (a b : string) :
  allChars p (a ++ b) = allChars p a && allChars p b.
Proof.
  induction a as [|c a IH]; simpl; [reflexivity|].
  now rewrite IH, andb_assoc.
Qed.

Lemma upToChar_none (sep : ascii) (s : string) :
  hasChar sep s = false -> upToChar sep s = s.
Proof.
  induction s as [|c s IH]; simpl; [reflexivity|].
  intros H. apply orb_false_iff in H as [Hc Hs]. now rewrite Hc, (IH Hs).
Qed.

(** For an address with a single [@] the second element of the split is
    all that follows it. *)
Lemma secondPart_single (localPart rest : string) :
  hasChar "@" localPart = false -> hasChar "@" rest = false ->
  secondPart "@" (localPart ++ "@" ++ rest) = Some rest.
Proof.
  intros Hl Hr. unfold secondPart.
  change (localPart ++ "@" ++ rest) with (localPart ++ String "@" rest).
  rewrite (ExtractFacts.fromFirst_found "@" localPart rest Hl).
  now rewrite (upToChar_none "@" rest Hr).
Qed.

Lemma endsWith_app (prefix t : string) : endsWith (prefix ++ t) t = true.
Proof.
  induction prefix as [|c prefix IH].
  - simpl. destruct t; simpl; now rewrite ?String.eqb_refl, ?Ascii.eqb_refl.
  - change (String c prefix ++ t) with (String c (prefix ++ t)).
    cbn [endsWith]. rewrite IH. apply orb_true_r.
Qed.

Lemma endsWith_split (s t : string) :
  endsWith s t = true -> exists prefix, s = prefix ++ t.
Proof.
  induction s as [|c s IH]; cbn [endsWith]; intros H.
  - rewrite orb_false_r in H. apply String.eqb_eq in H. subst t. now exists EmptyString.
  - apply orb_true_iff in H as [H | H].
    + apply String.eqb_eq in H. now exists EmptyString.
    + destruct (IH H) as [prefix ->]. now exists (String c prefix).
Qed.

Lemma memberOf_In (s : string) (l : list string) : memberOf s l = true <-> In s l.
Proof.
  unfold memberOf. rewrite existsb_exists. split.
  - intros (x & Hx & E). apply String.eqb_eq in E. now subst x.
  - intros H. exists s. split; [exact H | apply String.eqb_refl].
Qed.

Lemma blocked_never_allowed :
  forallb (fun b => forallb (fun a => negb (endsWith b a)) ALLOWED_DOMAINS)
          BLOCKED_DOMAINS = true.
Proof. vm_compute. reflexivity. Qed.

Lemma domainAllowed_not_blocked (domain : string) :
  domainAllowed domain = true -> memberOf domain BLOCKED_DOMAINS = false.
Proof.
  intros Ha. destruct (memberOf domain BLOCKED_DOMAINS) eqn:Eb; [|reflexivity].
  apply memberOf_In in Eb. unfold domainAllowed in Ha.
  apply existsb_exists in Ha as (a & Hin & Hend).
  pose proof blocked_never_allowed as H. rewrite forallb_forall in H.
  specialize (H domain Eb). rewrite forallb_forall in H.
  specialize (H a Hin). rewrite Hend in H. discriminate.
Qed.

End SignupFacts.

Section SignupClaims.

Variable digest : CodeUnits -> list ascii.


(** X14. The allow-list is a test on the end of the domain: an ASCII
    address at any domain that ends with an allowed domain (a sub-domain
    such as mail.hospital.com, in any letter case, but also
    notahospital.com) is registered, provided its local part and the
    prefix are ASCII text without white space and without [@], the password
    has eight code units, a name is given, no single account has the address
    and the store accepts the row. *)
Theorem signup_accepts_allowed_suffix (e : Signup.Env) (pw : CodeUnits)
    (localPart prefix allowed name : string) :
  asciiText localPart = true ->
  asciiText prefix = true ->
  solid localPart ->
  allChars Signup.solidChar prefix = true ->
  In allowed Signup.ALLOWED_DOMAINS ->
  (8 <= List.length pw)%nat ->
  Js.nonEmpty name = true ->
  single (filter (fun d => String.eqb (Signup.doctor_email d)
                                         (Js.toLowerCase (localPart ++ "@" ++ prefix ++ allowed)))
                    (Signup.doctors e)) = None ->
  Signup.insertError e = None ->
  Signup.doctorSignup digest e
    {| Signup.email := localPart ++ "@" ++ prefix ++ allowed;
       Signup.password := pw;
       Signup.fullName := name |}
  = ([ Signup.SelectDoctor (Js.toLowerCase (localPart ++ "@" ++ prefix ++ allowed));
       Signup.InsertDoctor
         {| Signup.new_email := Js.toLowerCase (localPart ++ "@" ++ prefix ++ allowed);
            Signup.new_password_hash := hexOfBytes (digest pw);
            Signup.new_full_name := name;
            Signup.new_status := "pending" |} ],
     Resp 200 Signup.successBody).
Proof.
  intros _ _ Hl Hprefix Hin Hlen Hname Hnone Hinsert.
  assert (Hparts : exists n0 t0, allowed = n0 ++ "." ++ t0 /\ solid n0 /\ solid t0
                                 /\ Js.toLowerCase allowed = allowed).
  { simpl in Hin.
    repeat (destruct Hin as [<- | Hin];
            [ first [ now (exists "hospital", "com") | now (exists "clinic", "org")
                    | now (exists "healthcare", "in") | now (exists "med", "edu")
                    | now (exists "aiims", "edu") | now (exists "medanta", "org")
                    | now (exists "apollo", "com") | now (exists "fortis", "in") ] |]).
    destruct Hin. }
  destruct Hparts as (n0 & t0 & -> & Hn0 & Ht0 & Hlow).
  assert (Hname' : solid (prefix ++ n0)).
  { destruct Hn0 as [Hne Hall]. split.
    - destruct prefix; [exact Hne | reflexivity].
    - now rewrite SignupFacts.allChars_app, Hprefix, Hall. }
  assert (Hshape : localPart ++ "@" ++ prefix ++ n0 ++ "." ++ t0
                   = localPart ++ "@" ++ (prefix ++ n0) ++ "." ++ t0).
  { now rewrite ExtractFacts.append_assoc. }
  unfold Signup.doctorSignup. cbn [Signup.email Signup.password Signup.fullName].
  assert (Hlne : Js.nonEmpty (localPart ++ "@" ++ prefix ++ n0 ++ "." ++ t0) = true).
  { destruct Hl as [Hne _]. destruct localPart; [discriminate | reflexivity]. }
  rewrite Hlne, Hname.
  destruct pw as [|u pw]; [simpl in Hlen; lia|]. cbn [negb orb].
  rewrite Hshape at 1. rewrite (email_format_built _ _ _ Hl Hname' Ht0). cbn [negb].
  rewrite SignupFacts.secondPart_single.
  2:{ apply SignupFacts.solid_no_at, Hl. }
  2:{ rewrite <- ExtractFacts.append_assoc, ExtractFacts.hasChar_app. simpl.
      rewrite (SignupFacts.solid_no_at (prefix ++ n0)), (SignupFacts.solid_no_at t0);
        [reflexivity | apply Ht0 | apply Hname']. }
  cbv zeta.
  assert (Hallowed : Signup.domainAllowed (Js.toLowerCase (prefix ++ n0 ++ "." ++ t0)) = true).
  { unfold Signup.domainAllowed. apply existsb_exists. exists (n0 ++ "." ++ t0).
    split; [exact Hin|]. rewrite toLowerCase_app, Hlow. apply SignupFacts.endsWith_app. }
  rewrite (SignupFacts.domainAllowed_not_blocked _ Hallowed), Hallowed. cbn [negb].
  assert (Hlong : (List.length (u :: pw) <? 8)%nat = false) by now apply Nat.ltb_ge.
  rewrite Hlong, Hnone, Hinsert. reflexivity.
Qed.

End SignupClaims.

(** ** The stored digest *)

Module HexFacts.

Lemma hexByte_shape (b : ascii) :
  exists c1 c2,
    hexByte b = String c1 (String c2 EmptyString)
    /\ isHexDigit c1 = true /\ isHexDigit c2 = true.
Proof.
  pose (P := fun x =>
    match hexByte x with
    | String c1 (String c2 EmptyString) => isHexDigit c1 && isHexDigit c2
    | _ => false
    end).
  assert (H : Js.forall_ascii P = true) by (vm_compute; reflexivity).
  apply JsFacts.forall_ascii_spec with (c := b) in H. unfold P in H.
  destruct (hexByte b) as [|c1 [|c2 [|]]]; try discriminate.
  apply andb_true_iff in H. exists c1, c2. tauto.
Qed.

Lemma hexByte_injective (a b : ascii) : hexByte a = hexByte b -> a = b.
Proof.
  pose (P := fun x => Js.forall_ascii (fun y =>
               implb (String.eqb (hexByte x) (hexByte y)) (Ascii.eqb x y))).
  assert (H : Js.forall_ascii P = true) by (vm_compute; reflexivity).
  apply JsFacts.forall_ascii_spec with (c := a) in H. unfold P in H.
  apply JsFacts.forall_ascii_spec with (c := b) in H.
  intros E. rewrite E, String.eqb_refl in H. simpl in H. now apply Ascii.eqb_eq.
Qed.

Lemma hexOfBytes_cons (b : ascii) (rest : list ascii) :
  hexOfBytes (b :: rest) = hexByte b ++ hexOfBytes rest.
Proof. reflexivity. Qed.

Lemma hexOfBytes_length (bytes : list ascii) :
  String.length (hexOfBytes bytes) = 2 * List.length bytes.
Proof.
  induction bytes as [|b rest IH]; [reflexivity|].
  rewrite hexOfBytes_cons. destruct (hexByte_shape b) as (c1 & c2 & -> & _).
  simpl. rewrite IH. simpl. lia.
Qed.

Lemma hexOfBytes_digits (bytes : list ascii) :
  allChars isHexDigit (hexOfBytes bytes) = true.
Proof.
  induction bytes as [|b rest IH]; [reflexivity|].
  rewrite hexOfBytes_cons. destruct (hexByte_shape b) as (c1 & c2 & -> & H1 & H2).
  simpl. now rewrite H1, H2, IH.
Qed.

Lemma hexOfBytes_injective (xs : list ascii) :
  forall ys, hexOfBytes xs = hexOfBytes ys -> xs = ys.
Proof.
  induction xs as [|x xs IH]; intros [|y ys] E.
  - reflexivity.
  - rewrite hexOfBytes_cons in E.
    destruct (hexByte_shape y) as (c1 & c2 & Hy & _). rewrite Hy in E. discriminate.
  - rewrite hexOfBytes_cons in E.
    destruct (hexByte_shape x) as (c1 & c2 & Hx & _). rewrite Hx in E. discriminate.
  - rewrite !hexOfBytes_cons in E.
    destruct (hexByte_shape x) as (c1 & c2 & Hx & _).
    destruct (hexByte_shape y) as (d1 & d2 & Hy & _).
    rewrite Hx, Hy in E. simpl in E. injection E as E1 E2 E3.
    f_equal; [|now apply IH].
    apply hexByte_injective. now rewrite Hx, Hy, E1, E2.
Qed.

End HexFacts.

(** X15. The stored password hash is the digest written with two
    lower-case hexadecimal digits per byte: its length is twice the number
    of digest bytes, and two passwords get the same hash exactly when their
    digests are equal, so comparing hashes compares digests. *)
Theorem password_hash_faithful (digest : CodeUnits -> list ascii) (pw1 pw2 : CodeUnits) :
  String.length (Signup.hashPassword digest pw1) = 2 * List.length (digest pw1)
  /\ allChars isHexDigit (Signup.hashPassword digest pw1) = true
  /\ (Signup.hashPassword digest pw1 = Signup.hashPassword digest pw2
      <-> digest pw1 = digest pw2).
Proof.
  unfold Signup.hashPassword.
  split; [apply HexFacts.hexOfBytes_length|].
  split; [apply HexFacts.hexOfBytes_digits|].
  split; [apply HexFacts.hexOfBytes_injective | now intros ->].
Qed.

Example hexOfBytes_ex :
  hexOfBytes ["000"%char; "010"%char; "255"%char; "A"%char] = "000aff41".
Proof. reflexivity. Qed.

(* ================================================================== *)
(** * doctor-login *)

Module LoginFacts.
Import Login.

Lemma mapSet_same (identifier : string) (a : Attempts) (m : AttemptMap) :
  mapSet identifier a m identifier = Some a.
Proof. unfold mapSet. now rewrite String.eqb_refl. Qed.

Lemma mapSet_other (identifier k : string) (a : Attempts) (m : AttemptMap) :
  k <> identifier -> mapSet identifier a m k = m k.
Proof.
  intros H. unfold mapSet. destruct (String.eqb_spec k identifier); [contradiction | reflexivity].
Qed.

(** One attempt inside the window. *)
Lemma window_step (identifier : string) (start now : Z) (used : nat) (m : AttemptMap) :
  inWindow identifier start used m ->
  (start <= now <= start + LOCKOUT_DURATION)%Z ->
  exists m',
    checkRateLimit identifier now m = ((used <? MAX_LOGIN_ATTEMPTS)%nat, m')
    /\ inWindow identifier start
         (if (used <? MAX_LOGIN_ATTEMPTS)%nat then S used else used) m'.
Proof.
  intros Hw Hnow. unfold checkRateLimit. destruct used as [|u].
  - simpl in Hw. rewrite Hw. eexists. split; [reflexivity|].
    simpl. exists now. split; [apply mapSet_same | lia].
  - destruct Hw as (last & Hm & Hlast). rewrite Hm. cbn [lastAttempt count].
    assert (Hin : (now - last >? LOCKOUT_DURATION)%Z = false).
    { rewrite Z.gtb_ltb. apply Z.ltb_ge. lia. }
    rewrite Hin. unfold MAX_LOGIN_ATTEMPTS.
    destruct (5 <=? S u)%nat eqn:Emax.
    + apply Nat.leb_le in Emax.
      assert (Hlt : (S u <? 5)%nat = false) by (apply Nat.ltb_ge; lia).
      rewrite Hlt. exists m. split; [reflexivity|].
      exists last. now split.
    + apply Nat.leb_gt in Emax.
      assert (Hlt : (S u <? 5)%nat = true) by (apply Nat.ltb_lt; lia).
      rewrite Hlt. eexists. split; [reflexivity|].
      exists now. split; [apply mapSet_same | lia].
Qed.

Lemma runAttempts_window (identifier : string) (start : Z) (times : list Z) :
  (forall t, In t times -> (start <= t <= start + LOCKOUT_DURATION)%Z) ->
  forall used m,
    inWindow identifier start used m ->
    runAttempts identifier times m
    = map (fun i => (used + i <? MAX_LOGIN_ATTEMPTS)%nat) (seq 0 (List.length times)).
Proof.
  induction times as [|t times IH]; intros Htimes used m Hw; [reflexivity|].
  cbn [runAttempts List.length seq map].
  destruct (window_step identifier start t used m Hw (Htimes t (or_introl eq_refl)))
    as (m' & -> & Hw').
  rewrite Nat.add_0_r. f_equal.
  rewrite (IH (fun t' H => Htimes t' (or_intror H)) _ m' Hw').
  rewrite <- seq_shift, map_map. apply map_ext_in. intros i Hi.
  unfold MAX_LOGIN_ATTEMPTS.
  destruct (used <? 5)%nat eqn:E.
  - f_equal. lia.
  - apply Nat.ltb_ge in E.
    transitivity false; [apply Nat.ltb_ge; lia | symmetry; apply Nat.ltb_ge; lia].
Qed.

Lemma checkRateLimit_frame (identifier : string) (now : Z) (m : AttemptMap) (k : string) :
  k <> identifier -> snd (checkRateLimit identifier now m) k = m k.
Proof.
  intros Hk. unfold checkRateLimit.
  destruct (m identifier) as [a|]; [|now apply mapSet_other].
  destruct (now - lastAttempt a >? LOCKOUT_DURATION)%Z; [now apply mapSet_other|].
  destruct (MAX_LOGIN_ATTEMPTS <=? count a)%nat; [reflexivity | now apply mapSet_other].
Qed.

End LoginFacts.

(** X16. Within a quarter of an hour an identifier is allowed five
    attempts: of the attempts made at times that all lie in one window of
    15 minutes, starting from no entry, the first five are allowed and every
    further one is refused. *)
Theorem five_attempts_per_window (identifier : string) (start : Z) (times : list Z)
    (m : Login.AttemptMap) :
  m identifier = None ->
  (forall t, In t times -> (start <= t <= start + Login.LOCKOUT_DURATION)%Z) ->
  Login.runAttempts identifier times m
  = map (fun i => (i <? 5)%nat) (seq 0 (List.length times)).
Proof.
  intros Hm Htimes.
  apply (LoginFacts.runAttempts_window identifier start times Htimes 0 m Hm).
Qed.

(** X17. A refused attempt leaves the map as it is, so it does not prolong
    the lock: whoever is refused is allowed again at any time later than 15
    minutes after the last allowed attempt, and is then counted from one. *)
Theorem refusal_does_not_extend_lock (identifier : string) (now : Z)
    (m m' : Login.AttemptMap) :
  Login.checkRateLimit identifier now m = (false, m') ->
  m' = m
  /\ exists a,
       m identifier = Some a
       /\ (5 <= Login.count a)%nat
       /\ (now - Login.lastAttempt a <= Login.LOCKOUT_DURATION)%Z
       /\ forall later,
            (later - Login.lastAttempt a > Login.LOCKOUT_DURATION)%Z ->
            fst (Login.checkRateLimit identifier later m') = true
            /\ snd (Login.checkRateLimit identifier later m') identifier
               = Some {| Login.count := 1; Login.lastAttempt := later |}.
Proof.
  unfold Login.checkRateLimit at 1.
  destruct (m identifier) as [a|] eqn:Em; [|discriminate].
  destruct (now - Login.lastAttempt a >? Login.LOCKOUT_DURATION)%Z eqn:Egap; [discriminate|].
  destruct (Login.MAX_LOGIN_ATTEMPTS <=? Login.count a)%nat eqn:Emax; [|discriminate].
  intros [= <-]. split; [reflexivity|]. exists a.
  split; [reflexivity|]. split; [now apply Nat.leb_le in Emax|].
  split; [rewrite Z.gtb_ltb in Egap; apply Z.ltb_ge in Egap; lia|].
  intros later Hlater. unfold Login.checkRateLimit. rewrite Em.
  assert (Hgt : (later - Login.lastAttempt a >? Login.LOCKOUT_DURATION)%Z = true).
  { rewrite Z.gtb_ltb. apply Z.ltb_lt. lia. }
  rewrite Hgt. split; [reflexivity | apply LoginFacts.mapSet_same].
Qed.

(** X18. An attempt touches the entry of its own identifier only, and the
    counters stay between one and five: when every entry of the map is in
    that range, so is every entry of the map an attempt leaves. *)
Theorem rate_limit_keeps_counters (identifier : string) (now : Z) (m : Login.AttemptMap) :
  (forall k, k <> identifier -> snd (Login.checkRateLimit identifier now m) k = m k)
  /\ ((forall k a, m k = Some a -> (1 <= Login.count a <= 5)%nat) ->
      forall k a, snd (Login.checkRateLimit identifier now m) k = Some a ->
                  (1 <= Login.count a <= 5)%nat).
Proof.
  split.
  - intros k Hk. now apply LoginFacts.checkRateLimit_frame.
  - unfold Login.checkRateLimit. intros Hinv k a.
    assert (Hset : forall c,
              (1 <= c <= 5)%nat ->
              Login.mapSet identifier {| Login.count := c; Login.lastAttempt := now |} m k
              = Some a ->
              (1 <= Login.count a <= 5)%nat).
    { intros c Hc. unfold Login.mapSet.
      destruct (String.eqb k identifier); [intros [= <-]; exact Hc | apply Hinv]. }
    destruct (m identifier) as [a0|] eqn:Em; [|apply Hset; lia].
    destruct (now - Login.lastAttempt a0 >? Login.LOCKOUT_DURATION)%Z;
      [apply Hset; lia|].
    destruct (Login.MAX_LOGIN_ATTEMPTS <=? Login.count a0)%nat eqn:Emax;
      [apply Hinv|].
    apply Nat.leb_gt in Emax. unfold Login.MAX_LOGIN_ATTEMPTS in Emax.
    apply Hset. specialize (Hinv _ _ Em). lia.
Qed.

Lemma sameUnits_refl (a : CodeUnits) : Login.sameUnits a a = true.
Proof. induction a as [|x a IH]; simpl; [reflexivity | now rewrite N.eqb_refl, IH]. Qed.

Lemma sameUnits_eq (a b : CodeUnits) : Login.sameUnits a b = true <-> a = b.
Proof.
  split; [|intros ->; apply sameUnits_refl].
  revert b. induction a as [|x a IH]; intros [|y b]; simpl; try discriminate; auto.
  intros H. apply andb_true_iff in H as [Hx Hab].
  apply N.eqb_eq in Hx. now rewrite Hx, (IH b Hab).
Qed.

Section LoginClaims.

Variable digest : CodeUnits -> list ascii.



(** One emergency request with the right passkey, inside the window. *)
Lemma passkey_step (e : Login.Env) (m : Login.AttemptMap) (req : Login.Request)
    (start : Z) (used : nat) :
  Login.isEmergencyPasskey req = true ->
  Login.password req <> [] ->
  Login.emergencyPasskey e = Some (Login.password req) ->
  (start <= Login.now e <= start + Login.LOCKOUT_DURATION)%Z ->
  inWindow (Login.passkeyIdentifier req) start used m ->
  exists events body m',
    Login.doctorLogin digest e m req
    = (events, Resp (if (used <? 5)%nat then 200 else 429) body, m')
    /\ inWindow (Login.passkeyIdentifier req) start
         (if (used <? 5)%nat then S used else used) m'.
Proof.
  intros Hmode Hpw Hkey Hnow Hw. unfold Login.doctorLogin.
  destruct (Login.password req) as [|u pw] eqn:Epw; [now destruct Hpw|].
  rewrite Hmode.
  destruct (LoginFacts.window_step _ start (Login.now e) used m Hw Hnow)
    as (m' & -> & Hw').
  unfold Login.MAX_LOGIN_ATTEMPTS in *.
  destruct (used <? 5)%nat; cbn [negb].
  - rewrite Hkey, sameUnits_refl. now eexists; eexists; eexists.
  - now eexists; eexists; eexists.
Qed.

(** X21. Uses of the emergency passkey are counted like failures, and a
    success does not clear the counter: of the emergency requests that come
    from one address with the right passkey at times within one window of
    15 minutes, starting from no entry, the first five are answered 200 and
    every further one 429. *)
Theorem passkey_successes_are_counted (requests : list (Login.Env * Login.Request))
    (ip : option string) (start : Z) (m : Login.AttemptMap) :
  m ("passkey_" ++ Login.headerOr ip "unknown") = None ->
  (forall e req, In (e, req) requests ->
     Login.isEmergencyPasskey req = true
     /\ Login.forwardedFor req = ip
     /\ Login.password req <> []
     /\ Login.emergencyPasskey e = Some (Login.password req)
     /\ (start <= Login.now e <= start + Login.LOCKOUT_DURATION)%Z) ->
  map Login.statusOf (Login.serveAll digest requests m)
  = map (fun i => if (i <? 5)%nat then 200 else 429) (seq 0 (List.length requests)).
Proof.
  intros Hm Hreqs.
  assert (Hgen : forall used m0,
            inWindow ("passkey_" ++ Login.headerOr ip "unknown") start used m0 ->
            map Login.statusOf (Login.serveAll digest requests m0)
            = map (fun i => if (used + i <? 5)%nat then 200 else 429)
                  (seq 0 (List.length requests))).
  { clear Hm. induction requests as [|[e req] rest IH]; intros used m0 Hw; [reflexivity|].
    destruct (Hreqs e req (or_introl eq_refl)) as (Hmode & Hip & Hpw & Hkey & Hnow).
    assert (Hid : Login.passkeyIdentifier req = "passkey_" ++ Login.headerOr ip "unknown").
    { unfold Login.passkeyIdentifier. now rewrite Hip. }
    rewrite <- Hid in Hw.
    destruct (passkey_step e m0 req start used Hmode Hpw Hkey Hnow Hw)
      as (events & body & m' & Hrun & Hw').
    cbn [Login.serveAll List.length seq map]. rewrite Hrun.
    cbn [map Login.statusOf]. rewrite Nat.add_0_r. f_equal.
    rewrite Hid in Hw'.
    rewrite (IH (fun e' r' H => Hreqs e' r' (or_intror H)) _ m' Hw').
    rewrite <- seq_shift, map_map. apply map_ext_in. intros i Hi.
    destruct (used <? 5)%nat eqn:E.
    + replace (S used + i)%nat with (used + S i)%nat by lia. reflexivity.
    + apply Nat.ltb_ge in E.
      assert (H1 : (used + i <? 5)%nat = false) by (apply Nat.ltb_ge; lia).
      assert (H2 : (used + S i <? 5)%nat = false) by (apply Nat.ltb_ge; lia).
      now rewrite H1, H2. }
  apply (Hgen 0 m Hm).
Qed.

End LoginClaims.

(* ================================================================== *)
(** ** The session store *)

Module StoreFacts.

Lemma latest_last (row : Store.SessionRow) (t : list Store.SessionRow) :
  (forall r, In r t -> (Store.row_login_time r < Store.row_login_time row)%Z) ->
  Store.latest (t ++ [row]) = Some row.
Proof.
  induction t as [|r t IH]; intros H; [reflexivity|].
  cbn [app Store.latest]. rewrite IH by (intros r' Hr'; apply H; now right).
  assert (Hlt : (Store.row_login_time r <? Store.row_login_time row)%Z = true).
  { apply Z.ltb_lt, H. now left. }
  now rewrite Hlt.
Qed.

Lemma latest_upsert (row : Store.SessionRow) (t : list Store.SessionRow) :
  (forall r, In r t -> Store.row_id r <> Store.row_id row ->
             (Store.row_login_time r < Store.row_login_time row)%Z) ->
  Store.latest (Store.upsert row t) = Some row.
Proof.
  intros H. unfold Store.upsert. apply latest_last.
  intros r Hr. apply filter_In in Hr as [Hin Hne].
  apply H; [exact Hin|].
  apply negb_true_iff in Hne. now apply String.eqb_neq in Hne.
Qed.

Lemma sessionOf_rowOf (s : Store.DoctorSession) : Store.sessionOf (Store.rowOf s) = s.
Proof. now destruct s. Qed.

Lemma deleteId_spec (key : string) (t : list Store.SessionRow) (r : Store.SessionRow) :
  In r (Store.deleteId key t) <-> In r t /\ Store.row_id r <> key.
Proof.
  unfold Store.deleteId. rewrite filter_In, negb_true_iff.
  split; intros [H1 H2]; (split; [exact H1|]).
  - now apply String.eqb_neq in H2.
  - now apply String.eqb_neq.
Qed.

(** What the dashboard route sees right after a login at [t0]. *)
Lemma login_valid_until (s : Store.DoctorSession) (t0 t : Z) (st : Store.State) :
  fst (Store.isSessionValid t (Store.login s t0 st))
  = (t - t0 <=? Store.sessionExpiry s)%Z.
Proof.
  unfold Store.isSessionValid, Store.login, Store.saveSession. cbn.
  rewrite Z.gtb_ltb, Z.leb_antisym.
  now destruct (Store.sessionExpiry s <? t - t0)%Z.
Qed.

End StoreFacts.

(** X22. A session survives closing the page for as long as it is valid,
    and no longer: after [login] at [t0], a page opened anew at [t] loads
    the very session that was stored if at most [sessionExpiry]
    milliseconds have passed, and no session otherwise, given that the
    rows of other ids have earlier login times.  In the second case the
    stale row stays in the table: nothing is deleted on a fresh page. *)
Theorem session_survives_reload (s : Store.DoctorSession) (t0 t : Z) (st : Store.State) :
  (forall r, In r (Store.table st) -> Store.row_id r <> Store.id s ->
             (Store.row_login_time r < t0)%Z) ->
  let reloaded := Store.loadSession t (Store.reopened (Store.login s t0 st)) in
  Store.session reloaded
  = (if (t - t0 <=? Store.sessionExpiry s)%Z then Some (Store.stamped s t0) else None)
  /\ Store.table reloaded = Store.table (Store.login s t0 st).
Proof.
  intros Hrows reloaded. subst reloaded.
  unfold Store.loadSession, Store.reopened. cbn [Store.table Store.session].
  unfold Store.login, Store.saveSession. cbn [Store.table Store.session].
  rewrite StoreFacts.latest_upsert by exact Hrows.
  cbv zeta. rewrite StoreFacts.sessionOf_rowOf. cbn [Store.stamped Store.loginTime Store.sessionExpiry].
  destruct (t - t0 <=? Store.sessionExpiry s)%Z; split; reflexivity.
Qed.

Lemma session_survives_reload_witness :
  let s := {| Store.id := "d1"; Store.email := "a@hospital.com"; Store.fullName := "A";
              Store.role := "doctor"; Store.status := "approved";
              Store.sessionExpiry := 28800000; Store.loginTime := 0 |} in
  let st := {| Store.session := None; Store.table := [] |} in
  Store.session (Store.loadSession 1000 (Store.reopened (Store.login s 100 st)))
  = Some (Store.stamped s 100).
Proof.
  intros s st.
  exact (proj1 (session_survives_reload s 100 1000 st
                  (fun r (H : In r []) _ => match H with end))).
Defined.

(** X23. An expired session is removed for good: when the validity check
    finds the session in memory older than its expiry it answers false,
    empties the memory and deletes the row of that id and no other row, so
    a page opened later cannot load that session again. *)
Theorem expired_session_is_removed (s : Store.DoctorSession) (t : Z) (st : Store.State) :
  Store.session st = Some s ->
  Js.nonEmpty (Store.id s) = true ->
  (t - Store.loginTime s > Store.sessionExpiry s)%Z ->
  let st' := snd (Store.isSessionValid t st) in
  fst (Store.isSessionValid t st) = false
  /\ Store.session st' = None
  /\ (forall r, In r (Store.table st') <->
                In r (Store.table st) /\ Store.row_id r <> Store.id s)
  /\ forall data, Store.latest (Store.table st') = Some data ->
       Store.row_id data <> Store.id s.
Proof.
  intros Hs Hid Hold. unfold Store.isSessionValid. rewrite Hs.
  assert (Hgt : (t - Store.loginTime s >? Store.sessionExpiry s)%Z = true).
  { rewrite Z.gtb_ltb. apply Z.ltb_lt. lia. }
  rewrite Hgt. unfold Store.logout. rewrite Hs, Hid.
  cbn [fst snd Store.session Store.table].
  split; [reflexivity|]. split; [reflexivity|].
  split; [intros r; apply StoreFacts.deleteId_spec|].
  intros data Hdata.
  assert (Hin : In data (Store.deleteId (Store.id s) (Store.table st))).
  { clear -Hdata. induction (Store.deleteId (Store.id s) (Store.table st)) as [|r l IH];
      [discriminate|].
    cbn [Store.latest] in Hdata. destruct (Store.latest l) as [r'|].
    - destruct (Store.row_login_time r <? Store.row_login_time r')%Z.
      + right. now apply IH.
      + left. congruence.
    - left. congruence. }
  now apply StoreFacts.deleteId_spec in Hin.
Qed.

Lemma expired_session_is_removed_witness :
  let s := {| Store.id := "d1"; Store.email := "a@hospital.com"; Store.fullName := "A";
              Store.role := "doctor"; Store.status := "approved";
              Store.sessionExpiry := 28800000; Store.loginTime := 100 |} in
  let st := {| Store.session := Some s; Store.table := [Store.rowOf s] |} in
  fst (Store.isSessionValid 28800101 st) = false.
Proof.
  intros s st.
  refine (proj1 (expired_session_is_removed s 28800101 st eq_refl eq_refl _)).
  vm_compute. reflexivity.
Defined.

Section SessionLifetime.

Variable digest : CodeUnits -> list ascii.

(** X24. How long a login lasts: when doctor-login answers 200, the login
    page stores a session (the account page for an account login, the
    passkey page for a passkey login), and the dashboard route then accepts
    it up to and including 8 hours after the login for an account and 30
    minutes for the emergency passkey, and refuses it after that. *)
Theorem login_session_lifetime (e : Login.Env) (m m' : Login.AttemptMap)
    (req : Login.Request) (events : list Login.Event) (response : Response)
    (t0 : Z) (st : Store.State) :
  Login.doctorLogin digest e m req = (events, response, m') ->
  Login.statusOf response = 200 ->
  exists st',
    (if Login.isEmergencyPasskey req
     then handleEmergencyAccess response t0 st
     else Store.handleLogin response t0 st) = Some st'
    /\ forall t, fst (Store.isSessionValid t st')
                 = (t - t0 <=? (if Login.isEmergencyPasskey req
                                then 30 * 60 * 1000 else 8 * 60 * 60 * 1000))%Z.
Proof.
  unfold Login.doctorLogin.
  destruct (Login.password req) as [|u pw]; [intros [= <- <- <-]; discriminate|].
  destruct (Login.isEmergencyPasskey req).
  - destruct (Login.checkRateLimit _ _ m) as [allowed m1].
    destruct allowed; cbn [negb]; [|intros [= <- <- <-]; discriminate].
    destruct (Login.emergencyPasskey e) as [value|]; [|intros [= <- <- <-]; discriminate].
    destruct (Login.sameUnits value _); intros [= <- <- <-]; [|discriminate].
    intros _. eexists. split; [reflexivity|].
    intros t. now rewrite StoreFacts.login_valid_until.
  - destruct (negb (Js.nonEmpty (Login.email req))); [intros [= <- <- <-]; discriminate|].
    destruct (Login.checkRateLimit _ _ m) as [allowed m1].
    destruct allowed; cbn [negb]; [|intros [= <- <- <-]; discriminate].
    cbv zeta.
    destruct (single _) as [doctor|]; [|intros [= <- <- <-]; discriminate].
    destruct (negb _); [intros [= <- <- <-]; discriminate|].
    destruct (String.eqb (Signup.status doctor) "pending");
      [intros [= <- <- <-]; discriminate|].
    destruct (String.eqb (Signup.status doctor) "rejected");
      intros [= <- <- <-]; [discriminate|].
    intros _. eexists. split; [reflexivity|].
    intros t. now rewrite StoreFacts.login_valid_until.
Qed.

End SessionLifetime.

(* ================================================================== *)
(** ** text-to-speech: the retry loop *)

Module TtsFacts.

Ltac four_attempts outcomes :=
  unfold Tts.fetchWithRetry, Tts.retryLoop, Tts.maxRetries;
  destruct (outcomes 0%nat) eqn:E0; cbn;
  try destruct (outcomes 1%nat) eqn:E1; cbn;
  try destruct (outcomes 2%nat) eqn:E2; cbn;
  try destruct (outcomes 3%nat) eqn:E3; cbn.

End TtsFacts.

(** X25. The retry loop is bounded: whatever the speech endpoint does, it
    is fetched at most four times and the waits between the attempts add
    up to at most 7 seconds. *)
Theorem retry_is_bounded (outcomes : nat -> Tts.FetchOutcome) :
  (Tts.fetches (fst (Tts.fetchWithRetry outcomes)) <= 4)%nat
  /\ (Tts.slept (fst (Tts.fetchWithRetry outcomes)) <= 7000)%Z.
Proof.
  TtsFacts.four_attempts outcomes; split; solve [lia | vm_compute; lia | vm_compute; discriminate].
Qed.

(** X26. The first good response is the one used: the loop yields an audio
    exactly when one of the first four attempts is answered ok, and then it
    is the audio of the earliest such attempt, fetched after one attempt
    more than there were failures and no later attempt is made. *)
Theorem first_ok_response_is_used (outcomes : nat -> Tts.FetchOutcome)
    (k : nat) (audio : string) :
  (k <= 3)%nat ->
  outcomes k = Tts.FetchOk audio ->
  (forall j, (j < k)%nat -> fetchIsOk (outcomes j) = false) ->
  snd (Tts.fetchWithRetry outcomes) = Ok audio
  /\ Tts.fetches (fst (Tts.fetchWithRetry outcomes)) = S k.
Proof.
  intros Hk Hok Hbefore.
  assert (H0 : (0 < k)%nat -> fetchIsOk (outcomes 0%nat) = false) by auto.
  assert (H1 : (1 < k)%nat -> fetchIsOk (outcomes 1%nat) = false) by auto.
  assert (H2 : (2 < k)%nat -> fetchIsOk (outcomes 2%nat) = false) by auto.
  clear Hbefore.
  destruct k as [|[|[|[|k]]]]; [| | | |lia];
    TtsFacts.four_attempts outcomes;
    try (rewrite Hok in *);
    try (specialize (H0 ltac:(lia)));
    try (specialize (H1 ltac:(lia)));
    try (specialize (H2 ltac:(lia)));
    try discriminate;
    repeat match goal with H : Tts.FetchOk _ = Tts.FetchOk _ |- _ => injection H as -> end;
    try (split; reflexivity).
Qed.

Lemma first_ok_response_is_used_witness :
  let outcomes := fun i : nat =>
    match i with
    | 0%nat => Tts.FetchNotOk "busy"
    | 1%nat => Tts.FetchThrows "reset"
    | _ => Tts.FetchOk "mp3"
    end in
  snd (Tts.fetchWithRetry outcomes) = Ok "mp3".
Proof.
  intros outcomes.
  refine (proj1 (first_ok_response_is_used outcomes 2 "mp3" _ eq_refl _)).
  - lia.
  - intros [|[|j]] Hj; [reflexivity|reflexivity|lia].
Defined.

(** X27. When no attempt succeeds the fourth one decides the error: after
    four fetches and waits of 1, 2 and 4 seconds the loop gives up, with
    the error the fourth fetch threw, or with [TTS generation failed: ]
    followed by the text of the fourth response. *)
Theorem exhausted_retries_report_last (outcomes : nat -> Tts.FetchOutcome) :
  (forall j, (j <= 3)%nat -> fetchIsOk (outcomes j) = false) ->
  fst (Tts.fetchWithRetry outcomes)
  = [Tts.Fetch; Tts.Sleep 1000; Tts.Fetch; Tts.Sleep 2000;
     Tts.Fetch; Tts.Sleep 4000; Tts.Fetch]
  /\ snd (Tts.fetchWithRetry outcomes)
     = match outcomes 3%nat with
       | Tts.FetchThrows message => Throw message
       | Tts.FetchNotOk errorText => Throw ("TTS generation failed: " ++ errorText)
       | Tts.FetchOk audio => Ok audio
       end.
Proof.
  intros Hall.
  pose proof (Hall 0%nat ltac:(lia)) as H0. pose proof (Hall 1%nat ltac:(lia)) as H1.
  pose proof (Hall 2%nat ltac:(lia)) as H2. pose proof (Hall 3%nat ltac:(lia)) as H3.
  clear Hall.
  TtsFacts.four_attempts outcomes;
    rewrite ?E0, ?E1, ?E2, ?E3 in *; try discriminate; split; reflexivity.
Qed.

Lemma exhausted_retries_report_last_witness :
  snd (Tts.fetchWithRetry (fun _ => Tts.FetchNotOk "busy"))
  = Throw "TTS generation failed: busy".
Proof.
  exact (proj2 (exhausted_retries_report_last (fun _ => Tts.FetchNotOk "busy")
                  (fun _ _ => eq_refl))).
Defined.

(** X28. The loop is never left without a response held: the branch that
    reports [No response] cannot be taken, since an attempt that throws
    either is followed by another attempt or, being the last, throws on. *)
Theorem no_response_branch_is_dead (outcomes : nat -> Tts.FetchOutcome) :
  snd (Tts.retryLoop outcomes (S Tts.maxRetries) 0 None) <> Tts.Left None.
Proof.
  unfold Tts.retryLoop, Tts.maxRetries;
  destruct (outcomes 0%nat); cbn;
  try destruct (outcomes 1%nat); cbn;
  try destruct (outcomes 2%nat); cbn;
  try destruct (outcomes 3%nat); cbn; discriminate.
Qed.

(* ================================================================== *)
(** ** From sign-up to login *)

Module AccountFacts.



End AccountFacts.

Section SignupThenLogin.

Variable digest : CodeUnits -> list ascii.


End SignupThenLogin.

(** X30. The sign-up page never sends what the handler's first and last
    input checks refuse: a request that leaves the page after its own
    checks (all four fields filled, both passwords equal, at least 8 code
    units) is not answered [All fields are required] and not
    [Password must be at least 8 characters long]. *)
Theorem page_signup_passes_field_checks (digest : CodeUnits -> list ascii)
    (e : Signup.Env) (fullName email : string) (password confirmPassword : CodeUnits)
    (req : Signup.Request) :
  handleSignup fullName email password confirmPassword = Some req ->
  snd (Signup.doctorSignup digest e req) <> Resp 400 (errorBody "All fields are required")
  /\ snd (Signup.doctorSignup digest e req)
     <> Resp 400 (errorBody "Password must be at least 8 characters long").
Proof.
  unfold handleSignup.
  destruct (Js.nonEmpty fullName) eqn:En; [|discriminate].
  destruct (Js.nonEmpty email) eqn:Ee; [|discriminate].
  destruct password as [|u pw] eqn:Epw; [discriminate|].
  destruct confirmPassword as [|u' pw']; [discriminate|].
  cbn [negb orb].
  destruct (negb (Login.sameUnits _ _)); [discriminate|].
  destruct (_ <? 8)%nat eqn:Elen; [discriminate|].
  intros [= <-]. unfold Signup.doctorSignup.
  cbn [Signup.email Signup.password Signup.fullName].
  rewrite En, Ee, Elen. cbn [negb orb].
  destruct (negb (matchesAll _ _)); [split; discriminate|].
  destruct (secondPart _ _); [|split; discriminate].
  cbv zeta.
  destruct (memberOf _ _); [split; discriminate|].
  destruct (negb (Signup.domainAllowed _)); [split; discriminate|].
  destruct (single _); [split; discriminate|].
  destruct (Signup.insertError e) as [message|]; [|split; discriminate].
  cbn [snd]. unfold orElse.
  destruct (Js.nonEmpty message); split; discriminate.
Qed.

(* ================================================================== *)
(** ** The theorems at the sample runs *)

Lemma success_severity_is_valid_witness :
  exists severity,
    prop (bodyOf (snd sampleRun)) "severity" = Ok (Some (JStr severity))
    /\ memberOf severity validSeverities = true.
Proof.
  destruct (success_severity_is_valid (sampleParse (sampleTable sampleAnswer))
              (sampleEnv sampleRules (AiContent (Some (JStr sampleModelText))))
              (sampleRequest "mild cough" EmptyString)
              (fst sampleRun) (bodyOf (snd sampleRun)))
    as (severity & Hbody & Hvalid & _).
  - vm_compute. reflexivity.
  - exists severity. split; [exact Hbody | exact Hvalid].
Defined.

Lemma success_guidance_is_clean_witness :
  exists guidance,
    prop (bodyOf (snd sampleRun)) "safe_guidance" = Ok (Some (JStr guidance))
    /\ Js.includes (Js.toLowerCase guidance) "antibiotic" = false.
Proof.
  eexists. split; [vm_compute; reflexivity|].
  apply (success_guidance_is_clean (sampleParse (sampleTable sampleAnswer))
           (sampleEnv sampleRules (AiContent (Some (JStr sampleModelText))))
           (sampleRequest "mild cough" EmptyString)
           (fst sampleRun) (bodyOf (snd sampleRun))).
  - vm_compute. reflexivity.
  - vm_compute. reflexivity.
  - simpl. now left.
Defined.

Lemma row_stored_iff_success_witness :
  (exists row, In (InsertPatientQuery row) (fst sampleRun)) <-> 200%nat = 200%nat.
Proof.
  apply (row_stored_iff_success (sampleParse (sampleTable sampleAnswer))
           (sampleEnv sampleRules (AiContent (Some (JStr sampleModelText))))
           (sampleRequest "mild cough" EmptyString)
           (fst sampleRun) 200%nat (bodyOf (snd sampleRun))).
  vm_compute. reflexivity.
Defined.

Lemma returned_disclaimer_complete_witness :
  exists disclaimer,
    prop (bodyOf (snd sampleMedicationRun)) "disclaimer" = Ok (Some (JStr disclaimer))
    /\ Js.includes (Js.toLowerCase disclaimer) "educational" = true
    /\ Js.includes (Js.toLowerCase disclaimer) "not replace" = true.
Proof.
  apply (returned_disclaimer_complete
           (sampleParse (sampleTable (sampleMedication "take 500mg twice daily")))
           (AiContent (Some (JStr sampleModelText))) "Paracetamol"
           (fst sampleMedicationRun)).
  vm_compute. reflexivity.
Defined.

Lemma returned_medication_complete_witness :
  fst sampleMedicationRun = [CallModel]
  /\ exists fields,
       bodyOf (snd sampleMedicationRun) = JObj fields
       /\ forall k, In k requiredFields -> truthy (getField k fields) = true.
Proof.
  apply (returned_medication_complete
           (sampleParse (sampleTable (sampleMedication "take 500mg twice daily")))
           (AiContent (Some (JStr sampleModelText))) "Paracetamol").
  vm_compute. reflexivity.
Defined.


Lemma signup_accepts_allowed_suffix_witness :
  snd (Signup.doctorSignup sampleDigest sampleSignupEnv
         {| Signup.email := "asha" ++ "@" ++ "city." ++ "hospital.com";
            Signup.password := samplePassword;
            Signup.fullName := "Asha" |})
  = Resp 200 Signup.successBody.
Proof.
  refine (f_equal snd (signup_accepts_allowed_suffix sampleDigest sampleSignupEnv
                         samplePassword "asha" "city." "hospital.com" "Asha"
                         _ _ _ _ _ _ _ _ _)).
  - reflexivity.
  - reflexivity.
  - split; vm_compute; reflexivity.
  - vm_compute. reflexivity.
  - simpl. now left.
  - simpl. lia.
  - reflexivity.
  - reflexivity.
  - reflexivity.
Defined.

Lemma five_attempts_per_window_witness :
  Login.runAttempts "doctor_a@hospital.com" [0; 10; 20; 30; 40; 50; 60]%Z Login.emptyMap
  = [true; true; true; true; true; false; false].
Proof.
  refine (five_attempts_per_window "doctor_a@hospital.com" 0
            [0; 10; 20; 30; 40; 50; 60]%Z Login.emptyMap _ _).
  - reflexivity.
  - intros t Ht. unfold Login.LOCKOUT_DURATION. simpl in Ht.
    repeat (destruct Ht as [<- | Ht]; [lia|]). destruct Ht.
Defined.

Lemma refusal_does_not_extend_lock_witness :
  fst (Login.checkRateLimit "doctor_a@hospital.com" 900001
         (lockedMap "doctor_a@hospital.com")) = true.
Proof.
  destruct (refusal_does_not_extend_lock "doctor_a@hospital.com" 10
              (lockedMap "doctor_a@hospital.com") (lockedMap "doctor_a@hospital.com"))
    as (_ & a & Ha & _ & _ & Hlater).
  - reflexivity.
  - vm_compute in Ha. injection Ha as <-.
    apply (Hlater 900001%Z). vm_compute. reflexivity.
Defined.



Lemma passkey_successes_are_counted_witness :
  map Login.statusOf
    (Login.serveAll sampleDigest
       (List.repeat (sampleLoginEnv "approved" 5, samplePasskeyLogin) 6) Login.emptyMap)
  = [200; 200; 200; 200; 200; 429]%nat.
Proof.
  refine (passkey_successes_are_counted sampleDigest
            (List.repeat (sampleLoginEnv "approved" 5, samplePasskeyLogin) 6)
            (Some "10.0.0.7") 0 Login.emptyMap _ _).
  - reflexivity.
  - intros e req Hin. apply repeat_spec in Hin. injection Hin as -> ->.
    split; [reflexivity|]. split; [reflexivity|]. split; [discriminate|].
    split; [reflexivity|]. unfold Login.LOCKOUT_DURATION. simpl. lia.
Defined.

Lemma login_session_lifetime_witness :
  exists st',
    Store.handleLogin (snd (fst sampleLoginRun)) 1000
      {| Store.session := None; Store.table := [] |} = Some st'
    /\ forall t, fst (Store.isSessionValid t st') = (t - 1000 <=? 8 * 60 * 60 * 1000)%Z.
Proof.
  refine (login_session_lifetime sampleDigest (sampleLoginEnv "approved" 1000)
            Login.emptyMap (snd sampleLoginRun) sampleLogin
            (fst (fst sampleLoginRun)) (snd (fst sampleLoginRun)) 1000
            {| Store.session := None; Store.table := [] |} _ _).
  - reflexivity.
  - reflexivity.
Defined.


Lemma page_signup_passes_field_checks_witness :
  snd (Signup.doctorSignup sampleDigest sampleSignupEnv sampleSignup)
  <> Resp 400 (errorBody "All fields are required").
Proof.
  refine (proj1 (page_signup_passes_field_checks sampleDigest sampleSignupEnv
                   "Asha" "Asha@City.Hospital.com" samplePassword samplePassword
                   sampleSignup _)).
  reflexivity.
Defined.

Lemma rate_limit_keeps_counters_witness :
  snd (Login.checkRateLimit "doctor_a@hospital.com" 10
         (lockedMap "doctor_b@hospital.com")) "doctor_b@hospital.com"
  = lockedMap "doctor_b@hospital.com" "doctor_b@hospital.com".
Proof.
  apply (proj1 (rate_limit_keeps_counters "doctor_a@hospital.com" 10
                  (lockedMap "doctor_b@hospital.com"))).
  discriminate.
Defined.

(* ================================================================== *)
(** * The claims on any text

    The theorems of this part are about the handlers of [Platform]: they
    hold for every [toLowerCase] and [toUpperCase] (what a proof needs of
    them is a hypothesis of the theorem) and for white space as ECMAScript
    defines it. *)

(** Both readings of white space, [spaceWidth] and the class [\s], take
    each of the 25 white-space characters whole; a no-break space is
    trimmed and a text of no-break spaces is missing. *)
Example whiteSpace_characters :
  List.length Platform.whiteSpaceCharacters = 25%nat
  /\ forallb (fun w => (Platform.spaceWidth w =? String.length w)%nat
                       && matchesAll Platform.whiteSpace w
                       && Platform.blank w)
       Platform.whiteSpaceCharacters = true
  /\ Platform.trim (String (ascii_of_N 194) (String (ascii_of_N 160) "fever "))
     = "fever"
  /\ Platform.missingText
       (String (ascii_of_N 194) (String (ascii_of_N 160) " ")) = true
  /\ Re.test Platform.dosagePattern
       ("500" ++ String (ascii_of_N 194) (String (ascii_of_N 160) "mg")) = true.
Proof. repeat split; vm_compute; reflexivity. Qed.

Section PlatformFacts.

Variable toLowerCase toUpperCase : string -> string.

Local Abbreviation sanitize := (Platform.sanitize toLowerCase toUpperCase).
Local Abbreviation normalizeSeverity := (Platform.normalizeSeverity toUpperCase).
Local Abbreviation medicationFilter := (Platform.medicationFilter toLowerCase).
Local Abbreviation filteredGuidance := (Platform.filteredGuidance toLowerCase).

Lemma platform_sanitize_object (fields : list (string * json)) :
  sanitize (JObj fields) =
  if negb (truthy (getField "disease_category" fields))
     || negb (truthy (getField "severity" fields))
     || negb (truthy (getField "recommendation" fields))
  then Throw "Missing required fields in AI response"
  else
    match getField "severity" fields with
    | Some (JStr severity) =>
        let fields2 := Platform.afterCritical fields (normalizeSeverity severity) in
        if truthy (getField "safe_guidance" fields2) then
          match getField "safe_guidance" fields2 with
          | Some (JStr text) =>
              Ok (JObj (setField "safe_guidance" (JStr (medicationFilter text)) fields2))
          | _ => Throw "TypeError: toLowerCase is not a function"
          end
        else Ok (JObj fields2)
    | _ => Throw "TypeError: toUpperCase is not a function"
    end.
Proof.
  unfold Platform.sanitize, Platform.afterCritical, Platform.normalizeSeverity.
  simpl bind.
  destruct (negb (truthy (getField "disease_category" fields))
            || negb (truthy (getField "severity" fields))
            || negb (truthy (getField "recommendation" fields))); [reflexivity|].
  destruct (getField "severity" fields) as [[| | |s| |]|]; simpl; try reflexivity.
  destruct (String.eqb (coerceSeverity (toUpperCase s)) "CRITICAL"); reflexivity.
Qed.

Lemma platform_sanitize_not_object (p : json) :
  (forall fields, p <> JObj fields) -> exists message, sanitize p = Throw message.
Proof.
  intros H. destruct p; try (eexists; reflexivity).
  now destruct (H fields).
Qed.

Lemma platform_afterCritical_severity (fields : list (string * json)) (sev : string) :
  getField "severity" (Platform.afterCritical fields sev) = Some (JStr sev).
Proof.
  unfold Platform.afterCritical. destruct (String.eqb _ _).
  - rewrite !getField_setField_other by discriminate. apply getField_setField_same.
  - apply getField_setField_same.
Qed.

Lemma platform_afterCritical_untouched (fields : list (string * json)) (sev k : string) :
  k <> "severity" -> k <> "recommendation" -> k <> "safe_guidance" ->
  getField k (Platform.afterCritical fields sev) = getField k fields.
Proof.
  intros H1 H2 H3. unfold Platform.afterCritical. destruct (String.eqb _ _).
  - rewrite !getField_setField_other by congruence. reflexivity.
  - rewrite getField_setField_other by congruence. reflexivity.
Qed.

Lemma platform_afterCritical_guidance (fields : list (string * json)) (sev : string) :
  getField "safe_guidance" (Platform.afterCritical fields sev)
  = if String.eqb sev "CRITICAL" then Some JNull
    else getField "safe_guidance" fields.
Proof.
  unfold Platform.afterCritical. destruct (String.eqb _ _).
  - apply getField_setField_same.
  - now rewrite getField_setField_other by discriminate.
Qed.

Lemma platform_afterCritical_recommendation (fields : list (string * json)) (sev : string) :
  getField "recommendation" (Platform.afterCritical fields sev)
  = if String.eqb sev "CRITICAL" then Some (JStr EMERGENCY)
    else getField "recommendation" fields.
Proof.
  unfold Platform.afterCritical. destruct (String.eqb _ _).
  - rewrite getField_setField_other by discriminate. apply getField_setField_same.
  - now rewrite getField_setField_other by discriminate.
Qed.

Lemma platform_normalizeSeverity_valid (s : string) :
  memberOf (normalizeSeverity s) validSeverities = true.
Proof.
  unfold Platform.normalizeSeverity, coerceSeverity.
  destruct (memberOf (toUpperCase s) validSeverities) eqn:E; [exact E | reflexivity].
Qed.

Lemma platform_medicationFilter_empty : medicationFilter EmptyString = EmptyString.
Proof.
  unfold Platform.medicationFilter. cbv zeta.
  generalize (toLowerCase EmptyString). intros g.
  induction PROHIBITED_MEDICATION_TYPES as [|t terms IH]; [reflexivity|].
  cbn [fold_left]. destruct (Js.includes g t); exact IH.
Qed.

(** The validated result, field by field; after the required-field check
    the [try] block throws only on a safe_guidance that is neither absent,
    null nor a string. *)
Lemma platform_sanitize_cases (fields : list (string * json)) (s : string) :
  (forall k, In k triageRequired -> truthy (getField k fields) = true) ->
  getField "severity" fields = Some (JStr s) ->
  (exists result,
      sanitize (JObj fields) = Ok (JObj result)
      /\ getField "severity" result = Some (JStr (normalizeSeverity s))
      /\ getField "safe_guidance" result
         = filteredGuidance
             (getField "safe_guidance" (Platform.afterCritical fields (normalizeSeverity s)))
      /\ getField "recommendation" result
         = getField "recommendation" (Platform.afterCritical fields (normalizeSeverity s))
      /\ (forall k, k <> "severity" -> k <> "recommendation" -> k <> "safe_guidance" ->
            getField k result = getField k fields))
  \/ (exists message, sanitize (JObj fields) = Throw message)
     /\ ~ guidanceTyped (getField "safe_guidance" fields).
Proof.
  intros Hreq Hsev.
  assert (Hdc : truthy (getField "disease_category" fields) = true)
    by (apply Hreq; simpl; tauto).
  assert (Hrec : truthy (getField "recommendation" fields) = true)
    by (apply Hreq; simpl; tauto).
  assert (Hs : truthy (getField "severity" fields) = true)
    by (apply Hreq; simpl; tauto).
  rewrite platform_sanitize_object, Hdc, Hrec, Hs, Hsev. cbn [negb orb]. cbv zeta.
  set (sev := normalizeSeverity s).
  pose proof (platform_afterCritical_guidance fields sev) as Hg.
  assert (Hplain : exists result,
             Ok (JObj (Platform.afterCritical fields sev)) = Ok (JObj result)
             /\ getField "severity" result = Some (JStr sev)
             /\ getField "safe_guidance" result
                = getField "safe_guidance" (Platform.afterCritical fields sev)
             /\ getField "recommendation" result
                = getField "recommendation" (Platform.afterCritical fields sev)
             /\ (forall k, k <> "severity" -> k <> "recommendation" ->
                   k <> "safe_guidance" -> getField k result = getField k fields)).
  { exists (Platform.afterCritical fields sev). repeat split.
    - apply platform_afterCritical_severity.
    - intros k H1 H2 H3. now apply platform_afterCritical_untouched. }
  assert (Hbad : forall v,
             getField "safe_guidance" (Platform.afterCritical fields sev) = Some v ->
             v <> JNull -> (forall text, v <> JStr text) ->
             ~ guidanceTyped (getField "safe_guidance" fields)).
  { intros v Ev Hnull Hstr Htyped. rewrite Ev in Hg.
    destruct (String.eqb sev "CRITICAL").
    - injection Hg as ->. now apply Hnull.
    - rewrite <- Hg in Htyped. destruct Htyped as [H | [H | [text H]]];
        try discriminate; injection H as ->; [now apply Hnull | now apply (Hstr text)]. }
  destruct (getField "safe_guidance" (Platform.afterCritical fields sev))
    as [[|b|n|text|l|f]|] eqn:Esg.
  - left. destruct Hplain as (r & H1 & H2 & H3 & H4). exists r. now rewrite H3.
  - destruct b.
    + right. split; [now eexists|]. apply (Hbad (JBool true)); congruence.
    + left. destruct Hplain as (r & H1 & H2 & H3 & H4). exists r. now rewrite H3.
  - simpl. destruct (negb (n =? 0)%Z).
    + right. split; [now eexists|]. apply (Hbad (JNum n)); congruence.
    + left. destruct Hplain as (r & H1 & H2 & H3 & H4). exists r. now rewrite H3.
  - simpl truthy. destruct (Js.nonEmpty text) eqn:Et.
    + left. eexists. split; [reflexivity|]. repeat split.
      * rewrite getField_setField_other by discriminate.
        apply platform_afterCritical_severity.
      * apply getField_setField_same.
      * now rewrite getField_setField_other by discriminate.
      * intros k H1 H2 H3. rewrite getField_setField_other by congruence.
        now apply platform_afterCritical_untouched.
    + left. destruct Hplain as (r & H1 & H2 & H3 & H4). exists r.
      destruct text; [|discriminate]. rewrite H3.
      cbn [Platform.filteredGuidance]. now rewrite platform_medicationFilter_empty.
  - right. split; [now eexists|]. apply (Hbad (JArr l)); congruence.
  - right. split; [now eexists|]. apply (Hbad (JObj f)); congruence.
  - left. destruct Hplain as (r & H1 & H2 & H3 & H4). exists r. now rewrite H3.
Qed.

Lemma platform_untyped_severity_throws (fields : list (string * json)) :
  (forall s, getField "severity" fields <> Some (JStr s)) ->
  exists message, sanitize (JObj fields) = Throw message.
Proof.
  intros Hns. rewrite platform_sanitize_object.
  destruct (negb _ || negb _ || negb _); [now eexists|].
  destruct (getField "severity" fields) as [[| | |s| |]|]; try (now eexists).
  now destruct (Hns s).
Qed.

Lemma platform_sanitize_returns_object (p r : json) :
  sanitize p = Ok r -> exists fields, r = JObj fields.
Proof.
  intros H. destruct p as [| | | | |fields]; try discriminate.
  rewrite platform_sanitize_object in H.
  destruct (negb _ || negb _ || negb _); [discriminate|].
  destruct (getField "severity" fields) as [[| | |s| |]|]; try discriminate.
  cbv zeta in H. destruct (truthy _).
  - destruct (getField "safe_guidance" _) as [[| | |text| |]|]; try discriminate.
    injection H as <-. now eexists.
  - injection H as <-. now eexists.
Qed.

End PlatformFacts.

(** ** Replacing the matches of a term *)

Module ReplaceFacts.
Import Js.

Lemma startsWith_i_length (s p : string) :
  startsWith_i s p = true -> String.length p <= String.length s.
Proof.
  revert s. induction p as [|d p IH]; intros s H; simpl; [lia|].
  destruct s as [|c s]; [discriminate|].
  simpl in H. apply andb_true_iff in H as [_ H]. apply IH in H. simpl. lia.
Qed.

Lemma startsWith_i_prefix (m rest p : string) :
  String.length m = String.length p ->
  startsWith_i (m ++ rest) p = true -> startsWith_i m p = true.
Proof.
  revert m. induction p as [|d p IH]; intros m Hlen H; [reflexivity|].
  destruct m as [|c m]; [discriminate|].
  simpl in *. apply andb_true_iff in H as [Hc H]. rewrite Hc.
  apply IH; [lia | exact H].
Qed.

Lemma startsWith_i_extend (m rest p : string) :
  startsWith_i m p = true -> startsWith_i (m ++ rest) p = true.
Proof.
  revert m. induction p as [|d p IH]; intros m H; [reflexivity|].
  destruct m as [|c m]; [discriminate|].
  simpl in *. apply andb_true_iff in H as [Hc H]. rewrite Hc. now apply IH.
Qed.

(** [replaceFrom] with [skip] characters still to pass over: what it
    returns stands for the text after them. *)
Lemma replaceFrom_spec (p by_ : string) :
  nonEmpty p = true ->
  forall s skip,
    exists passed rest,
      s = passed ++ rest
      /\ String.length passed = Nat.min skip (String.length s)
      /\ Platform.Replaced p by_ rest (replaceFrom p by_ s skip).
Proof.
  intros Hp. induction s as [|c s IH]; intros skip.
  - exists EmptyString, EmptyString. split; [reflexivity|].
    split; [now rewrite Nat.min_0_r | constructor].
  - destruct skip as [|k].
    + exists EmptyString, (String c s). split; [reflexivity|]. split; [reflexivity|].
      cbn [replaceFrom].
      destruct (startsWith_i (String c s) p) eqn:Ematch.
      * destruct (IH (String.length p - 1)) as (passed & rest & Hs & Hlen & Hrep).
        pose proof (startsWith_i_length _ _ Ematch) as Hle. simpl in Hle.
        assert (Hpos : 1 <= String.length p) by (destruct p; [discriminate | simpl; lia]).
        assert (Hm : String.length (String c passed) = String.length p)
          by (simpl; lia).
        subst s. change (String c (passed ++ rest)) with (String c passed ++ rest).
        apply Platform.ReplacedMatch; [exact Hm| |exact Hrep].
        apply (startsWith_i_prefix _ rest); [exact Hm | exact Ematch].
      * destruct (IH 0) as (passed & rest & Hs & Hlen & Hrep).
        destruct passed; [|discriminate]. simpl in Hs. subst rest.
        now apply Platform.ReplacedKeep.
    + cbn [replaceFrom].
      destruct (IH k) as (passed & rest & Hs & Hlen & Hrep).
      exists (String c passed), rest. split; [now rewrite Hs|].
      split; [simpl; lia | exact Hrep].
Qed.

Lemma replaceAll_spec (p by_ s : string) :
  nonEmpty p = true -> Platform.Replaced p by_ s (replaceAll_i p by_ s).
Proof.
  intros Hp. unfold replaceAll_i.
  destruct (replaceFrom_spec p by_ Hp s 0) as (passed & rest & Hs & Hlen & Hrep).
  destruct passed; [|discriminate]. simpl in Hs. now subst rest.
Qed.

(** A text without a match is its own replacement, and the only one. *)
Lemma Replaced_same (p by_ s : string) :
  includes_i s p = false -> Platform.Replaced p by_ s s.
Proof.
  induction s as [|c s IH]; intros H; [constructor|].
  cbn [includes_i] in H. apply orb_false_iff in H as [H1 H2].
  apply Platform.ReplacedKeep; [exact H1 | now apply IH].
Qed.

Lemma Replaced_absent (p by_ s s' : string) :
  Platform.Replaced p by_ s s' -> includes_i s p = false -> s' = s.
Proof.
  induction 1 as [|c s s' Hno Hrep IH|m s s' Hlen Hm Hrep IH]; intros Habs.
  - reflexivity.
  - cbn [includes_i] in Habs. apply orb_false_iff in Habs as [_ Habs].
    now rewrite IH.
  - exfalso. pose proof (startsWith_i_extend m s p Hm) as Hstart.
    destruct (m ++ s) as [|c u]; simpl in Habs.
    + destruct p; [|discriminate]. destruct m; discriminate.
    + cbn [includes_i] in Habs. apply orb_false_iff in Habs as [Habs _]. congruence.
Qed.

End ReplaceFacts.

Section FilterFacts.

Variable toLowerCase : string -> string.

(** The loop of lines 226-234 as replacements: a term that the test of
    line 227 does not find has no match in the text the loop holds. *)
Lemma platform_filter_chain (guidanceText : string) :
  forall (terms : list string) (current : string),
    (forall t, In t terms -> In t PROHIBITED_MEDICATION_TYPES) ->
    (forall t, In t terms ->
       Js.includes guidanceText t = false -> Js.includes_i current t = false) ->
    Platform.ReplacedEach NEUTRAL terms current
      (fold_left
         (fun current prohibited =>
            if Js.includes guidanceText prohibited
            then Js.replaceAll_i prohibited NEUTRAL current
            else current)
         terms current).
Proof.
  induction terms as [|p terms IH]; intros current Hterms Hinv; [constructor|].
  cbn [fold_left].
  destruct (termOk_prohibited p (Hterms p (or_introl eq_refl))) as (Hne & _ & _).
  destruct (Js.includes guidanceText p) eqn:Eguard.
  - apply Platform.ReplacedNext with (s1 := Js.replaceAll_i p NEUTRAL current).
    + now apply ReplaceFacts.replaceAll_spec.
    + apply IH; [intros t Ht; apply Hterms; now right|].
      intros t Ht Hguard.
      destruct (termOk_prohibited t (Hterms t (or_intror Ht))) as (Hne' & Hfree & _).
      unfold Js.replaceAll_i. apply JsFacts.includes_i_replace; auto.
      right. apply Hinv; [now right | exact Hguard].
  - apply Platform.ReplacedNext with (s1 := current).
    + apply ReplaceFacts.Replaced_same. apply Hinv; [now left | exact Eguard].
    + apply IH; [intros t Ht; apply Hterms; now right|].
      intros t Ht Hguard. apply Hinv; [now right | exact Hguard].
Qed.

Lemma platform_filter_spec (safe_guidance : string) :
  lowersTerms toLowerCase ->
  Platform.ReplacedEach NEUTRAL PROHIBITED_MEDICATION_TYPES safe_guidance
    (Platform.medicationFilter toLowerCase safe_guidance)
  /\ termFree (Platform.medicationFilter toLowerCase safe_guidance).
Proof.
  intros Hlower.
  assert (Hinv : forall t, In t PROHIBITED_MEDICATION_TYPES ->
            Js.includes (toLowerCase safe_guidance) t = false ->
            Js.includes_i safe_guidance t = false).
  { intros t Ht Hguard. destruct (Js.includes_i safe_guidance t) eqn:E; [|reflexivity].
    rewrite (Hlower _ _ Ht E) in Hguard. discriminate. }
  split.
  - unfold Platform.medicationFilter. cbv zeta.
    apply platform_filter_chain; [auto | exact Hinv].
  - intros t Ht. destruct (termOk_prohibited t Ht) as (Hne & Hfree & _).
    unfold Platform.medicationFilter. cbv zeta.
    apply filter_loop_clears; auto.
    destruct (Js.includes (toLowerCase safe_guidance) t) eqn:E.
    + right. now split.
    + left. now apply Hinv.
Qed.

(** Replacing term after term in a text that holds none changes nothing. *)
Lemma ReplacedEach_absent (terms : list string) (s s' : string) :
  Platform.ReplacedEach NEUTRAL terms s s' ->
  (forall t, In t terms -> Js.includes_i s t = false) ->
  s' = s.
Proof.
  induction 1 as [s|p terms s s1 s' Hrep Hrest IH]; intros Habs; [reflexivity|].
  assert (E : s1 = s).
  { apply (ReplaceFacts.Replaced_absent _ _ _ _ Hrep). apply Habs. now left. }
  subst s1. apply IH. intros t Ht. apply Habs. now right.
Qed.

End FilterFacts.

(** The ASCII lower-casing is one of the functions the filter works with. *)
Lemma ascii_lowersTerms : lowersTerms Js.toLowerCase.
Proof.
  intros text t Ht H. destruct (termOk_prohibited t Ht) as (_ & _ & Hlow).
  now rewrite JsFacts.includes_lower.
Qed.

(** ** The keyword override, the stored row and the model call *)

Section PlatformTriage.

Variable toLowerCase toUpperCase : string -> string.
Variable JSON_parse : string -> option json.

Local Abbreviation analyzeSymptoms :=
  (Platform.analyzeSymptoms toLowerCase toUpperCase JSON_parse).
Local Abbreviation validate := (Platform.validate toLowerCase toUpperCase JSON_parse).
Local Abbreviation matches := (Platform.matches toLowerCase).
Local Abbreviation findRule := (Platform.findRule toLowerCase).
Local Abbreviation fullTextOf := (Platform.fullTextOf toLowerCase).

(** When some rule matches an accepted request, the first matching rule
    decides the response. *)
Lemma platform_override_when_matched (e : Env) (req : TriageRequest)
    (rules : list SafetyRule) (rule : SafetyRule) :
  Platform.missingText (symptoms req) = false ->
  safety_rules e = Some rules ->
  In rule rules ->
  matches req rule = true ->
  exists before matched after,
    rules = (before ++ matched :: after)%list
    /\ matches req matched = true
    /\ (forall r, In r before -> matches req r = false)
    /\ In rule (matched :: after)
    /\ analyzeSymptoms e req =
       ([SelectRules; SelectGuidance;
         InsertPatientQuery (patientQueryRow req (overrideResult e req matched))],
        Resp 200 (overrideResult e req matched)).
Proof.
  intros Hacc Hrules Hin Hm.
  destruct (find_some_when_exists (matches req) rules rule Hin Hm) as [matched Hfind].
  destruct (find_first _ _ _ Hfind) as (before & after & Hsplit & Hmatched & Hbefore).
  exists before, matched, after.
  split; [exact Hsplit|]. split; [exact Hmatched|]. split; [exact Hbefore|].
  split.
  { rewrite Hsplit in Hin. apply in_app_or in Hin as [Hin | Hin]; [|exact Hin].
    rewrite (Hbefore rule Hin) in Hm. discriminate. }
  unfold Platform.analyzeSymptoms. rewrite Hacc, Hrules.
  cbn [Platform.findRule]. unfold Platform.matches in Hfind. now rewrite Hfind.
Qed.

(** C2, as amended. For every rule set and every accepted request (symptom
    text not blank) whose lower-cased text [symptoms + " " + prescriptionText]
    contains the lower-cased keyword of some rule, the handler answers with
    the override result of the first matching rule in iteration order:
    severity CRITICAL, the emergency recommendation, safe_guidance null,
    is_override true, the category of that rule; the result is stored and
    the model is not called.  This holds whatever [toLowerCase] does to
    the texts, and with white space as [trim] sees it. *)
Theorem override_first_match (e : Env) (req : TriageRequest)
    (rules : list SafetyRule) (rule : SafetyRule) :
  Platform.missingText (symptoms req) = false ->
  safety_rules e = Some rules ->
  In rule rules ->
  Js.includes (toLowerCase (symptoms req ++ " " ++ prescriptionText req))
              (toLowerCase (keyword rule)) = true ->
  exists before matched after body,
    rules = (before ++ matched :: after)%list
    /\ matches req matched = true
    /\ (forall r, In r before -> matches req r = false)
    /\ analyzeSymptoms e req
       = ([SelectRules; SelectGuidance; InsertPatientQuery (patientQueryRow req body)],
          Resp 200 body)
    /\ prop body "disease_category" = Ok (Some (JStr (category matched)))
    /\ prop body "severity" = Ok (Some (JStr "CRITICAL"))
    /\ prop body "recommendation" = Ok (Some (JStr EMERGENCY))
    /\ prop body "safe_guidance" = Ok (Some JNull)
    /\ prop body "is_override" = Ok (Some (JBool true))
    /\ hasCallModel (fst (analyzeSymptoms e req)) = false.
Proof.
  intros Hacc Hrules Hin Hm.
  destruct (platform_override_when_matched e req rules rule Hacc Hrules Hin Hm)
    as (before & matched & after & Hsplit & Hmatched & Hbefore & _ & Hrun).
  exists before, matched, after, (overrideResult e req matched).
  split; [exact Hsplit|]. split; [exact Hmatched|]. split; [exact Hbefore|].
  split; [exact Hrun|]. rewrite Hrun. repeat split.
Qed.

(** C10. If some rule has the empty keyword, every accepted request is
    matched, because the empty text occurs in every text: the handler
    answers with the CRITICAL override result of the first rule, in table
    order, whose lower-cased keyword occurs in the lower-cased text of the
    request (the empty-keyword rule or a rule before it), stores it and
    does not call the model.  Of [toLowerCase] this needs that it leaves
    the empty text empty. *)
Theorem empty_keyword_matches_everything (e : Env) (req : TriageRequest)
    (rules : list SafetyRule) (rule : SafetyRule) :
  toLowerCase EmptyString = EmptyString ->
  Platform.missingText (symptoms req) = false ->
  safety_rules e = Some rules ->
  In rule rules ->
  keyword rule = EmptyString ->
  matches req rule = true
  /\ exists before matched after,
       rules = (before ++ matched :: after)%list
       /\ matches req matched = true
       /\ (forall r, In r before -> matches req r = false)
       /\ In rule (matched :: after)
       /\ analyzeSymptoms e req
          = ([SelectRules; SelectGuidance;
              InsertPatientQuery (patientQueryRow req (overrideResult e req matched))],
             Resp 200 (overrideResult e req matched))
       /\ hasCallModel (fst (analyzeSymptoms e req)) = false
       /\ prop (overrideResult e req matched) "severity" = Ok (Some (JStr "CRITICAL"))
       /\ prop (overrideResult e req matched) "safe_guidance" = Ok (Some JNull)
       /\ prop (overrideResult e req matched) "is_override" = Ok (Some (JBool true))
       /\ prop (overrideResult e req matched) "disease_category"
          = Ok (Some (JStr (category matched))).
Proof.
  intros Hempty Hacc Hrules Hin Hkw.
  assert (Hm : matches req rule = true).
  { unfold Platform.matches. rewrite Hkw, Hempty. apply includes_empty. }
  split; [exact Hm|].
  destruct (platform_override_when_matched e req rules rule Hacc Hrules Hin Hm)
    as (before & matched & after & Hsplit & Hmatched & Hbefore & Hlater & Hrun).
  exists before, matched, after.
  split; [exact Hsplit|]. split; [exact Hmatched|]. split; [exact Hbefore|].
  split; [exact Hlater|]. split; [exact Hrun|].
  split; [now rewrite Hrun|]. repeat split.
Qed.

Lemma platform_validate_returns_object (aiContent : json) :
  exists fields, validate aiContent = JObj fields.
Proof.
  unfold Platform.validate.
  destruct (Platform.tryValidate toLowerCase toUpperCase JSON_parse aiContent)
    as [r|m] eqn:E.
  - unfold Platform.tryValidate in E.
    destruct (Platform.callTrim aiContent) as [clean|]; simpl in E; [|discriminate].
    destruct (parseJson JSON_parse (Platform.extractJson clean)) as [p|];
      simpl in E; [|discriminate].
    now apply platform_sanitize_returns_object with (p := p) in E.
  - now eexists.
Qed.

(** The two ways to a response with status 200, and no other way to a
    stored row. *)
Lemma platform_run_cases (e : Env) (req : TriageRequest) :
  (exists body,
      analyzeSymptoms e req
      = ([SelectRules; SelectGuidance; InsertPatientQuery (patientQueryRow req body)],
         Resp 200 body)
      /\ exists rule, findRule (safety_rules e) (fullTextOf req) = Some rule
                      /\ body = overrideResult e req rule)
  \/ (exists body,
        analyzeSymptoms e req
        = ([SelectRules; CallModel; InsertPatientQuery (patientQueryRow req body)],
           Resp 200 body)
        /\ exists aiContent, ai e = AiContent (Some aiContent)
                             /\ body = validate aiContent)
  \/ (exists status body,
        analyzeSymptoms e req = ([], Resp status body) /\ status = 400)
  \/ (exists status body,
        analyzeSymptoms e req = ([SelectRules; CallModel], Resp status body)
        /\ status = 500).
Proof.
  unfold Platform.analyzeSymptoms.
  destruct (Platform.missingText _).
  { right. right. left. now eexists; eexists. }
  destruct (Platform.findRule _ _ _) as [rule|].
  { left. eexists. split; [reflexivity|]. now exists rule. }
  destruct (ai e) as [m|t|[content|]].
  - right. right. right. now eexists; eexists.
  - right. right. right. now eexists; eexists.
  - destruct (truthy (Some content)).
    + right. left. eexists. split; [reflexivity|]. now exists content.
    + right. right. right. now eexists; eexists.
  - right. right. right. now eexists; eexists.
Qed.

(** C9, as amended. For every result the handler returns with status 200
    exactly one row is handed to [insert]; it has the seven columns
    symptoms_text, prescription_text, disease_category, severity,
    recommendation, reason and language, in which it holds the symptom
    text, the prescription text (null for an empty one) and the language of
    the request and the four fields of the returned result of these names;
    it has no column safe_guidance or is_override: these two fields of the
    result are not stored. *)
Theorem stored_row_has_four_result_fields (e : Env) (req : TriageRequest)
    (trace : list Event) (body : json) :
  analyzeSymptoms e req = (trace, Resp 200 body) ->
  exists fields row,
    body = JObj fields
    /\ Platform.inserted trace = [row]
    /\ map fst row
       = [ "symptoms_text"; "prescription_text"; "disease_category"; "severity";
           "recommendation"; "reason"; "language" ]
    /\ (forall k, In k ["disease_category"; "severity"; "recommendation"; "reason"] ->
          column k row = getField k fields)
    /\ column "symptoms_text" row = Some (JStr (symptoms req))
    /\ column "prescription_text" row
       = Some (if Js.nonEmpty (prescriptionText req)
               then JStr (prescriptionText req) else JNull)
    /\ column "language" row = Some (JStr (language req))
    /\ column "safe_guidance" row = None
    /\ column "is_override" row = None.
Proof.
  intros Hrun.
  assert (Hrow : forall fields prefix,
            Platform.inserted prefix = [] ->
            trace = (prefix ++ [InsertPatientQuery (patientQueryRow req (JObj fields))])%list ->
            body = JObj fields ->
            exists fields' row,
              body = JObj fields'
              /\ Platform.inserted trace = [row]
              /\ map fst row
                 = [ "symptoms_text"; "prescription_text"; "disease_category";
                     "severity"; "recommendation"; "reason"; "language" ]
              /\ (forall k, In k ["disease_category"; "severity"; "recommendation"; "reason"] ->
                    column k row = getField k fields')
              /\ column "symptoms_text" row = Some (JStr (symptoms req))
              /\ column "prescription_text" row
                 = Some (if Js.nonEmpty (prescriptionText req)
                         then JStr (prescriptionText req) else JNull)
              /\ column "language" row = Some (JStr (language req))
              /\ column "safe_guidance" row = None
              /\ column "is_override" row = None).
  { intros fields prefix Hnone -> ->.
    exists fields, (patientQueryRow req (JObj fields)).
    split; [reflexivity|]. split.
    { clear Hrun. induction prefix as [|ev prefix IH]; [reflexivity|].
      destruct ev; simpl in *; try (now apply IH). discriminate. }
    split; [reflexivity|]. split.
    { intros k [<- | [<- | [<- | [<- | []]]]]; reflexivity. }
    repeat split. }
  destruct (platform_run_cases e req)
    as [(b & Hr & rule & _ & Hb) | [(b & Hr & content & _ & Hb)
        | [(st & b & Hr & Hst) | (st & b & Hr & Hst)]]];
    rewrite Hr in Hrun.
  - injection Hrun as <- <-. subst b. unfold overrideResult in Hrow |- *.
    eapply Hrow with (prefix := [SelectRules; SelectGuidance]); reflexivity.
  - injection Hrun as <- <-.
    destruct (platform_validate_returns_object content) as [fields Hv].
    rewrite Hv in Hb. subst b.
    now apply (Hrow fields [SelectRules; CallModel]).
  - injection Hrun as _ Hs _. subst st. discriminate.
  - injection Hrun as _ Hs _. subst st. discriminate.
Qed.

Lemma platform_findRule_None (rules : option (list SafetyRule)) (req : TriageRequest) :
  findRule rules (fullTextOf req) = None
  <-> forall table rule, rules = Some table -> In rule table -> matches req rule = false.
Proof.
  destruct rules as [table|]; simpl.
  - split.
    + intros H t rule [= <-] Hin. exact (find_none _ _ H rule Hin).
    + intros H. destruct (find _ table) as [rule|] eqn:E; [|reflexivity].
      destruct (find_first _ _ _ E) as (before & after & Hsplit & Hm & _).
      assert (Hin : In rule table) by (rewrite Hsplit; apply in_or_app; right; now left).
      specialize (H table rule eq_refl Hin). unfold Platform.matches in H. congruence.
  - split; [discriminate | reflexivity].
Qed.

(** X5. The model is called exactly for an accepted request that no rule
    of the table matches; that includes the case where the table could not
    be read.  Accepted is what line 35 accepts, with [trim] stripping the
    white space of ECMAScript, and a rule matches as line 56 has it, with
    the platform's [toLowerCase]. *)
Theorem model_called_iff_unmatched (e : Env) (req : TriageRequest) :
  hasCallModel (fst (analyzeSymptoms e req)) = true
  <-> Platform.missingText (symptoms req) = false
      /\ forall table rule,
           safety_rules e = Some table -> In rule table -> matches req rule = false.
Proof.
  rewrite <- platform_findRule_None. unfold Platform.analyzeSymptoms.
  destruct (Platform.missingText _).
  { simpl. split; [discriminate | intros [H _]; discriminate]. }
  destruct (Platform.findRule _ _ _) as [rule|].
  { simpl. split; [discriminate | intros [_ H]; discriminate]. }
  destruct (ai e) as [m|t|[content|]]; simpl; try tauto.
  destruct (match content with JNull => false | _ => _ end); simpl; tauto.
Qed.

End PlatformTriage.

(** ** The validated result *)

Section PlatformValidated.

Variable toLowerCase toUpperCase : string -> string.
Variable JSON_parse : string -> option json.

Local Abbreviation analyzeSymptoms :=
  (Platform.analyzeSymptoms toLowerCase toUpperCase JSON_parse).
Local Abbreviation validate := (Platform.validate toLowerCase toUpperCase JSON_parse).
Local Abbreviation tryValidate :=
  (Platform.tryValidate toLowerCase toUpperCase JSON_parse).
Local Abbreviation sanitize := (Platform.sanitize toLowerCase toUpperCase).
Local Abbreviation normalizeSeverity := (Platform.normalizeSeverity toUpperCase).
Local Abbreviation medicationFilter := (Platform.medicationFilter toLowerCase).

Lemma platform_validate_parsed (raw : string) (p : json) :
  JSON_parse (Platform.extractJson (Platform.trim raw)) = Some p ->
  tryValidate (JStr raw) = sanitize p.
Proof. intros H. unfold Platform.tryValidate, parseJson. simpl. now rewrite H. Qed.

(** Lines 205-213 within the whole [try] block, for a string severity. *)
Lemma platform_string_severity (raw : string) (fields : list (string * json))
    (s : string) :
  JSON_parse (Platform.extractJson (Platform.trim raw)) = Some (JObj fields) ->
  (forall k, In k triageRequired -> truthy (getField k fields) = true) ->
  getField "severity" fields = Some (JStr s) ->
  memberOf (normalizeSeverity s) validSeverities = true
  /\ (memberOf (toUpperCase s) validSeverities = true ->
        normalizeSeverity s = toUpperCase s)
  /\ (memberOf (toUpperCase s) validSeverities = false ->
        normalizeSeverity s = "MODERATE")
  /\ exists result,
       validate (JStr raw) = JObj result
       /\ (memberOf (toUpperCase s) validSeverities = false ->
             getField "severity" result = Some (JStr "MODERATE"))
       /\ (guidanceTyped (getField "safe_guidance" fields) ->
             tryValidate (JStr raw) = Ok (JObj result)
             /\ getField "severity" result = Some (JStr (normalizeSeverity s))
             /\ getField "disease_category" result = getField "disease_category" fields
             /\ getField "reason" result = getField "reason" fields)
       /\ (forall e req,
             Platform.missingText (symptoms req) = false ->
             Platform.findRule toLowerCase (safety_rules e)
               (Platform.fullTextOf toLowerCase req) = None ->
             ai e = AiContent (Some (JStr raw)) ->
             Js.nonEmpty raw = true ->
             analyzeSymptoms e req
             = ([SelectRules; CallModel;
                 InsertPatientQuery (patientQueryRow req (JObj result))],
                Resp 200 (JObj result))).
Proof.
  intros Hparse Hreq Hsev.
  assert (Hup : memberOf (toUpperCase s) validSeverities = true ->
                normalizeSeverity s = toUpperCase s).
  { intros H. unfold Platform.normalizeSeverity, coerceSeverity. now rewrite H. }
  assert (Hmod : memberOf (toUpperCase s) validSeverities = false ->
                 normalizeSeverity s = "MODERATE").
  { intros H. unfold Platform.normalizeSeverity, coerceSeverity. now rewrite H. }
  split; [apply platform_normalizeSeverity_valid|].
  split; [exact Hup|]. split; [exact Hmod|].
  assert (Hhandler : forall result,
            validate (JStr raw) = JObj result ->
            forall e req,
              Platform.missingText (symptoms req) = false ->
              Platform.findRule toLowerCase (safety_rules e)
                (Platform.fullTextOf toLowerCase req) = None ->
              ai e = AiContent (Some (JStr raw)) ->
              Js.nonEmpty raw = true ->
              analyzeSymptoms e req
              = ([SelectRules; CallModel;
                  InsertPatientQuery (patientQueryRow req (JObj result))],
                 Resp 200 (JObj result))).
  { intros result Hv e req Hacc Hnone Hai Hraw.
    unfold Platform.analyzeSymptoms. rewrite Hacc, Hnone, Hai. simpl truthy.
    now rewrite Hraw, Hv. }
  pose proof (platform_validate_parsed raw _ Hparse) as Htry.
  destruct (platform_sanitize_cases toLowerCase toUpperCase fields s Hreq Hsev)
    as [(result & Hok & Hs & Hg & Hr & Hother) | ([message Hthrow] & Hbad)].
  - assert (Hv : validate (JStr raw) = JObj result).
    { unfold Platform.validate. now rewrite Htry, Hok. }
    exists result. split; [exact Hv|]. split.
    { intros H. now rewrite Hs, (Hmod H). }
    split; [|now apply Hhandler].
    intros _. split; [now rewrite Htry|]. split; [exact Hs|].
    split; apply Hother; discriminate.
  - assert (Hv : validate (JStr raw) = FALLBACK).
    { unfold Platform.validate. now rewrite Htry, Hthrow. }
    eexists. split; [exact Hv|]. split; [reflexivity|].
    split; [|now apply Hhandler].
    intros Htyped. now destruct Hbad.
Qed.

(** C6, as amended. For every parsed object that passes the required-field
    check: when its severity is a string, the severity is upper-cased and,
    if the upper-cased value is not LOW, MODERATE, HIGH or CRITICAL,
    replaced by MODERATE, without failing the request (the validator
    returns an object and the handler answers status 200 with it), and with
    a safe_guidance that is absent, null or a string that object is the
    validated result: normalised severity, the model's disease_category and
    reason.  When its severity is not a string the [try] block throws and
    the validator returns the fixed fallback result.  The upper-casing is
    the platform's, whatever it does to the text. *)
Theorem severity_is_normalized (raw : string) (fields : list (string * json)) :
  JSON_parse (Platform.extractJson (Platform.trim raw)) = Some (JObj fields) ->
  (forall k, In k triageRequired -> truthy (getField k fields) = true) ->
  (forall s,
     getField "severity" fields = Some (JStr s) ->
     memberOf (normalizeSeverity s) validSeverities = true
     /\ (memberOf (toUpperCase s) validSeverities = true ->
           normalizeSeverity s = toUpperCase s)
     /\ (memberOf (toUpperCase s) validSeverities = false ->
           normalizeSeverity s = "MODERATE")
     /\ exists result,
          validate (JStr raw) = JObj result
          /\ (memberOf (toUpperCase s) validSeverities = false ->
                getField "severity" result = Some (JStr "MODERATE"))
          /\ (guidanceTyped (getField "safe_guidance" fields) ->
                tryValidate (JStr raw) = Ok (JObj result)
                /\ getField "severity" result = Some (JStr (normalizeSeverity s))
                /\ getField "disease_category" result
                   = getField "disease_category" fields
                /\ getField "reason" result = getField "reason" fields)
          /\ (forall e req,
                Platform.missingText (symptoms req) = false ->
                Platform.findRule toLowerCase (safety_rules e)
                  (Platform.fullTextOf toLowerCase req) = None ->
                ai e = AiContent (Some (JStr raw)) ->
                Js.nonEmpty raw = true ->
                analyzeSymptoms e req
                = ([SelectRules; CallModel;
                    InsertPatientQuery (patientQueryRow req (JObj result))],
                   Resp 200 (JObj result))))
  /\ ((forall s, getField "severity" fields <> Some (JStr s)) ->
        validate (JStr raw) = FALLBACK).
Proof.
  intros Hparse Hreq. split.
  - intros s Hsev. now apply platform_string_severity.
  - intros Hns. unfold Platform.validate.
    rewrite (platform_validate_parsed raw _ Hparse).
    now destruct (platform_untyped_severity_throws toLowerCase toUpperCase fields Hns)
      as [message ->].
Qed.

(** C7. For a parsed object that passes the required-field check and
    carries a string safe_guidance, the returned safe_guidance (null when
    the severity is CRITICAL) is the model's text in which, for each term
    of the prohibited list in turn, every match of the term in any letter
    case, found from left to right, is replaced by the neutral phrase
    [medication (consult doctor)] and every other character is kept; no
    prohibited term occurs in it in any letter case; a text without
    prohibited terms is returned as it is; disease_category and reason are
    returned as the model wrote them, and so is recommendation unless the
    severity is CRITICAL: these fields are not scanned.  Of [toLowerCase]
    this needs that a term spelled in ASCII letters of any case is found in
    lower case in the lower-cased text. *)
Theorem prohibited_terms_are_replaced (raw : string)
    (fields : list (string * json)) (s guidance : string) :
  lowersTerms toLowerCase ->
  JSON_parse (Platform.extractJson (Platform.trim raw)) = Some (JObj fields) ->
  (forall k, In k triageRequired -> truthy (getField k fields) = true) ->
  getField "severity" fields = Some (JStr s) ->
  getField "safe_guidance" fields = Some (JStr guidance) ->
  exists result,
    validate (JStr raw) = JObj result
    /\ getField "safe_guidance" result
       = (if String.eqb (normalizeSeverity s) "CRITICAL" then Some JNull
          else Some (JStr (medicationFilter guidance)))
    /\ Platform.ReplacedEach NEUTRAL PROHIBITED_MEDICATION_TYPES
         guidance (medicationFilter guidance)
    /\ termFree (medicationFilter guidance)
    /\ (termFree guidance -> medicationFilter guidance = guidance)
    /\ getField "disease_category" result = getField "disease_category" fields
    /\ getField "reason" result = getField "reason" fields
    /\ getField "recommendation" result
       = (if String.eqb (normalizeSeverity s) "CRITICAL" then Some (JStr EMERGENCY)
          else getField "recommendation" fields).
Proof.
  intros Hlower Hparse Hreq Hsev Hsg.
  pose proof (platform_validate_parsed raw _ Hparse) as Htry.
  destruct (platform_filter_spec toLowerCase guidance Hlower) as [Hchain Hclean].
  destruct (platform_sanitize_cases toLowerCase toUpperCase fields s Hreq Hsev)
    as [(result & Hok & Hs & Hg & Hr & Hother) | (_ & Hbad)].
  2:{ destruct Hbad. right. right. now exists guidance. }
  exists result. split.
  { unfold Platform.validate. now rewrite Htry, Hok. }
  split.
  { rewrite Hg, platform_afterCritical_guidance, Hsg.
    now destruct (String.eqb (normalizeSeverity s) "CRITICAL"). }
  split; [exact Hchain|]. split; [exact Hclean|].
  split; [intros Hfree; now apply (ReplacedEach_absent _ _ _ Hchain)|].
  split; [apply Hother; discriminate|].
  split; [apply Hother; discriminate|].
  rewrite Hr. apply platform_afterCritical_recommendation.
Qed.

End PlatformValidated.

(** ** medication-info: the dosage guard *)

Lemma platform_dosage_constants_clean :
  Re.test Platform.dosagePattern DOSAGE_FIXED = false
  /\ Re.test Platform.dosagePattern
       "Consult a healthcare provider for proper dosage instructions" = false.
Proof. split; vm_compute; reflexivity. Qed.

Section PlatformMedication.

Variable toLowerCase : string -> string.
Variable JSON_parse : string -> option json.

(** C8. For a parsed object that passes the required-field check and whose
    dosage_info, lower-cased as line 424 does, matches the numeric-dosage
    pattern (digits, any white space, then mg, ml, tablet(s), pill(s),
    time(s) or hour(s) in any letter case), the guard replaces the whole
    field by the fixed follow-the-prescription text; the dosage_info that
    is returned does not match the pattern.  (With a disclaimer that is not
    a string the later disclaimer guard throws and the fallback object is
    returned, whose dosage_info does not match either.) *)
Theorem dosage_is_sanitized (medicineName raw : string)
    (fields : list (string * json)) (dosage : string) :
  JSON_parse (Platform.extractJson (Platform.trim raw)) = Some (JObj fields) ->
  (forall k, In k requiredFields -> truthy (getField k fields) = true) ->
  getField "dosage_info" fields = Some (JStr dosage) ->
  Re.test Platform.dosagePattern (toLowerCase dosage) = true ->
  Platform.sanitizeDosage toLowerCase (JObj fields)
  = Ok (JObj (setField "dosage_info" (JStr DOSAGE_FIXED) fields))
  /\ Re.test Platform.dosagePattern DOSAGE_FIXED = false
  /\ exists result text,
       Platform.validateMedication toLowerCase JSON_parse medicineName (JStr raw)
       = JObj result
       /\ getField "dosage_info" result = Some (JStr text)
       /\ Re.test Platform.dosagePattern text = false
       /\ ((exists disclaimer, getField "disclaimer" fields = Some (JStr disclaimer)) ->
             Platform.tryValidateMedication toLowerCase JSON_parse (JStr raw)
             = Ok (JObj result)
             /\ text = DOSAGE_FIXED).
Proof.
  intros Hparse Hreq Hdos Hmatch.
  destruct platform_dosage_constants_clean as [Hfixed Hfallback].
  assert (Hguard : Platform.sanitizeDosage toLowerCase (JObj fields)
                   = Ok (JObj (setField "dosage_info" (JStr DOSAGE_FIXED) fields))).
  { unfold Platform.sanitizeDosage. simpl. rewrite Hdos. simpl. now rewrite Hmatch. }
  split; [exact Hguard|]. split; [exact Hfixed|].
  assert (Htry : Platform.tryValidateMedication toLowerCase JSON_parse (JStr raw)
                 = Platform.sanitizeDisclaimer toLowerCase
                     (JObj (setField "dosage_info" (JStr DOSAGE_FIXED) fields))).
  { unfold Platform.tryValidateMedication, parseJson. simpl. rewrite Hparse. simpl.
    unfold Platform.sanitizeMedication. rewrite (checkRequired_passes fields _ Hreq).
    simpl bind. now rewrite Hguard. }
  assert (Hdisc :
    Platform.sanitizeDisclaimer toLowerCase
      (JObj (setField "dosage_info" (JStr DOSAGE_FIXED) fields))
    = match getField "disclaimer" fields with
      | Some (JStr d) =>
          Ok (JObj
                (if negb (Js.includes (toLowerCase d) "educational")
                    || negb (Js.includes (toLowerCase d) "not replace")
                 then setField "disclaimer" (JStr DISCLAIMER_FIXED)
                        (setField "dosage_info" (JStr DOSAGE_FIXED) fields)
                 else setField "dosage_info" (JStr DOSAGE_FIXED) fields))
      | _ => Throw "TypeError: toLowerCase is not a function"
      end).
  { unfold Platform.sanitizeDisclaimer. simpl bind at 1. cbv beta.
    rewrite getField_setField_other by discriminate.
    destruct (getField "disclaimer" fields) as [[| | |d| |]|]; try reflexivity.
    simpl. now destruct (negb _ || negb _). }
  unfold Platform.validateMedication. rewrite Htry, Hdisc.
  destruct (getField "disclaimer" fields) as [[| | |d| |]|] eqn:Ed;
    try (eexists; eexists; split; [reflexivity|];
         split; [reflexivity|]; split; [exact Hfallback|];
         intros [d' Hd']; discriminate).
  eexists. exists DOSAGE_FIXED. split; [reflexivity|]. split.
  - destruct (negb _ || negb _).
    + rewrite getField_setField_other by discriminate. apply getField_setField_same.
    + apply getField_setField_same.
  - split; [exact Hfixed|]. intros _. split; reflexivity.
Qed.

End PlatformMedication.

(** ** The claims at sample requests

    The samples are ASCII texts, on which [Js.toLowerCase] and
    [Js.toUpperCase] are the platform's functions. *)

Lemma override_first_match_witness :
  Platform.missingText (symptoms (sampleRequest "Severe CHEST pain since morning" EmptyString))
  = false
  /\ exists before matched after body,
       sampleRules = (before ++ matched :: after)%list
       /\ Platform.analyzeSymptoms Js.toLowerCase Js.toUpperCase (sampleParse [])
            (sampleEnv sampleRules (AiNotOk "unused"))
            (sampleRequest "Severe CHEST pain since morning" EmptyString)
          = ([SelectRules; SelectGuidance;
              InsertPatientQuery
                (patientQueryRow
                   (sampleRequest "Severe CHEST pain since morning" EmptyString) body)],
             Resp 200 body)
       /\ prop body "disease_category" = Ok (Some (JStr (category matched)))
       /\ prop body "severity" = Ok (Some (JStr "CRITICAL")).
Proof.
  split; [reflexivity|].
  destruct (override_first_match Js.toLowerCase Js.toUpperCase (sampleParse [])
              (sampleEnv sampleRules (AiNotOk "unused"))
              (sampleRequest "Severe CHEST pain since morning" EmptyString)
              sampleRules (sampleRule "pain" "Pain"))
    as (before & matched & after & body & Hsplit & Hm & Hb & Hrun & Hdc & Hsev & _);
    [reflexivity | reflexivity | simpl; tauto | vm_compute; reflexivity |].
  exists before, matched, after, body.
  split; [exact Hsplit|]. split; [exact Hrun|]. split; [exact Hdc | exact Hsev].
Defined.

(** The claim C2 as the specification words it fails: the keyword occurs in
    the concatenation of the two texts, but the handler joins them with a
    blank, finds no rule and calls the model. *)
Lemma override_concatenation_counterexample :
  Js.includes (specFullText (sampleRequest "chest" "pain"))
              (Js.toLowerCase (keyword (sampleRule "chestpain" "Cardiac"))) = true
  /\ Platform.analyzeSymptoms Js.toLowerCase Js.toUpperCase (sampleParse [])
       (sampleEnv [sampleRule "chestpain" "Cardiac"]
                  (AiContent (Some (JStr "I cannot help with that."))))
       (sampleRequest "chest" "pain")
     = ([SelectRules; CallModel;
         InsertPatientQuery (patientQueryRow (sampleRequest "chest" "pain") FALLBACK)],
        Resp 200 FALLBACK)
  /\ prop FALLBACK "is_override" = Ok None.
Proof. repeat split; vm_compute; reflexivity. Qed.

Lemma empty_keyword_matches_everything_witness :
  exists matched,
    Platform.analyzeSymptoms Js.toLowerCase Js.toUpperCase (sampleParse [])
      (sampleEnv [sampleRule "seizure" "Neurological"; sampleRule EmptyString "Unknown";
                  sampleRule "headache" "Pain"]
                 (AiNotOk "unused"))
      (sampleRequest "just a mild headache" "vitamin C")
    = ([SelectRules; SelectGuidance;
        InsertPatientQuery
          (patientQueryRow (sampleRequest "just a mild headache" "vitamin C")
             (overrideResult
                (sampleEnv [sampleRule "seizure" "Neurological";
                            sampleRule EmptyString "Unknown"; sampleRule "headache" "Pain"]
                           (AiNotOk "unused"))
                (sampleRequest "just a mild headache" "vitamin C") matched))],
       Resp 200
         (overrideResult
            (sampleEnv [sampleRule "seizure" "Neurological";
                        sampleRule EmptyString "Unknown"; sampleRule "headache" "Pain"]
                       (AiNotOk "unused"))
            (sampleRequest "just a mild headache" "vitamin C") matched))
    /\ Platform.matches Js.toLowerCase
         (sampleRequest "just a mild headache" "vitamin C") matched = true.
Proof.
  destruct (empty_keyword_matches_everything Js.toLowerCase Js.toUpperCase (sampleParse [])
              (sampleEnv [sampleRule "seizure" "Neurological";
                          sampleRule EmptyString "Unknown"; sampleRule "headache" "Pain"]
                         (AiNotOk "unused"))
              (sampleRequest "just a mild headache" "vitamin C")
              [sampleRule "seizure" "Neurological"; sampleRule EmptyString "Unknown";
               sampleRule "headache" "Pain"]
              (sampleRule EmptyString "Unknown"))
    as (_ & before & matched & after & _ & Hm & _ & _ & Hrun & _);
    [reflexivity | reflexivity | reflexivity | simpl; tauto | reflexivity |].
  exists matched. split; [exact Hrun | exact Hm].
Defined.

Lemma severity_is_normalized_witness :
  memberOf (Js.toUpperCase "Urgent") validSeverities = false
  /\ exists result,
       Platform.validate Js.toLowerCase Js.toUpperCase
         (sampleParse (sampleTable (sampleModelObject "Urgent" "Drink fluids.")))
         (JStr sampleModelText) = JObj result
       /\ getField "severity" result = Some (JStr "MODERATE")
       /\ getField "disease_category" result = Some (JStr "Respiratory").
Proof.
  split; [reflexivity|].
  destruct (severity_is_normalized Js.toLowerCase Js.toUpperCase
              (sampleParse (sampleTable (sampleModelObject "Urgent" "Drink fluids.")))
              sampleModelText
              [ ("disease_category", JStr "Respiratory");
                ("severity", JStr "Urgent");
                ("recommendation", JStr "rest at home");
                ("reason", JStr "Common seasonal symptoms.");
                ("safe_guidance", JStr "Drink fluids.") ])
    as [Hstring _].
  - reflexivity.
  - intros k Hk. simpl in Hk.
    repeat (destruct Hk as [<- | Hk]; [reflexivity|]). destruct Hk.
  - destruct (Hstring "Urgent" eq_refl)
      as (_ & _ & _ & result & Hv & Hmod & Htyped & _).
    exists result. split; [exact Hv|]. split; [now apply Hmod|].
    destruct Htyped as (_ & _ & Hdc & _).
    + right. right. now eexists.
    + exact Hdc.
Defined.

(** The claim C6 fails for objects that pass the required-field check with
    values of other types: a numeric severity cannot be upper-cased, and an
    array as safe_guidance makes the medication filter throw after the
    severity was normalised to HIGH; both requests end with the fallback
    result, severity MODERATE, not with the validated object. *)
Lemma severity_normalization_counterexample :
  (forall k, In k triageRequired ->
     truthy (getField k [ ("disease_category", JStr "Flu"); ("severity", JNum 3);
                          ("recommendation", JStr "Rest") ]) = true)
  /\ Platform.validate Js.toLowerCase Js.toUpperCase
       (sampleParse
          (sampleTable
             (JObj [ ("disease_category", JStr "Flu"); ("severity", JNum 3);
                     ("recommendation", JStr "Rest") ])))
       (JStr sampleModelText)
     = FALLBACK
  /\ (forall k, In k triageRequired ->
        truthy (getField k [ ("disease_category", JStr "Flu"); ("severity", JStr "high");
                             ("recommendation", JStr "Rest");
                             ("safe_guidance", JArr [JStr "tea"]) ]) = true)
  /\ Platform.normalizeSeverity Js.toUpperCase "high" = "HIGH"
  /\ Platform.validate Js.toLowerCase Js.toUpperCase
       (sampleParse
          (sampleTable
             (JObj [ ("disease_category", JStr "Flu"); ("severity", JStr "high");
                     ("recommendation", JStr "Rest");
                     ("safe_guidance", JArr [JStr "tea"]) ])))
       (JStr sampleModelText)
     = FALLBACK
  /\ prop FALLBACK "severity" = Ok (Some (JStr "MODERATE"))
  /\ prop FALLBACK "disease_category" = Ok (Some (JStr "General Health Concern")).
Proof.
  repeat split; try reflexivity;
    intros k Hk; simpl in Hk;
    repeat (destruct Hk as [<- | Hk]; [reflexivity|]); destruct Hk.
Qed.

Lemma prohibited_terms_are_replaced_witness :
  Js.includes_i "Ask for an Antibiotic or a STEROID cream." "antibiotic" = true
  /\ exists result,
       Platform.validate Js.toLowerCase Js.toUpperCase
         (sampleParse
            (sampleTable (sampleModelObject "low" "Ask for an Antibiotic or a STEROID cream.")))
         (JStr sampleModelText) = JObj result
       /\ getField "safe_guidance" result
          = Some (JStr "Ask for an medication (consult doctor) or a medication (consult doctor) cream.")
       /\ getField "recommendation" result = Some (JStr "rest at home").
Proof.
  split; [vm_compute; reflexivity|].
  destruct (prohibited_terms_are_replaced Js.toLowerCase Js.toUpperCase
              (sampleParse
                 (sampleTable (sampleModelObject "low" "Ask for an Antibiotic or a STEROID cream.")))
              sampleModelText
              [ ("disease_category", JStr "Respiratory");
                ("severity", JStr "low");
                ("recommendation", JStr "rest at home");
                ("reason", JStr "Common seasonal symptoms.");
                ("safe_guidance", JStr "Ask for an Antibiotic or a STEROID cream.") ]
              "low" "Ask for an Antibiotic or a STEROID cream.")
    as (result & Hv & Hg & _ & _ & _ & _ & _ & Hr).
  - exact ascii_lowersTerms.
  - reflexivity.
  - intros k Hk. simpl in Hk.
    repeat (destruct Hk as [<- | Hk]; [reflexivity|]). destruct Hk.
  - reflexivity.
  - reflexivity.
  - exists result. split; [exact Hv|]. split.
    + rewrite Hg. vm_compute. reflexivity.
    + rewrite Hr. vm_compute. reflexivity.
Defined.

Lemma dosage_is_sanitized_witness :
  Re.test Platform.dosagePattern (Js.toLowerCase "Take 500 MG twice daily") = true
  /\ exists result,
       Platform.validateMedication Js.toLowerCase
         (sampleParse (sampleTable (sampleMedication "Take 500 MG twice daily")))
         "Paracetamol" (JStr sampleModelText) = JObj result
       /\ getField "dosage_info" result = Some (JStr DOSAGE_FIXED).
Proof.
  split; [vm_compute; reflexivity|].
  destruct (dosage_is_sanitized Js.toLowerCase
              (sampleParse (sampleTable (sampleMedication "Take 500 MG twice daily")))
              "Paracetamol" sampleModelText
              [ ("medicine_name", JStr "Paracetamol");
                ("overview", JStr "A common pain reliever.");
                ("common_uses", JStr "Commonly used for fever.");
                ("dosage_info", JStr "Take 500 MG twice daily");
                ("side_effects", JStr "Nausea in rare cases.");
                ("warnings", JStr "Avoid with alcohol.");
                ("when_to_consult", JStr "If symptoms persist.");
                ("disclaimer", JStr "For educational purposes only; does not replace professional advice.") ]
              "Take 500 MG twice daily")
    as (_ & _ & result & text & Hv & Hd & _ & Htyped).
  - reflexivity.
  - intros k Hk. simpl in Hk.
    repeat (destruct Hk as [<- | Hk]; [reflexivity|]). destruct Hk.
  - reflexivity.
  - vm_compute; reflexivity.
  - exists result. split; [exact Hv|].
    destruct Htyped as [_ ->]; [now eexists | exact Hd].
Defined.

Lemma stored_row_has_four_result_fields_witness :
  exists fields row,
    Platform.inserted
      (fst (Platform.analyzeSymptoms Js.toLowerCase Js.toUpperCase (sampleParse [])
              (sampleEnv sampleRules (AiNotOk "unused"))
              (sampleRequest "sudden chest pain" "aspirin")))
    = [row]
    /\ column "severity" row = getField "severity" fields
    /\ column "severity" row = Some (JStr "CRITICAL")
    /\ column "prescription_text" row = Some (JStr "aspirin").
Proof.
  destruct (stored_row_has_four_result_fields Js.toLowerCase Js.toUpperCase (sampleParse [])
              (sampleEnv sampleRules (AiNotOk "unused"))
              (sampleRequest "sudden chest pain" "aspirin")
              (fst (Platform.analyzeSymptoms Js.toLowerCase Js.toUpperCase (sampleParse [])
                      (sampleEnv sampleRules (AiNotOk "unused"))
                      (sampleRequest "sudden chest pain" "aspirin")))
              (overrideResult (sampleEnv sampleRules (AiNotOk "unused"))
                 (sampleRequest "sudden chest pain" "aspirin")
                 (sampleRule "Chest Pain" "Cardiac")))
    as (fields & row & Hbody & Hin & _ & Hcols & _ & Hpres & _); [reflexivity|].
  exists fields, row. split; [exact Hin|]. split.
  - apply Hcols. simpl. tauto.
  - split; [|exact Hpres].
    rewrite (Hcols "severity") by (simpl; tauto).
    injection Hbody as <-. reflexivity.
Defined.

(** The claim C9 fails: the override result carries is_override and
    safe_guidance, the fallback result carries a safe_guidance text, and
    the stored row has neither column. *)
Lemma stored_row_counterexample :
  Platform.analyzeSymptoms Js.toLowerCase Js.toUpperCase (sampleParse [])
    (sampleEnv sampleRules (AiNotOk "unused"))
    (sampleRequest "sudden chest pain" EmptyString)
  = ([SelectRules; SelectGuidance;
      InsertPatientQuery
        (patientQueryRow (sampleRequest "sudden chest pain" EmptyString)
           (overrideResult (sampleEnv sampleRules (AiNotOk "unused"))
              (sampleRequest "sudden chest pain" EmptyString)
              (sampleRule "Chest Pain" "Cardiac")))],
     Resp 200
       (overrideResult (sampleEnv sampleRules (AiNotOk "unused"))
          (sampleRequest "sudden chest pain" EmptyString)
          (sampleRule "Chest Pain" "Cardiac")))
  /\ prop (overrideResult (sampleEnv sampleRules (AiNotOk "unused"))
             (sampleRequest "sudden chest pain" EmptyString)
             (sampleRule "Chest Pain" "Cardiac")) "is_override"
     = Ok (Some (JBool true))
  /\ column "is_override"
       (patientQueryRow (sampleRequest "sudden chest pain" EmptyString)
          (overrideResult (sampleEnv sampleRules (AiNotOk "unused"))
             (sampleRequest "sudden chest pain" EmptyString)
             (sampleRule "Chest Pain" "Cardiac")))
     = None
  /\ Platform.analyzeSymptoms Js.toLowerCase Js.toUpperCase (sampleParse [])
       (sampleEnv sampleRules (AiContent (Some (JStr "I cannot help with that."))))
       (sampleRequest "mild headache" EmptyString)
     = ([SelectRules; CallModel;
         InsertPatientQuery
           (patientQueryRow (sampleRequest "mild headache" EmptyString) FALLBACK)],
        Resp 200 FALLBACK)
  /\ prop FALLBACK "safe_guidance"
     = Ok (Some (JStr "Please consult a healthcare provider for proper assessment and guidance."))
  /\ column "safe_guidance"
       (patientQueryRow (sampleRequest "mild headache" EmptyString) FALLBACK)
     = None.
Proof. repeat split; vm_compute; reflexivity. Qed.

Lemma model_called_iff_unmatched_witness :
  hasCallModel
    (fst (Platform.analyzeSymptoms Js.toLowerCase Js.toUpperCase
            (sampleParse (sampleTable sampleAnswer))
            (sampleEnv sampleRules (AiContent (Some (JStr sampleModelText))))
            (sampleRequest "mild cough" EmptyString))) = true.
Proof.
  apply (model_called_iff_unmatched Js.toLowerCase Js.toUpperCase
           (sampleParse (sampleTable sampleAnswer))
           (sampleEnv sampleRules (AiContent (Some (JStr sampleModelText))))
           (sampleRequest "mild cough" EmptyString)).
  split; [reflexivity|].
  intros table rule [= <-] Hin. simpl in Hin.
  repeat (destruct Hin as [<- | Hin]; [vm_compute; reflexivity|]). destruct Hin.
Defined.

(** ** On ASCII text the two embeddings agree

    The handlers of the first part are the handlers of [Platform] at the
    ASCII case mappings, as far as the texts they read are ASCII: there
    white space is the white space of ECMAScript, and [Js.toLowerCase] and
    [Js.toUpperCase] are what the platform computes. *)

Module AsciiFacts.

Lemma asciiText_cons (c : ascii) (s : string) :
  asciiText (String c s) = true ->
  (N_of_ascii c < 128)%N /\ asciiText s = true.
Proof.
  unfold asciiText. simpl. intros H. apply andb_true_iff in H as [Hc Hs].
  split; [now apply N.ltb_lt | exact Hs].
Qed.

Lemma spaceWidth_ascii (c : ascii) (s : string) :
  (N_of_ascii c < 128)%N ->
  Platform.spaceWidth (String c s) = if Js.isSpace c then 1 else 0.
Proof.
  intros Hc.
  assert (Hb : forall n, (128 <= n)%N -> Platform.byte n c = false).
  { intros n Hn. unfold Platform.byte. apply N.eqb_neq. lia. }
  cbn [Platform.spaceWidth]. destruct (Js.isSpace c); [reflexivity|].
  destruct s as [|c1 [|c2 s2]]; [reflexivity| |];
    rewrite ?(Hb 194%N), ?(Hb 225%N), ?(Hb 226%N), ?(Hb 227%N), ?(Hb 239%N) by lia;
    reflexivity.
Qed.

Lemma trimStart_cons (c : ascii) (s : string) :
  (N_of_ascii c < 128)%N ->
  Platform.trimStart (String c s)
  = if Js.isSpace c then Platform.trimStart s else String c s.
Proof.
  intros Hc.
  change (Platform.trimStart (String c s))
    with (match Platform.spaceWidth (String c s) with
          | 0 => String c s
          | 1 => Platform.trimStart s
          | 2 => match s with
                 | String _ rest1 => Platform.trimStart rest1
                 | EmptyString => String c s
                 end
          | _ => match s with
                 | String _ (String _ rest2) => Platform.trimStart rest2
                 | _ => String c s
                 end
          end).
  rewrite (spaceWidth_ascii c s Hc). now destruct (Js.isSpace c).
Qed.

Lemma blank_cons (c : ascii) (s : string) :
  (N_of_ascii c < 128)%N ->
  Platform.blank (String c s) = Js.isSpace c && Platform.blank s.
Proof.
  intros Hc.
  change (Platform.blank (String c s))
    with (match Platform.spaceWidth (String c s) with
          | 0 => false
          | 1 => Platform.blank s
          | 2 => match s with
                 | String _ rest1 => Platform.blank rest1
                 | EmptyString => false
                 end
          | _ => match s with
                 | String _ (String _ rest2) => Platform.blank rest2
                 | _ => false
                 end
          end).
  rewrite (spaceWidth_ascii c s Hc). now destruct (Js.isSpace c).
Qed.

Lemma trimStart_ascii (s : string) :
  asciiText s = true -> Platform.trimStart s = Js.trimStart s.
Proof.
  induction s as [|c s IH]; intros H; [reflexivity|].
  apply asciiText_cons in H as [Hc Hs].
  rewrite (trimStart_cons c s Hc). simpl. now rewrite (IH Hs).
Qed.

Lemma blank_ascii (s : string) :
  asciiText s = true -> Platform.blank s = allSpace s.
Proof.
  induction s as [|c s IH]; intros H; [reflexivity|].
  apply asciiText_cons in H as [Hc Hs].
  rewrite (blank_cons c s Hc). simpl. now rewrite (IH Hs).
Qed.

Lemma trimEnd_empty (s : string) :
  Js.trimEnd s = EmptyString <-> allSpace s = true.
Proof.
  induction s as [|c s IH]; simpl; [tauto|].
  destruct (Js.trimEnd s) as [|d r] eqn:E.
  - destruct (Js.isSpace c); simpl.
    + split; [intros _; now apply IH | reflexivity].
    + split; discriminate.
  - split; [discriminate|]. intros H. apply andb_true_iff in H as [_ H].
    apply IH in H. discriminate.
Qed.

Lemma trimEnd_ascii (s : string) :
  asciiText s = true -> Platform.trimEnd s = Js.trimEnd s.
Proof.
  induction s as [|c s IH]; intros H; [reflexivity|].
  pose proof (blank_ascii _ H) as Hblank.
  apply asciiText_cons in H as [Hc Hs].
  cbn [Platform.trimEnd]. rewrite Hblank, (IH Hs).
  destruct (allSpace (String c s)) eqn:Eall.
  - symmetry. now apply trimEnd_empty.
  - simpl in Eall. simpl.
    destruct (Js.trimEnd s) as [|d r] eqn:E; [|reflexivity].
    assert (Hs' : allSpace s = true) by now apply trimEnd_empty.
    rewrite Hs', andb_true_r in Eall. now rewrite Eall.
Qed.

Lemma trimStart_keeps (s : string) :
  asciiText s = true -> asciiText (Js.trimStart s) = true.
Proof.
  induction s as [|c s IH]; intros H; [reflexivity|].
  simpl. destruct (Js.isSpace c); [|exact H].
  apply IH. now apply asciiText_cons in H.
Qed.

Lemma trimEnd_keeps (s : string) :
  asciiText s = true -> asciiText (Js.trimEnd s) = true.
Proof.
  induction s as [|c s IH]; intros H; [reflexivity|].
  pose proof H as H'. apply asciiText_cons in H' as [Hc Hs].
  assert (Hc' : (N_of_ascii c <? 128)%N = true) by now apply N.ltb_lt.
  simpl. specialize (IH Hs). destruct (Js.trimEnd s) as [|d r].
  - destruct (Js.isSpace c); [reflexivity|]. unfold asciiText. simpl. now rewrite Hc'.
  - unfold asciiText in *. cbn [allChars] in *. now rewrite Hc', IH.
Qed.

Lemma trim_ascii (s : string) :
  asciiText s = true ->
  Platform.trim s = Js.trim s /\ asciiText (Js.trim s) = true.
Proof.
  intros H. unfold Platform.trim, Js.trim. rewrite (trimStart_ascii s H).
  split; [apply trimEnd_ascii | apply trimEnd_keeps]; now apply trimStart_keeps.
Qed.

Lemma substring_keeps (s : string) :
  asciiText s = true -> forall n m, asciiText (substring n m s) = true.
Proof.
  induction s as [|c s IH]; intros H n m.
  - destruct n, m; reflexivity.
  - pose proof H as H'. apply asciiText_cons in H' as [Hc Hs].
    destruct n as [|n]; [destruct m as [|m]; [reflexivity|] | now apply IH].
    simpl. unfold asciiText in *. cbn [allChars] in *.
    apply andb_true_iff in H as [Hc' _]. rewrite Hc'. now apply IH.
Qed.

Lemma splitAt_eq (t s : string) :
  Js.splitAt t s
  = if Js.startsWith s t
    then Some (EmptyString,
               substring (String.length t) (String.length s - String.length t) s)
    else match s with
         | EmptyString => None
         | String c s' =>
             match Js.splitAt t s' with
             | Some (before, after) => Some (String c before, after)
             | None => None
             end
         end.
Proof. destruct s; reflexivity. Qed.

Lemma splitAt_keeps (t s : string) (before after : string) :
  asciiText s = true ->
  Js.splitAt t s = Some (before, after) ->
  asciiText before = true /\ asciiText after = true.
Proof.
  revert before after. induction s as [|c s IH]; intros before after H;
    rewrite splitAt_eq.
  - destruct (Js.startsWith EmptyString t); [|discriminate].
    intros Heq.
    assert (Hbefore : EmptyString = before) by congruence.
    assert (Hafter : substring (String.length t)
                       (String.length EmptyString - String.length t) EmptyString
                     = after) by congruence.
    rewrite <- Hbefore, <- Hafter. split; [reflexivity | now apply substring_keeps].
  - destruct (Js.startsWith (String c s) t).
    + intros Heq.
      assert (Hbefore : EmptyString = before) by congruence.
      assert (Hafter : substring (String.length t)
                         (String.length (String c s) - String.length t) (String c s)
                       = after) by congruence.
      rewrite <- Hbefore, <- Hafter. split; [reflexivity | now apply substring_keeps].
    + pose proof H as H'. apply asciiText_cons in H' as [Hc Hs].
      destruct (Js.splitAt t s) as [[b a]|]; [|discriminate].
      intros [= <- <-]. destruct (IH b a Hs eq_refl) as [Hb Ha].
      split; [|exact Ha]. unfold asciiText in *. cbn [allChars] in *.
      apply andb_true_iff in H as [Hc' _]. now rewrite Hc', Hb.
Qed.

Lemma matchFence_ascii (s : string) :
  asciiText s = true ->
  Platform.matchFence s = Js.matchFence s
  /\ forall capture, Js.matchFence s = Some capture -> asciiText capture = true.
Proof.
  intros H. unfold Platform.matchFence, Js.matchFence.
  destruct (Js.splitAt "```" s) as [[before rest]|] eqn:E; [|split; [reflexivity | discriminate]].
  destruct (splitAt_keeps _ _ _ _ H E) as [_ Hrest].
  assert (Hdrop : asciiText (Js.dropPrefix "json" rest) = true).
  { unfold Js.dropPrefix. destruct (Js.startsWith rest "json"); [|exact Hrest].
    now apply substring_keeps. }
  rewrite (trimStart_ascii _ Hdrop). split; [reflexivity|].
  intros capture.
  destruct (Js.splitAt "```" (Js.trimStart (Js.dropPrefix "json" rest)))
    as [[cap after]|] eqn:E2; [|discriminate].
  intros [= <-].
  apply (splitAt_keeps _ _ _ _ (trimStart_keeps _ Hdrop) E2).
Qed.

Lemma extractJson_ascii (s : string) :
  asciiText s = true -> Platform.extractJson s = extractJson s.
Proof.
  intros H. unfold Platform.extractJson, extractJson.
  destruct (matchFence_ascii s H) as [-> Hcap].
  destruct (Js.includes s "```"); [|reflexivity].
  destruct (Js.matchFence s) as [capture|]; [|reflexivity].
  now rewrite (proj1 (trim_ascii capture (Hcap capture eq_refl))).
Qed.

End AsciiFacts.

Section AsciiAgreement.

Variable JSON_parse : string -> option json.

(** On an ASCII request whose model answer, if it is a text, is ASCII, the
    handler of the first part answers and does what the handler over the
    platform's strings does at the ASCII case mappings. *)
Theorem ascii_handlers_agree (e : Env) (req : TriageRequest) :
  asciiText (symptoms req) = true ->
  (forall raw, ai e = AiContent (Some (JStr raw)) -> asciiText raw = true) ->
  Platform.analyzeSymptoms Js.toLowerCase Js.toUpperCase JSON_parse e req
  = analyzeSymptoms JSON_parse e req.
Proof.
  intros Hsym Hraw. unfold Platform.analyzeSymptoms, analyzeSymptoms.
  assert (Hguard : Platform.missingText (symptoms req) = missingText (symptoms req)).
  { unfold Platform.missingText, missingText.
    now rewrite (proj1 (AsciiFacts.trim_ascii _ Hsym)). }
  rewrite Hguard. destruct (missingText (symptoms req)); [reflexivity|].
  change (Platform.findRule Js.toLowerCase (safety_rules e)
            (Platform.fullTextOf Js.toLowerCase req))
    with (findRule (safety_rules e) (fullTextOf req)).
  destruct (findRule (safety_rules e) (fullTextOf req)); [reflexivity|].
  destruct (ai e) as [m|t|[content|]] eqn:Eai; try reflexivity.
  destruct (truthy (Some content)); [|reflexivity].
  assert (Hv : Platform.validate Js.toLowerCase Js.toUpperCase JSON_parse content
               = validate JSON_parse content).
  { unfold Platform.validate, validate, Platform.tryValidate, tryValidate.
    destruct content as [| | |raw| |]; try reflexivity.
    destruct (AsciiFacts.trim_ascii raw (Hraw raw eq_refl)) as [Htrim Hascii].
    cbn [Platform.callTrim callTrim bind]. rewrite Htrim.
    now rewrite (AsciiFacts.extractJson_ascii _ Hascii). }
  now rewrite Hv.
Qed.

End AsciiAgreement.

Lemma ascii_handlers_agree_witness :
  Platform.analyzeSymptoms Js.toLowerCase Js.toUpperCase
    (sampleParse (sampleTable sampleAnswer))
    (sampleEnv sampleRules (AiContent (Some (JStr sampleModelText))))
    (sampleRequest "mild cough" EmptyString)
  = sampleRun.
Proof.
  apply (ascii_handlers_agree (sampleParse (sampleTable sampleAnswer))
           (sampleEnv sampleRules (AiContent (Some (JStr sampleModelText))))
           (sampleRequest "mild cough" EmptyString)).
  - reflexivity.
  - intros raw [= <-]. reflexivity.
Defined.

Module PatternFacts.
Import Re.

Lemma asciiText_app (a b : string) :
  asciiText (a ++ b) = asciiText a && asciiText b.
Proof. unfold asciiText. apply SignupFacts.allChars_app. Qed.

Lemma Lang_alt (r1 r2 : re) (w : string) :
  Lang (Alt r1 r2) w <-> Lang r1 w \/ Lang r2 w.
Proof.
  split.
  - intros H. inversion H; subst; tauto.
  - intros [H | H]; [now apply LangAltL | now apply LangAltR].
Qed.

(** A word that starts with a byte of 128 or more is not ASCII. *)
Lemma high_byte_first (b : N) (r : re) (w : string) :
  (128 <= b)%N ->
  Lang (Cat (Class (Platform.byte b)) r) w -> asciiText w = false.
Proof.
  intros Hb H. apply AnchoredFacts.Lang_cat in H as (w1 & w2 & -> & H1 & _).
  apply AnchoredFacts.Lang_class in H1 as (c & -> & Hc).
  unfold Platform.byte in Hc. apply N.eqb_eq in Hc.
  unfold asciiText. simpl.
  assert (Hhigh : (N_of_ascii c <? 128)%N = false) by (apply N.ltb_ge; lia).
  now rewrite Hhigh.
Qed.

Lemma whiteSpace_ascii (w : string) :
  asciiText w = true ->
  (Lang Platform.whiteSpace w <-> Lang (Class Js.isSpace) w).
Proof.
  intros Hw. split; [|now apply LangAltL].
  unfold Platform.whiteSpace. cbn [anyOf Platform.bytes].
  intros H.
  repeat (apply Lang_alt in H as [H | H];
          [ first [ exact H
                  | apply high_byte_first in H; [congruence | lia]
                  | apply AnchoredFacts.Lang_cat in H as (w1 & w2 & -> & H & _);
                    apply high_byte_first in H; [|lia];
                    rewrite asciiText_app, H in Hw; discriminate ] |]).
  inversion H.
Qed.

Lemma whiteSpaces_ascii (w : string) :
  asciiText w = true ->
  (Lang (Star Platform.whiteSpace) w <-> Lang (Star (Class Js.isSpace)) w).
Proof.
  intros Hw. split.
  - intros H. remember (Star Platform.whiteSpace) as r eqn:Er.
    induction H; try discriminate; [constructor|].
    injection Er as ->. rewrite asciiText_app in Hw.
    apply andb_true_iff in Hw as [Hw1 Hw2].
    constructor; [now apply whiteSpace_ascii | now apply IHLang2].
  - intros H. remember (Star (Class Js.isSpace)) as r eqn:Er.
    induction H; try discriminate; [constructor|].
    injection Er as ->. rewrite asciiText_app in Hw.
    apply andb_true_iff in Hw as [Hw1 Hw2].
    constructor; [now apply LangAltL | now apply IHLang2].
Qed.

(** On ASCII text the dosage pattern of the first part and the pattern
    with the full class [\s] match the same texts. *)
Lemma dosagePattern_ascii (s : string) :
  asciiText s = true ->
  test Platform.dosagePattern s = test dosagePattern s.
Proof.
  intros Hs.
  assert (Hword : forall w, asciiText w = true ->
            (Lang Platform.dosagePattern w <-> Lang dosagePattern w)).
  { intros w Hw. unfold Platform.dosagePattern, dosagePattern.
    rewrite !AnchoredFacts.Lang_cat. split.
    - intros (w1 & w2 & -> & H1 & H2).
      apply AnchoredFacts.Lang_cat in H2 as (w3 & w4 & -> & H3 & H4).
      rewrite !asciiText_app in Hw.
      apply andb_true_iff in Hw as [_ Hw]. apply andb_true_iff in Hw as [Hw3 _].
      exists w1. eexists. split; [reflexivity|]. split; [exact H1|].
      apply AnchoredFacts.Lang_cat. exists w3, w4.
      split; [reflexivity|]. split; [now apply whiteSpaces_ascii | exact H4].
    - intros (w1 & w2 & -> & H1 & H2).
      apply AnchoredFacts.Lang_cat in H2 as (w3 & w4 & -> & H3 & H4).
      rewrite !asciiText_app in Hw.
      apply andb_true_iff in Hw as [_ Hw]. apply andb_true_iff in Hw as [Hw3 _].
      exists w1. eexists. split; [reflexivity|]. split; [exact H1|].
      apply AnchoredFacts.Lang_cat. exists w3, w4.
      split; [reflexivity|]. split; [now apply whiteSpaces_ascii | exact H4]. }
  assert (Hiff : test Platform.dosagePattern s = true <-> test dosagePattern s = true).
  { rewrite !ReFacts.test_spec. split; intros (before & w & rest & E & H);
      exists before, w, rest; (split; [exact E|]); apply Hword; try exact H;
      rewrite E, !asciiText_app in Hs;
      apply andb_true_iff in Hs as [_ Hs]; now apply andb_true_iff in Hs as [Hs _]. }
  destruct (test Platform.dosagePattern s), (test dosagePattern s); try reflexivity.
  - symmetry. now apply Hiff.
  - now apply Hiff.
Qed.

End PatternFacts.
